(** * Rate control of the Motion-JPEG encoder (server/mjpeg-encoder.c)

    A functional model of the adaptive rate controller of the MJPEG video
    encoder: the quality evaluator, the bit-rate controller, the frame pacing,
    the server-drop monitor, the client-report handler and the per-frame
    facade.  Every C function of the controller is a Rocq function of the same
    name that takes the encoder and returns the updated encoder.

    Conventions.
    - Unsigned and signed C integers are [Z]; every operation that can leave
      the range of its C type is wrapped by [to_uint64], [to_uint32] or
      [to_int].
    - [double] is the primitive binary64 type [float]; the conversions between
      integers and doubles are written out.
    - The monotonic clock, the host callbacks, the compressed-buffer allocation
      and libjpeg are outside the encoder: what they return during one call
      is an argument of the function that calls them. *)

From Stdlib Require Import ZArith List Bool Lia Floats.
From Stdlib Require Uint63.
Import ListNotations.

Set Warnings "-inexact-float".
Local Open Scope Z_scope.

(** ** C integer types *)

Definition to_uint64 (z : Z) : Z := z mod 2 ^ 64.
Definition to_uint32 (z : Z) : Z := z mod 2 ^ 32.
(** 32-bit [int] (and [int32_t]); out-of-range values wrap, as gcc does. *)
Definition to_int (z : Z) : Z := (z + 2 ^ 31) mod 2 ^ 32 - 2 ^ 31.

(** The C macros [MIN(a, b) = (a < b) ? a : b] and
    [MAX(a, b) = (a > b) ? a : b], on integers already converted to their
    common type and on doubles. *)
Definition MIN (a b : Z) : Z := if a <? b then a else b.
Definition MAX (a b : Z) : Z := if a >? b then a else b.
Definition MINd (a b : float) : float := if PrimFloat.ltb a b then a else b.
Definition MAXd (a b : float) : float := if PrimFloat.ltb b a then a else b.

(** ** C doubles *)

(** Integer to double: round to nearest, ties to even. *)
Definition double_of_Z (z : Z) : float :=
  SF2Prim (binary_normalize prec emax z 0 false).

(** A double used as a C condition: true unless it compares equal to zero. *)
Definition double_nonzero (f : float) : bool := negb (PrimFloat.eqb f 0%float).

(** Magnitude of a finite double, truncated toward zero. *)
Definition trunc_magnitude (m : positive) (e : Z) : Z :=
  match e with
  | Z0 => Zpos m
  | Zpos p => Zpos m * 2 ^ Zpos p
  | Zneg p => Zpos m / 2 ^ Zpos p
  end.

Section Conversions.

(** Converting a double to [uint64_t] truncates toward zero.  When the
    truncated value is not representable (a NaN, an infinity, a value of at
    least 2^64 or at most -1) the C behaviour is undefined; whatever the
    platform stores in the [uint64_t] then is the parameter
    [undefined_uint64]. *)
Variable undefined_uint64 : float -> Z.

Definition double_to_uint64 (f : float) : Z :=
  match Prim2SF f with
  | S754_zero _ => 0
  | S754_finite s m e =>
      let t := trunc_magnitude m e in
      if t =? 0 then 0
      else if s then to_uint64 (undefined_uint64 f)
      else if t <? 2 ^ 64 then t
      else to_uint64 (undefined_uint64 f)
  | _ => to_uint64 (undefined_uint64 f)
  end.

End Conversions.

(** ** Constants *)

Definition MJPEG_MAX_FPS : Z := 25.
Definition MJPEG_MIN_FPS : Z := 1.

Definition MJPEG_QUALITY_SAMPLE_NUM : Z := 7.
Definition mjpeg_quality_samples : list Z := [20; 30; 40; 50; 60; 70; 80].

Definition MJPEG_IMPROVE_QUALITY_FPS_STRICT_TH : Z := 10.
Definition MJPEG_IMPROVE_QUALITY_FPS_PERMISSIVE_TH : Z := 5.

Definition MJPEG_AVERAGE_SIZE_WINDOW : Z := 3.

Definition MJPEG_BIT_RATE_EVAL_MIN_NUM_FRAMES : Z := 3.
Definition MJPEG_LOW_FPS_RATE_TH : Z := 3.

Definition MJPEG_SERVER_STATUS_EVAL_FPS_INTERVAL : Z := 1.
Definition MJPEG_SERVER_STATUS_DOWNGRADE_DROP_FACTOR_TH : float := 0.1%float.

Definition MJPEG_CLIENT_POSITIVE_REPORT_TIMEOUT : Z := 2000.
Definition MJPEG_CLIENT_POSITIVE_REPORT_STRICT_TIMEOUT : Z := 3000.

Definition MJPEG_ADJUST_FPS_TIMEOUT : Z := 500.

(** Modelled from the spec: the time-unit macros [MSEC_PER_SEC],
    [NSEC_PER_SEC] and [NSEC_PER_MILLISEC] come from a header that is not part
    of the sources; the spec gives 1000 ms, 1e9 ns and 1e6 ns. *)
Definition MSEC_PER_SEC : Z := 1000.
Definition NSEC_PER_SEC : Z := 1000000000.
Definition NSEC_PER_MILLISEC : Z := 1000000.

Definition MJPEG_MAX_CLIENT_PLAYBACK_DELAY : Z := MSEC_PER_SEC * 5.
Definition MJPEG_WARMUP_TIME : Z := NSEC_PER_SEC * 3.

Definition MJPEG_PLAYBACK_LATENCY_DECREASE_FACTOR : float := 0.5%float.
Definition MJPEG_VIDEO_VS_AUDIO_LATENCY_FACTOR : float := 1.25%float.
Definition MJPEG_VIDEO_DELAY_TH : Z := -15.

(** ** Data model *)

(** The two anonymous enums; the first constructor of each is the value 0
    that [memset] leaves in a cleared [MJpegEncoderQualityEval]. *)
Inductive EvalType : Type :=
| MJPEG_QUALITY_EVAL_TYPE_SET
| MJPEG_QUALITY_EVAL_TYPE_UPGRADE
| MJPEG_QUALITY_EVAL_TYPE_DOWNGRADE.

Inductive EvalReason : Type :=
| MJPEG_QUALITY_EVAL_REASON_SIZE_CHANGE
| MJPEG_QUALITY_EVAL_REASON_RATE_CHANGE.

Definition is_rate_change (r : EvalReason) : bool :=
  match r with
  | MJPEG_QUALITY_EVAL_REASON_RATE_CHANGE => true
  | MJPEG_QUALITY_EVAL_REASON_SIZE_CHANGE => false
  end.

Definition is_size_change (r : EvalReason) : bool := negb (is_rate_change r).

Record MJpegEncoderQualityEval : Type := {
  type : EvalType;
  reason : EvalReason;
  encoded_size_by_quality : list Z;      (* uint64_t [7] *)
  min_quality_id : Z;                    (* int *)
  min_quality_fps : Z;                   (* int *)
  max_quality_id : Z;                    (* int *)
  max_quality_fps : Z;                   (* int *)
  max_sampled_fps : Z;                   (* int *)
  max_sampled_fps_quality_id : Z         (* int *)
}.

Record MJpegEncoderClientState : Type := {
  max_video_latency : Z;                 (* int *)
  max_audio_latency : Z                  (* uint32_t *)
}.

Record MJpegEncoderServerState : Type := {
  num_frames_encoded : Z;                (* uint32_t *)
  num_frames_dropped : Z                 (* uint32_t *)
}.

Record MJpegEncoderBitRateInfo : Type := {
  change_start_time : Z;                 (* uint64_t *)
  last_frame_time : Z;                   (* uint64_t *)
  change_start_mm_time : Z;              (* uint32_t *)
  was_upgraded : bool;                   (* int used as a flag *)
  num_enc_frames : Z;                    (* uint32_t *)
  sum_enc_size : Z                       (* uint64_t *)
}.

Record MJpegEncoderRateControl : Type := {
  during_quality_eval : bool;
  quality_eval_data : MJpegEncoderQualityEval;
  bit_rate_info : MJpegEncoderBitRateInfo;
  client_state : MJpegEncoderClientState;
  server_state : MJpegEncoderServerState;
  byte_rate : Z;                         (* uint64_t *)
  quality_id : Z;                        (* int *)
  fps : Z;                               (* uint32_t *)
  adjusted_fps : float;                  (* double *)
  adjusted_fps_start_time : Z;           (* uint64_t *)
  adjusted_fps_num_frames : Z;           (* uint64_t *)
  base_enc_size : Z;                     (* uint64_t *)
  last_enc_size : Z;                     (* uint64_t *)
  sum_recent_enc_size : Z;               (* uint64_t *)
  num_recent_enc_frames : Z;             (* uint32_t *)
  warmup_start_time : Z                  (* uint64_t *)
}.

(** Which host callbacks are non-NULL in [VideoEncoderRateControlCbs]. *)
Record VideoEncoderRateControlCbs : Type := {
  get_roundtrip_ms : bool;
  get_source_fps : bool;
  update_client_playback_delay : bool
}.

(** What the host's callbacks answer during one call into the encoder. *)
Record Host : Type := {
  host_roundtrip_ms : Z;                 (* uint32_t *)
  host_source_fps : Z                    (* uint32_t *)
}.

Inductive J_COLOR_SPACE : Type := JCS_RGB | JCS_EXT_BGRX | JCS_EXT_BGR.

(** The fields of libjpeg's [jpeg_compress_struct] that the encoder writes
    itself. *)
Record jpeg_compress_struct : Type := {
  in_color_space : J_COLOR_SPACE;
  input_components : Z;                  (* int *)
  image_width : Z;                       (* JDIMENSION = unsigned int *)
  image_height : Z                       (* JDIMENSION *)
}.

Inductive PixelConverter : Type :=
| pixel_rgb24bpp_to_24
| pixel_rgb32bpp_to_24
| pixel_rgb16bpp_to_24.

(** The encoder.  [playback_delay_updates] is not a field of the C struct: it
    records, most recent first, the arguments of every call of the host's
    [update_client_playback_delay] callback. *)
Record MJpegEncoder : Type := {
  row_size : Z;                          (* uint32_t *)
  first_frame : bool;
  cinfo : jpeg_compress_struct;
  bytes_per_pixel : Z;                   (* unsigned int *)
  pixel_converter : option PixelConverter;
  rate_control : MJpegEncoderRateControl;
  cbs : VideoEncoderRateControlCbs;
  starting_bit_rate : Z;                 (* uint64_t *)
  avg_quality : Z;                       (* uint64_t *)
  num_frames : Z;                        (* uint32_t *)
  playback_delay_updates : list Z
}.

(** Modelled from the spec: the frame outcomes of [video-encoder.h], which is
    not part of the sources. *)
Inductive VideoEncodeResults : Type :=
| VIDEO_ENCODER_FRAME_UNSUPPORTED
| VIDEO_ENCODER_FRAME_DROP
| VIDEO_ENCODER_FRAME_ENCODE_DONE.

(** Modelled from the spec: the bitmap formats of the protocol header, which
    is not part of the sources.  Only the four formats named in
    [mjpeg_encoder_start_frame] are supported. *)
Inductive SpiceBitmapFmt : Type :=
| SPICE_BITMAP_FMT_INVALID
| SPICE_BITMAP_FMT_1BIT_LE
| SPICE_BITMAP_FMT_1BIT_BE
| SPICE_BITMAP_FMT_4BIT_LE
| SPICE_BITMAP_FMT_4BIT_BE
| SPICE_BITMAP_FMT_8BIT
| SPICE_BITMAP_FMT_16BIT
| SPICE_BITMAP_FMT_24BIT
| SPICE_BITMAP_FMT_32BIT
| SPICE_BITMAP_FMT_RGBA
| SPICE_BITMAP_FMT_8BIT_A.

Record SpiceRect : Type := {
  left : Z; top : Z; right : Z; bottom : Z     (* int32_t *)
}.

(** A bitmap: its format, the height [y], the row [stride] and the lengths of
    the chunks that hold its rows.  The pixel bytes are not modelled. *)
Record SpiceBitmap : Type := {
  format : SpiceBitmapFmt;
  y : Z;                                 (* uint32_t *)
  stride : Z;                            (* uint32_t *)
  data : list Z                          (* chunk[i].len, uint32_t *)
}.

(** What libjpeg does during one frame: the value [jpeg_write_scanlines]
    returns for the i-th row, and the number of compressed bytes in the
    destination buffer when the frame is finished. *)
Record JpegRun : Type := {
  scanlines_written : nat -> Z;
  compressed_size : Z
}.
(** ** Field updates

    [set_f r x] is the C assignment [r.f = x]: the record [r] with field [f]
    replaced by [x]. *)

Definition set_type (qe : MJpegEncoderQualityEval) (x : EvalType) :
  MJpegEncoderQualityEval :=
  {| type := x; reason := reason qe;
     encoded_size_by_quality := encoded_size_by_quality qe;
     min_quality_id := min_quality_id qe;
     min_quality_fps := min_quality_fps qe;
     max_quality_id := max_quality_id qe;
     max_quality_fps := max_quality_fps qe;
     max_sampled_fps := max_sampled_fps qe;
     max_sampled_fps_quality_id := max_sampled_fps_quality_id qe |}.

Definition set_reason (qe : MJpegEncoderQualityEval) (x : EvalReason) :
  MJpegEncoderQualityEval :=
  {| type := type qe; reason := x;
     encoded_size_by_quality := encoded_size_by_quality qe;
     min_quality_id := min_quality_id qe;
     min_quality_fps := min_quality_fps qe;
     max_quality_id := max_quality_id qe;
     max_quality_fps := max_quality_fps qe;
     max_sampled_fps := max_sampled_fps qe;
     max_sampled_fps_quality_id := max_sampled_fps_quality_id qe |}.

Definition set_encoded_size_by_quality (qe : MJpegEncoderQualityEval)
  (x : list Z) :
  MJpegEncoderQualityEval :=
  {| type := type qe; reason := reason qe; encoded_size_by_quality := x;
     min_quality_id := min_quality_id qe;
     min_quality_fps := min_quality_fps qe;
     max_quality_id := max_quality_id qe;
     max_quality_fps := max_quality_fps qe;
     max_sampled_fps := max_sampled_fps qe;
     max_sampled_fps_quality_id := max_sampled_fps_quality_id qe |}.

Definition set_min_quality_id (qe : MJpegEncoderQualityEval) (x : Z) :
  MJpegEncoderQualityEval :=
  {| type := type qe; reason := reason qe;
     encoded_size_by_quality := encoded_size_by_quality qe;
     min_quality_id := x; min_quality_fps := min_quality_fps qe;
     max_quality_id := max_quality_id qe;
     max_quality_fps := max_quality_fps qe;
     max_sampled_fps := max_sampled_fps qe;
     max_sampled_fps_quality_id := max_sampled_fps_quality_id qe |}.

Definition set_min_quality_fps (qe : MJpegEncoderQualityEval) (x : Z) :
  MJpegEncoderQualityEval :=
  {| type := type qe; reason := reason qe;
     encoded_size_by_quality := encoded_size_by_quality qe;
     min_quality_id := min_quality_id qe; min_quality_fps := x;
     max_quality_id := max_quality_id qe;
     max_quality_fps := max_quality_fps qe;
     max_sampled_fps := max_sampled_fps qe;
     max_sampled_fps_quality_id := max_sampled_fps_quality_id qe |}.

Definition set_max_quality_id (qe : MJpegEncoderQualityEval) (x : Z) :
  MJpegEncoderQualityEval :=
  {| type := type qe; reason := reason qe;
     encoded_size_by_quality := encoded_size_by_quality qe;
     min_quality_id := min_quality_id qe;
     min_quality_fps := min_quality_fps qe; max_quality_id := x;
     max_quality_fps := max_quality_fps qe;
     max_sampled_fps := max_sampled_fps qe;
     max_sampled_fps_quality_id := max_sampled_fps_quality_id qe |}.

Definition set_max_quality_fps (qe : MJpegEncoderQualityEval) (x : Z) :
  MJpegEncoderQualityEval :=
  {| type := type qe; reason := reason qe;
     encoded_size_by_quality := encoded_size_by_quality qe;
     min_quality_id := min_quality_id qe;
     min_quality_fps := min_quality_fps qe;
     max_quality_id := max_quality_id qe; max_quality_fps := x;
     max_sampled_fps := max_sampled_fps qe;
     max_sampled_fps_quality_id := max_sampled_fps_quality_id qe |}.

Definition set_max_sampled_fps (qe : MJpegEncoderQualityEval) (x : Z) :
  MJpegEncoderQualityEval :=
  {| type := type qe; reason := reason qe;
     encoded_size_by_quality := encoded_size_by_quality qe;
     min_quality_id := min_quality_id qe;
     min_quality_fps := min_quality_fps qe;
     max_quality_id := max_quality_id qe;
     max_quality_fps := max_quality_fps qe; max_sampled_fps := x;
     max_sampled_fps_quality_id := max_sampled_fps_quality_id qe |}.

Definition set_max_sampled_fps_quality_id (qe : MJpegEncoderQualityEval)
  (x : Z) :
  MJpegEncoderQualityEval :=
  {| type := type qe; reason := reason qe;
     encoded_size_by_quality := encoded_size_by_quality qe;
     min_quality_id := min_quality_id qe;
     min_quality_fps := min_quality_fps qe;
     max_quality_id := max_quality_id qe;
     max_quality_fps := max_quality_fps qe;
     max_sampled_fps := max_sampled_fps qe;
     max_sampled_fps_quality_id := x |}.

Definition set_num_frames_encoded (ss : MJpegEncoderServerState) (x : Z) :
  MJpegEncoderServerState :=
  {| num_frames_encoded := x; num_frames_dropped := num_frames_dropped ss |}.

Definition set_num_frames_dropped (ss : MJpegEncoderServerState) (x : Z) :
  MJpegEncoderServerState :=
  {| num_frames_encoded := num_frames_encoded ss; num_frames_dropped := x |}.

Definition set_change_start_time (bri : MJpegEncoderBitRateInfo) (x : Z) :
  MJpegEncoderBitRateInfo :=
  {| change_start_time := x; last_frame_time := last_frame_time bri;
     change_start_mm_time := change_start_mm_time bri;
     was_upgraded := was_upgraded bri; num_enc_frames := num_enc_frames bri;
     sum_enc_size := sum_enc_size bri |}.

Definition set_last_frame_time (bri : MJpegEncoderBitRateInfo) (x : Z) :
  MJpegEncoderBitRateInfo :=
  {| change_start_time := change_start_time bri; last_frame_time := x;
     change_start_mm_time := change_start_mm_time bri;
     was_upgraded := was_upgraded bri; num_enc_frames := num_enc_frames bri;
     sum_enc_size := sum_enc_size bri |}.

Definition set_change_start_mm_time (bri : MJpegEncoderBitRateInfo) (x : Z) :
  MJpegEncoderBitRateInfo :=
  {| change_start_time := change_start_time bri;
     last_frame_time := last_frame_time bri; change_start_mm_time := x;
     was_upgraded := was_upgraded bri; num_enc_frames := num_enc_frames bri;
     sum_enc_size := sum_enc_size bri |}.

Definition set_was_upgraded (bri : MJpegEncoderBitRateInfo) (x : bool) :
  MJpegEncoderBitRateInfo :=
  {| change_start_time := change_start_time bri;
     last_frame_time := last_frame_time bri;
     change_start_mm_time := change_start_mm_time bri; was_upgraded := x;
     num_enc_frames := num_enc_frames bri;
     sum_enc_size := sum_enc_size bri |}.

Definition set_num_enc_frames (bri : MJpegEncoderBitRateInfo) (x : Z) :
  MJpegEncoderBitRateInfo :=
  {| change_start_time := change_start_time bri;
     last_frame_time := last_frame_time bri;
     change_start_mm_time := change_start_mm_time bri;
     was_upgraded := was_upgraded bri; num_enc_frames := x;
     sum_enc_size := sum_enc_size bri |}.

Definition set_sum_enc_size (bri : MJpegEncoderBitRateInfo) (x : Z) :
  MJpegEncoderBitRateInfo :=
  {| change_start_time := change_start_time bri;
     last_frame_time := last_frame_time bri;
     change_start_mm_time := change_start_mm_time bri;
     was_upgraded := was_upgraded bri; num_enc_frames := num_enc_frames bri;
     sum_enc_size := x |}.

Definition set_during_quality_eval (rc : MJpegEncoderRateControl) (x : bool) :
  MJpegEncoderRateControl :=
  {| during_quality_eval := x; quality_eval_data := quality_eval_data rc;
     bit_rate_info := bit_rate_info rc; client_state := client_state rc;
     server_state := server_state rc; byte_rate := byte_rate rc;
     quality_id := quality_id rc; fps := fps rc;
     adjusted_fps := adjusted_fps rc;
     adjusted_fps_start_time := adjusted_fps_start_time rc;
     adjusted_fps_num_frames := adjusted_fps_num_frames rc;
     base_enc_size := base_enc_size rc; last_enc_size := last_enc_size rc;
     sum_recent_enc_size := sum_recent_enc_size rc;
     num_recent_enc_frames := num_recent_enc_frames rc;
     warmup_start_time := warmup_start_time rc |}.

Definition set_quality_eval_data (rc : MJpegEncoderRateControl)
  (x : MJpegEncoderQualityEval) :
  MJpegEncoderRateControl :=
  {| during_quality_eval := during_quality_eval rc; quality_eval_data := x;
     bit_rate_info := bit_rate_info rc; client_state := client_state rc;
     server_state := server_state rc; byte_rate := byte_rate rc;
     quality_id := quality_id rc; fps := fps rc;
     adjusted_fps := adjusted_fps rc;
     adjusted_fps_start_time := adjusted_fps_start_time rc;
     adjusted_fps_num_frames := adjusted_fps_num_frames rc;
     base_enc_size := base_enc_size rc; last_enc_size := last_enc_size rc;
     sum_recent_enc_size := sum_recent_enc_size rc;
     num_recent_enc_frames := num_recent_enc_frames rc;
     warmup_start_time := warmup_start_time rc |}.

Definition set_bit_rate_info (rc : MJpegEncoderRateControl)
  (x : MJpegEncoderBitRateInfo) :
  MJpegEncoderRateControl :=
  {| during_quality_eval := during_quality_eval rc;
     quality_eval_data := quality_eval_data rc; bit_rate_info := x;
     client_state := client_state rc; server_state := server_state rc;
     byte_rate := byte_rate rc; quality_id := quality_id rc; fps := fps rc;
     adjusted_fps := adjusted_fps rc;
     adjusted_fps_start_time := adjusted_fps_start_time rc;
     adjusted_fps_num_frames := adjusted_fps_num_frames rc;
     base_enc_size := base_enc_size rc; last_enc_size := last_enc_size rc;
     sum_recent_enc_size := sum_recent_enc_size rc;
     num_recent_enc_frames := num_recent_enc_frames rc;
     warmup_start_time := warmup_start_time rc |}.

Definition set_client_state (rc : MJpegEncoderRateControl)
  (x : MJpegEncoderClientState) :
  MJpegEncoderRateControl :=
  {| during_quality_eval := during_quality_eval rc;
     quality_eval_data := quality_eval_data rc;
     bit_rate_info := bit_rate_info rc; client_state := x;
     server_state := server_state rc; byte_rate := byte_rate rc;
     quality_id := quality_id rc; fps := fps rc;
     adjusted_fps := adjusted_fps rc;
     adjusted_fps_start_time := adjusted_fps_start_time rc;
     adjusted_fps_num_frames := adjusted_fps_num_frames rc;
     base_enc_size := base_enc_size rc; last_enc_size := last_enc_size rc;
     sum_recent_enc_size := sum_recent_enc_size rc;
     num_recent_enc_frames := num_recent_enc_frames rc;
     warmup_start_time := warmup_start_time rc |}.

Definition set_server_state (rc : MJpegEncoderRateControl)
  (x : MJpegEncoderServerState) :
  MJpegEncoderRateControl :=
  {| during_quality_eval := during_quality_eval rc;
     quality_eval_data := quality_eval_data rc;
     bit_rate_info := bit_rate_info rc; client_state := client_state rc;
     server_state := x; byte_rate := byte_rate rc;
     quality_id := quality_id rc; fps := fps rc;
     adjusted_fps := adjusted_fps rc;
     adjusted_fps_start_time := adjusted_fps_start_time rc;
     adjusted_fps_num_frames := adjusted_fps_num_frames rc;
     base_enc_size := base_enc_size rc; last_enc_size := last_enc_size rc;
     sum_recent_enc_size := sum_recent_enc_size rc;
     num_recent_enc_frames := num_recent_enc_frames rc;
     warmup_start_time := warmup_start_time rc |}.

Definition set_byte_rate (rc : MJpegEncoderRateControl) (x : Z) :
  MJpegEncoderRateControl :=
  {| during_quality_eval := during_quality_eval rc;
     quality_eval_data := quality_eval_data rc;
     bit_rate_info := bit_rate_info rc; client_state := client_state rc;
     server_state := server_state rc; byte_rate := x;
     quality_id := quality_id rc; fps := fps rc;
     adjusted_fps := adjusted_fps rc;
     adjusted_fps_start_time := adjusted_fps_start_time rc;
     adjusted_fps_num_frames := adjusted_fps_num_frames rc;
     base_enc_size := base_enc_size rc; last_enc_size := last_enc_size rc;
     sum_recent_enc_size := sum_recent_enc_size rc;
     num_recent_enc_frames := num_recent_enc_frames rc;
     warmup_start_time := warmup_start_time rc |}.

Definition set_quality_id (rc : MJpegEncoderRateControl) (x : Z) :
  MJpegEncoderRateControl :=
  {| during_quality_eval := during_quality_eval rc;
     quality_eval_data := quality_eval_data rc;
     bit_rate_info := bit_rate_info rc; client_state := client_state rc;
     server_state := server_state rc; byte_rate := byte_rate rc;
     quality_id := x; fps := fps rc; adjusted_fps := adjusted_fps rc;
     adjusted_fps_start_time := adjusted_fps_start_time rc;
     adjusted_fps_num_frames := adjusted_fps_num_frames rc;
     base_enc_size := base_enc_size rc; last_enc_size := last_enc_size rc;
     sum_recent_enc_size := sum_recent_enc_size rc;
     num_recent_enc_frames := num_recent_enc_frames rc;
     warmup_start_time := warmup_start_time rc |}.

Definition set_fps (rc : MJpegEncoderRateControl) (x : Z) :
  MJpegEncoderRateControl :=
  {| during_quality_eval := during_quality_eval rc;
     quality_eval_data := quality_eval_data rc;
     bit_rate_info := bit_rate_info rc; client_state := client_state rc;
     server_state := server_state rc; byte_rate := byte_rate rc;
     quality_id := quality_id rc; fps := x; adjusted_fps := adjusted_fps rc;
     adjusted_fps_start_time := adjusted_fps_start_time rc;
     adjusted_fps_num_frames := adjusted_fps_num_frames rc;
     base_enc_size := base_enc_size rc; last_enc_size := last_enc_size rc;
     sum_recent_enc_size := sum_recent_enc_size rc;
     num_recent_enc_frames := num_recent_enc_frames rc;
     warmup_start_time := warmup_start_time rc |}.

Definition set_adjusted_fps (rc : MJpegEncoderRateControl) (x : float) :
  MJpegEncoderRateControl :=
  {| during_quality_eval := during_quality_eval rc;
     quality_eval_data := quality_eval_data rc;
     bit_rate_info := bit_rate_info rc; client_state := client_state rc;
     server_state := server_state rc; byte_rate := byte_rate rc;
     quality_id := quality_id rc; fps := fps rc; adjusted_fps := x;
     adjusted_fps_start_time := adjusted_fps_start_time rc;
     adjusted_fps_num_frames := adjusted_fps_num_frames rc;
     base_enc_size := base_enc_size rc; last_enc_size := last_enc_size rc;
     sum_recent_enc_size := sum_recent_enc_size rc;
     num_recent_enc_frames := num_recent_enc_frames rc;
     warmup_start_time := warmup_start_time rc |}.

Definition set_adjusted_fps_start_time (rc : MJpegEncoderRateControl) (x : Z) :
  MJpegEncoderRateControl :=
  {| during_quality_eval := during_quality_eval rc;
     quality_eval_data := quality_eval_data rc;
     bit_rate_info := bit_rate_info rc; client_state := client_state rc;
     server_state := server_state rc; byte_rate := byte_rate rc;
     quality_id := quality_id rc; fps := fps rc;
     adjusted_fps := adjusted_fps rc; adjusted_fps_start_time := x;
     adjusted_fps_num_frames := adjusted_fps_num_frames rc;
     base_enc_size := base_enc_size rc; last_enc_size := last_enc_size rc;
     sum_recent_enc_size := sum_recent_enc_size rc;
     num_recent_enc_frames := num_recent_enc_frames rc;
     warmup_start_time := warmup_start_time rc |}.

Definition set_adjusted_fps_num_frames (rc : MJpegEncoderRateControl) (x : Z) :
  MJpegEncoderRateControl :=
  {| during_quality_eval := during_quality_eval rc;
     quality_eval_data := quality_eval_data rc;
     bit_rate_info := bit_rate_info rc; client_state := client_state rc;
     server_state := server_state rc; byte_rate := byte_rate rc;
     quality_id := quality_id rc; fps := fps rc;
     adjusted_fps := adjusted_fps rc;
     adjusted_fps_start_time := adjusted_fps_start_time rc;
     adjusted_fps_num_frames := x; base_enc_size := base_enc_size rc;
     last_enc_size := last_enc_size rc;
     sum_recent_enc_size := sum_recent_enc_size rc;
     num_recent_enc_frames := num_recent_enc_frames rc;
     warmup_start_time := warmup_start_time rc |}.

Definition set_base_enc_size (rc : MJpegEncoderRateControl) (x : Z) :
  MJpegEncoderRateControl :=
  {| during_quality_eval := during_quality_eval rc;
     quality_eval_data := quality_eval_data rc;
     bit_rate_info := bit_rate_info rc; client_state := client_state rc;
     server_state := server_state rc; byte_rate := byte_rate rc;
     quality_id := quality_id rc; fps := fps rc;
     adjusted_fps := adjusted_fps rc;
     adjusted_fps_start_time := adjusted_fps_start_time rc;
     adjusted_fps_num_frames := adjusted_fps_num_frames rc;
     base_enc_size := x; last_enc_size := last_enc_size rc;
     sum_recent_enc_size := sum_recent_enc_size rc;
     num_recent_enc_frames := num_recent_enc_frames rc;
     warmup_start_time := warmup_start_time rc |}.

Definition set_last_enc_size (rc : MJpegEncoderRateControl) (x : Z) :
  MJpegEncoderRateControl :=
  {| during_quality_eval := during_quality_eval rc;
     quality_eval_data := quality_eval_data rc;
     bit_rate_info := bit_rate_info rc; client_state := client_state rc;
     server_state := server_state rc; byte_rate := byte_rate rc;
     quality_id := quality_id rc; fps := fps rc;
     adjusted_fps := adjusted_fps rc;
     adjusted_fps_start_time := adjusted_fps_start_time rc;
     adjusted_fps_num_frames := adjusted_fps_num_frames rc;
     base_enc_size := base_enc_size rc; last_enc_size := x;
     sum_recent_enc_size := sum_recent_enc_size rc;
     num_recent_enc_frames := num_recent_enc_frames rc;
     warmup_start_time := warmup_start_time rc |}.

Definition set_sum_recent_enc_size (rc : MJpegEncoderRateControl) (x : Z) :
  MJpegEncoderRateControl :=
  {| during_quality_eval := during_quality_eval rc;
     quality_eval_data := quality_eval_data rc;
     bit_rate_info := bit_rate_info rc; client_state := client_state rc;
     server_state := server_state rc; byte_rate := byte_rate rc;
     quality_id := quality_id rc; fps := fps rc;
     adjusted_fps := adjusted_fps rc;
     adjusted_fps_start_time := adjusted_fps_start_time rc;
     adjusted_fps_num_frames := adjusted_fps_num_frames rc;
     base_enc_size := base_enc_size rc; last_enc_size := last_enc_size rc;
     sum_recent_enc_size := x;
     num_recent_enc_frames := num_recent_enc_frames rc;
     warmup_start_time := warmup_start_time rc |}.

Definition set_num_recent_enc_frames (rc : MJpegEncoderRateControl) (x : Z) :
  MJpegEncoderRateControl :=
  {| during_quality_eval := during_quality_eval rc;
     quality_eval_data := quality_eval_data rc;
     bit_rate_info := bit_rate_info rc; client_state := client_state rc;
     server_state := server_state rc; byte_rate := byte_rate rc;
     quality_id := quality_id rc; fps := fps rc;
     adjusted_fps := adjusted_fps rc;
     adjusted_fps_start_time := adjusted_fps_start_time rc;
     adjusted_fps_num_frames := adjusted_fps_num_frames rc;
     base_enc_size := base_enc_size rc; last_enc_size := last_enc_size rc;
     sum_recent_enc_size := sum_recent_enc_size rc;
     num_recent_enc_frames := x;
     warmup_start_time := warmup_start_time rc |}.

Definition set_warmup_start_time (rc : MJpegEncoderRateControl) (x : Z) :
  MJpegEncoderRateControl :=
  {| during_quality_eval := during_quality_eval rc;
     quality_eval_data := quality_eval_data rc;
     bit_rate_info := bit_rate_info rc; client_state := client_state rc;
     server_state := server_state rc; byte_rate := byte_rate rc;
     quality_id := quality_id rc; fps := fps rc;
     adjusted_fps := adjusted_fps rc;
     adjusted_fps_start_time := adjusted_fps_start_time rc;
     adjusted_fps_num_frames := adjusted_fps_num_frames rc;
     base_enc_size := base_enc_size rc; last_enc_size := last_enc_size rc;
     sum_recent_enc_size := sum_recent_enc_size rc;
     num_recent_enc_frames := num_recent_enc_frames rc;
     warmup_start_time := x |}.

Definition set_row_size (e : MJpegEncoder) (x : Z) :
  MJpegEncoder :=
  {| row_size := x; first_frame := first_frame e; cinfo := cinfo e;
     bytes_per_pixel := bytes_per_pixel e;
     pixel_converter := pixel_converter e; rate_control := rate_control e;
     cbs := cbs e; starting_bit_rate := starting_bit_rate e;
     avg_quality := avg_quality e; num_frames := num_frames e;
     playback_delay_updates := playback_delay_updates e |}.

Definition set_first_frame (e : MJpegEncoder) (x : bool) :
  MJpegEncoder :=
  {| row_size := row_size e; first_frame := x; cinfo := cinfo e;
     bytes_per_pixel := bytes_per_pixel e;
     pixel_converter := pixel_converter e; rate_control := rate_control e;
     cbs := cbs e; starting_bit_rate := starting_bit_rate e;
     avg_quality := avg_quality e; num_frames := num_frames e;
     playback_delay_updates := playback_delay_updates e |}.

Definition set_cinfo (e : MJpegEncoder) (x : jpeg_compress_struct) :
  MJpegEncoder :=
  {| row_size := row_size e; first_frame := first_frame e; cinfo := x;
     bytes_per_pixel := bytes_per_pixel e;
     pixel_converter := pixel_converter e; rate_control := rate_control e;
     cbs := cbs e; starting_bit_rate := starting_bit_rate e;
     avg_quality := avg_quality e; num_frames := num_frames e;
     playback_delay_updates := playback_delay_updates e |}.

Definition set_bytes_per_pixel (e : MJpegEncoder) (x : Z) :
  MJpegEncoder :=
  {| row_size := row_size e; first_frame := first_frame e; cinfo := cinfo e;
     bytes_per_pixel := x; pixel_converter := pixel_converter e;
     rate_control := rate_control e; cbs := cbs e;
     starting_bit_rate := starting_bit_rate e; avg_quality := avg_quality e;
     num_frames := num_frames e;
     playback_delay_updates := playback_delay_updates e |}.

Definition set_pixel_converter (e : MJpegEncoder) (x : option PixelConverter) :
  MJpegEncoder :=
  {| row_size := row_size e; first_frame := first_frame e; cinfo := cinfo e;
     bytes_per_pixel := bytes_per_pixel e; pixel_converter := x;
     rate_control := rate_control e; cbs := cbs e;
     starting_bit_rate := starting_bit_rate e; avg_quality := avg_quality e;
     num_frames := num_frames e;
     playback_delay_updates := playback_delay_updates e |}.

Definition set_rate_control (e : MJpegEncoder) (x : MJpegEncoderRateControl) :
  MJpegEncoder :=
  {| row_size := row_size e; first_frame := first_frame e; cinfo := cinfo e;
     bytes_per_pixel := bytes_per_pixel e;
     pixel_converter := pixel_converter e; rate_control := x; cbs := cbs e;
     starting_bit_rate := starting_bit_rate e; avg_quality := avg_quality e;
     num_frames := num_frames e;
     playback_delay_updates := playback_delay_updates e |}.

Definition set_avg_quality (e : MJpegEncoder) (x : Z) :
  MJpegEncoder :=
  {| row_size := row_size e; first_frame := first_frame e; cinfo := cinfo e;
     bytes_per_pixel := bytes_per_pixel e;
     pixel_converter := pixel_converter e; rate_control := rate_control e;
     cbs := cbs e; starting_bit_rate := starting_bit_rate e;
     avg_quality := x; num_frames := num_frames e;
     playback_delay_updates := playback_delay_updates e |}.

Definition set_num_frames (e : MJpegEncoder) (x : Z) :
  MJpegEncoder :=
  {| row_size := row_size e; first_frame := first_frame e; cinfo := cinfo e;
     bytes_per_pixel := bytes_per_pixel e;
     pixel_converter := pixel_converter e; rate_control := rate_control e;
     cbs := cbs e; starting_bit_rate := starting_bit_rate e;
     avg_quality := avg_quality e; num_frames := x;
     playback_delay_updates := playback_delay_updates e |}.

Definition set_playback_delay_updates (e : MJpegEncoder) (x : list Z) :
  MJpegEncoder :=
  {| row_size := row_size e; first_frame := first_frame e; cinfo := cinfo e;
     bytes_per_pixel := bytes_per_pixel e;
     pixel_converter := pixel_converter e; rate_control := rate_control e;
     cbs := cbs e; starting_bit_rate := starting_bit_rate e;
     avg_quality := avg_quality e; num_frames := num_frames e;
     playback_delay_updates := x |}.

(** ** Arrays of [MJPEG_QUALITY_SAMPLE_NUM] sizes

    An access outside the array is undefined in C; the model reads 0 and
    ignores the write there.  [quality_id_in_range] below shows that the
    controller never leaves the array. *)

Definition array_get (a : list Z) (i : Z) : Z :=
  if (0 <=? i) && (i <? Z.of_nat (length a)) then nth (Z.to_nat i) a 0 else 0.

Fixpoint list_set (a : list Z) (n : nat) (x : Z) : list Z :=
  match a, n with
  | [], _ => []
  | _ :: a', O => x :: a'
  | y :: a', S n' => y :: list_set a' n' x
  end.

Definition array_set (a : list Z) (i : Z) (x : Z) : list Z :=
  if (0 <=? i) && (i <? Z.of_nat (length a)) then list_set a (Z.to_nat i) x
  else a.

(** ** Host callbacks *)

Definition mjpeg_encoder_get_source_fps (encoder : MJpegEncoder) (host : Host)
  : Z :=
  if get_source_fps (cbs encoder) then to_uint32 (host_source_fps host)
  else MJPEG_MAX_FPS.

Definition mjpeg_encoder_get_latency (encoder : MJpegEncoder) (host : Host)
  : Z :=
  if get_roundtrip_ms (cbs encoder) then to_uint32 (host_roundtrip_ms host) / 2
  else 0.

(** The call [encoder->cbs.update_client_playback_delay(opaque, delay)]. *)
Definition notify_playback_delay (encoder : MJpegEncoder) (delay : Z)
  : MJpegEncoder :=
  set_playback_delay_updates encoder (delay :: playback_delay_updates encoder).

(** ** Leaf computations *)

Definition get_max_fps (frame_size bytes_per_sec : Z) : Z :=
  to_uint32 (if frame_size =? 0 then MJPEG_MAX_FPS
             else bytes_per_sec / frame_size).

Definition get_min_required_playback_delay
  (frame_enc_size byte_rate latency : Z) : Z :=
  if (frame_enc_size =? 0) || (byte_rate =? 0) then latency
  else
    let one_frame_time :=
      to_uint32 (to_uint64 (frame_enc_size * MSEC_PER_SEC) / byte_rate) in
    let min_delay :=
      MIN (to_uint32 (one_frame_time * 2 + latency))
          MJPEG_MAX_CLIENT_PLAYBACK_DELAY in
    min_delay.

(** ** Reset-Quality *)

(** [memset(&quality_eval_data, 0, sizeof(MJpegEncoderQualityEval))]. *)
Definition cleared_quality_eval : MJpegEncoderQualityEval :=
  {| type := MJPEG_QUALITY_EVAL_TYPE_SET;
     reason := MJPEG_QUALITY_EVAL_REASON_SIZE_CHANGE;
     encoded_size_by_quality := [0; 0; 0; 0; 0; 0; 0];
     min_quality_id := 0; min_quality_fps := 0;
     max_quality_id := 0; max_quality_fps := 0;
     max_sampled_fps := 0; max_sampled_fps_quality_id := 0 |}.

Definition cleared_server_state : MJpegEncoderServerState :=
  {| num_frames_encoded := 0; num_frames_dropped := 0 |}.

Definition mjpeg_encoder_reset_quality (encoder : MJpegEncoder)
  (new_quality_id new_fps frame_enc_size : Z) : MJpegEncoder :=
  let rc := rate_control encoder in
  let rc := set_during_quality_eval rc false in
  let rc :=
    if negb (quality_id rc =? new_quality_id) then set_last_enc_size rc 0
    else rc in
  let rc :=
    if is_rate_change (reason (quality_eval_data rc))
    then set_server_state rc cleared_server_state
    else rc in
  let rc := set_quality_id rc new_quality_id in
  let rc := set_quality_eval_data rc cleared_quality_eval in
  let rc :=
    set_quality_eval_data rc
      (set_max_quality_id (quality_eval_data rc)
         (MJPEG_QUALITY_SAMPLE_NUM - 1)) in
  let rc :=
    set_quality_eval_data rc
      (set_max_quality_fps (quality_eval_data rc) MJPEG_MAX_FPS) in
  let fps_ratio :=
    if double_nonzero (adjusted_fps rc)
    then (adjusted_fps rc / double_of_Z (fps rc))%float
    else 1.5%float in
  let rc := set_fps rc (MAX MJPEG_MIN_FPS new_fps) in
  let rc := set_fps rc (MIN MJPEG_MAX_FPS (fps rc)) in
  let rc := set_adjusted_fps rc (double_of_Z (fps rc) * fps_ratio)%float in
  let rc := set_adjusted_fps_start_time rc 0 in
  let rc := set_adjusted_fps_num_frames rc 0 in
  let rc := set_base_enc_size rc frame_enc_size in
  let rc := set_sum_recent_enc_size rc 0 in
  let rc := set_num_recent_enc_frames rc 0 in
  set_rate_control encoder rc.

(** ** Quality evaluator *)

Definition QUALITY_WAS_EVALUATED (encoder : MJpegEncoder) (quality : Z)
  : bool :=
  negb (array_get
          (encoded_size_by_quality (quality_eval_data (rate_control encoder)))
          quality =? 0).

(** The code after the label [complete_sample] of
    [mjpeg_encoder_eval_quality]. *)
Definition complete_sample (encoder : MJpegEncoder) (host : Host)
  : MJpegEncoder :=
  let rc := rate_control encoder in
  let quality_eval := quality_eval_data rc in
  let final_quality_id :=
    to_uint32
      (if negb (max_sampled_fps quality_eval =? 0)
       then MAX (quality_id rc) (max_sampled_fps_quality_id quality_eval)
       else quality_id rc) in
  let final_quality_enc_size :=
    array_get (encoded_size_by_quality quality_eval) final_quality_id in
  let final_fps := get_max_fps final_quality_enc_size (byte_rate rc) in
  let final_fps :=
    if final_quality_id =? to_uint32 (min_quality_id quality_eval)
    then MAX final_fps (to_uint32 (min_quality_fps quality_eval))
    else final_fps in
  let final_fps :=
    if final_quality_id =? to_uint32 (max_quality_id quality_eval)
    then MIN final_fps (to_uint32 (max_quality_fps quality_eval))
    else final_fps in
  let encoder :=
    mjpeg_encoder_reset_quality encoder (to_int final_quality_id) final_fps
      final_quality_enc_size in
  let rc := rate_control encoder in
  let rc := set_sum_recent_enc_size rc final_quality_enc_size in
  let rc := set_num_recent_enc_frames rc 1 in
  let encoder := set_rate_control encoder rc in
  if update_client_playback_delay (cbs encoder) then
    let latency := mjpeg_encoder_get_latency encoder host in
    let min_delay :=
      get_min_required_playback_delay final_quality_enc_size (byte_rate rc)
        latency in
    notify_playback_delay encoder min_delay
  else encoder.

(** [rate_control->quality_id--] and [rate_control->quality_id++]. *)
Definition quality_id_step (encoder : MJpegEncoder) (d : Z) : MJpegEncoder :=
  set_rate_control encoder
    (set_quality_id (rate_control encoder)
       (to_int (quality_id (rate_control encoder) + d))).

(** The update of the best sample seen so far, the first [if] of
    [mjpeg_encoder_eval_quality]. *)
Definition track_best_sample (encoder : MJpegEncoder) (fps src_fps : Z)
  : MJpegEncoder :=
  let rc := rate_control encoder in
  let quality_eval := quality_eval_data rc in
  if (fps >? to_uint32 (max_sampled_fps quality_eval))
     || (((fps =? to_uint32 (max_sampled_fps quality_eval))
          || (fps >=? src_fps))
         && (quality_id rc >? max_sampled_fps_quality_id quality_eval))
  then
    let quality_eval := set_max_sampled_fps quality_eval (to_int fps) in
    let quality_eval :=
      set_max_sampled_fps_quality_id quality_eval (quality_id rc) in
    set_rate_control encoder (set_quality_eval_data rc quality_eval)
  else encoder.

(** The choice between sampling another quality and completing the
    evaluation, the [if / else if / else] of [mjpeg_encoder_eval_quality]. *)
Definition choose_next_quality (encoder : MJpegEncoder) (host : Host)
  (fps src_fps : Z) : MJpegEncoder :=
  let rc := rate_control encoder in
  let quality_eval := quality_eval_data rc in
  if (quality_id rc >? MJPEG_QUALITY_SAMPLE_NUM / 2)
     && (fps <? MJPEG_IMPROVE_QUALITY_FPS_STRICT_TH)
     && (fps <? src_fps)
  then
    if QUALITY_WAS_EVALUATED encoder (quality_id rc - 1)
    then complete_sample (quality_id_step encoder (-1)) host
    else quality_id_step encoder (-1)
  else if ((fps >? MJPEG_IMPROVE_QUALITY_FPS_PERMISSIVE_TH)
           && PrimFloat.leb
                (0.66 * double_of_Z (min_quality_fps quality_eval))%float
                (double_of_Z fps))
          || (fps >=? src_fps)
  then
    if (quality_id rc + 1 =? MJPEG_QUALITY_SAMPLE_NUM)
       || (quality_id rc >=? max_quality_id quality_eval)
       || QUALITY_WAS_EVALUATED encoder (quality_id rc + 1)
    then complete_sample encoder host
    else if (quality_id rc =? MJPEG_QUALITY_SAMPLE_NUM / 2)
            && (fps <? MJPEG_IMPROVE_QUALITY_FPS_STRICT_TH)
            && (fps <? src_fps)
    then complete_sample encoder host
    else quality_id_step encoder 1
  else
    if (quality_id rc =? 0)
       || (quality_id rc <=? min_quality_id quality_eval)
    then complete_sample encoder host
    else if QUALITY_WAS_EVALUATED encoder (quality_id rc - 1)
    then complete_sample (quality_id_step encoder (-1)) host
    else quality_id_step encoder (-1).

(** The evaluator is only called with [during_quality_eval] set (both call
    sites test it), so its [spice_assert] never fires and is left out. *)
Definition mjpeg_encoder_eval_quality (encoder : MJpegEncoder) (host : Host)
  : MJpegEncoder :=
  let rc := rate_control encoder in
  let enc_size :=
    array_get (encoded_size_by_quality (quality_eval_data rc))
      (quality_id rc) in
  if enc_size =? 0 then encoder
  else
    let src_fps := mjpeg_encoder_get_source_fps encoder host in
    let fps := get_max_fps enc_size (byte_rate rc) in
    choose_next_quality (track_best_sample encoder fps src_fps) host fps
      src_fps.

Definition mjpeg_encoder_quality_eval_set_upgrade (encoder : MJpegEncoder)
  (new_reason : EvalReason) (new_min_quality_id new_min_quality_fps : Z)
  : MJpegEncoder :=
  let rc := set_during_quality_eval (rate_control encoder) true in
  let quality_eval := quality_eval_data rc in
  let quality_eval := set_type quality_eval MJPEG_QUALITY_EVAL_TYPE_UPGRADE in
  let quality_eval := set_reason quality_eval new_reason in
  let quality_eval :=
    set_min_quality_id quality_eval (to_int new_min_quality_id) in
  let quality_eval :=
    set_min_quality_fps quality_eval (to_int new_min_quality_fps) in
  set_rate_control encoder (set_quality_eval_data rc quality_eval).

Definition mjpeg_encoder_quality_eval_set_downgrade (encoder : MJpegEncoder)
  (new_reason : EvalReason) (new_max_quality_id new_max_quality_fps : Z)
  : MJpegEncoder :=
  let rc := set_during_quality_eval (rate_control encoder) true in
  let quality_eval := quality_eval_data rc in
  let quality_eval :=
    set_type quality_eval MJPEG_QUALITY_EVAL_TYPE_DOWNGRADE in
  let quality_eval := set_reason quality_eval new_reason in
  let quality_eval :=
    set_max_quality_id quality_eval (to_int new_max_quality_id) in
  let quality_eval :=
    set_max_quality_fps quality_eval (to_int new_max_quality_fps) in
  set_rate_control encoder (set_quality_eval_data rc quality_eval).

(** ** Quality-Eval-Stop *)

Definition mjpeg_encoder_quality_eval_stop (encoder : MJpegEncoder)
  : MJpegEncoder :=
  let rc := rate_control encoder in
  if negb (during_quality_eval rc) then encoder
  else
    let '(new_quality_id, new_fps) :=
      match type (quality_eval_data rc) with
      | MJPEG_QUALITY_EVAL_TYPE_UPGRADE =>
          (to_uint32 (min_quality_id (quality_eval_data rc)),
           to_uint32 (min_quality_fps (quality_eval_data rc)))
      | MJPEG_QUALITY_EVAL_TYPE_DOWNGRADE =>
          (to_uint32 (max_quality_id (quality_eval_data rc)),
           to_uint32 (max_quality_fps (quality_eval_data rc)))
      | MJPEG_QUALITY_EVAL_TYPE_SET =>
          (MJPEG_QUALITY_SAMPLE_NUM / 2, MJPEG_MAX_FPS / 2)
      end in
    mjpeg_encoder_reset_quality encoder (to_int new_quality_id) new_fps 0.

(** ** Frame pacing *)

Definition mjpeg_encoder_adjust_fps (encoder : MJpegEncoder) (host : Host)
  (now : Z) : MJpegEncoder :=
  let rc := rate_control encoder in
  let adjusted_fps_time_passed :=
    to_uint64 (now - adjusted_fps_start_time rc) / NSEC_PER_MILLISEC in
  if negb (during_quality_eval rc)
     && (adjusted_fps_time_passed >? MJPEG_ADJUST_FPS_TIMEOUT)
     && PrimFloat.ltb (double_of_Z MSEC_PER_SEC / adjusted_fps rc)%float
          (double_of_Z adjusted_fps_time_passed)
  then
    let avg_fps :=
      ((double_of_Z (adjusted_fps_num_frames rc) * double_of_Z MSEC_PER_SEC)
       / double_of_Z adjusted_fps_time_passed)%float in
    let fps_ratio := (avg_fps / double_of_Z (fps rc))%float in
    let rc :=
      if PrimFloat.ltb (avg_fps + 0.5)%float (double_of_Z (fps rc))
         && PrimFloat.ltb avg_fps
              (double_of_Z (mjpeg_encoder_get_source_fps encoder host))
      then
        let new_adjusted_fps :=
          if double_nonzero avg_fps then (adjusted_fps rc / fps_ratio)%float
          else (adjusted_fps rc * 2)%float in
        set_adjusted_fps rc
          (MINd (double_of_Z (to_uint32 (fps rc * 2))) new_adjusted_fps)
      else if PrimFloat.ltb (double_of_Z (fps rc) + 0.5)%float avg_fps
      then
        let new_adjusted_fps := (adjusted_fps rc / fps_ratio)%float in
        set_adjusted_fps rc (MAXd (double_of_Z (fps rc)) new_adjusted_fps)
      else rc in
    let rc := set_adjusted_fps_start_time rc now in
    let rc := set_adjusted_fps_num_frames rc 0 in
    set_rate_control encoder rc
  else encoder.

(** The admission test of [mjpeg_encoder_start_frame]:
    [interval < NSEC_PER_SEC / rate_control->adjusted_fps], with
    [interval = now - bit_rate_info.last_frame_time], compared as doubles. *)
Definition frame_interval (encoder : MJpegEncoder) (now : Z) : Z :=
  to_uint64 (now - last_frame_time (bit_rate_info (rate_control encoder))).

Definition interval_too_short (encoder : MJpegEncoder) (now : Z) : bool :=
  PrimFloat.ltb (double_of_Z (frame_interval encoder now))
    (double_of_Z NSEC_PER_SEC / adjusted_fps (rate_control encoder))%float.

(** The statements of [mjpeg_encoder_start_frame] that precede the admission
    test: the pacing window is opened if it is not, and the pacing adjusted. *)
Definition start_frame_pacing (encoder : MJpegEncoder) (host : Host) (now : Z)
  : MJpegEncoder :=
  let rc := rate_control encoder in
  let encoder :=
    if adjusted_fps_start_time rc =? 0
    then set_rate_control encoder (set_adjusted_fps_start_time rc now)
    else encoder in
  mjpeg_encoder_adjust_fps encoder host now.

(** The block of [mjpeg_encoder_start_frame] that stamps the accounting
    window with the time of the admitted frame. *)
Definition stamp_frame_time (encoder : MJpegEncoder) (now frame_mm_time : Z)
  : MJpegEncoder :=
  let rc := rate_control encoder in
  if negb (during_quality_eval rc)
     || is_size_change (reason (quality_eval_data rc))
  then
    let bri := bit_rate_info rc in
    let bri :=
      if change_start_time bri =? 0
      then set_change_start_mm_time (set_change_start_time bri now)
             frame_mm_time
      else bri in
    let bri := set_last_frame_time bri now in
    set_rate_control encoder (set_bit_rate_info rc bri)
  else encoder.

Section RateControl.

Variable undefined_uint64 : float -> Z.

(** ** Bit-rate controller *)

(** The re-estimation block that [mjpeg_encoder_decrease_bit_rate] and
    [mjpeg_encoder_increase_bit_rate] both contain: the duration of the
    accounting window in seconds and the byte rate measured over it.  (The
    [measured_fps] computed next to it only feeds a debug message.) *)
Definition duration_sec (bit_rate_info : MJpegEncoderBitRateInfo) : float :=
  (double_of_Z
     (to_uint64 (last_frame_time bit_rate_info
                 - change_start_time bit_rate_info))
   / double_of_Z NSEC_PER_SEC)%float.

Definition measured_byte_rate (bit_rate_info : MJpegEncoderBitRateInfo)
  : Z :=
  double_to_uint64 undefined_uint64
    (double_of_Z (sum_enc_size bit_rate_info) / duration_sec bit_rate_info).

Definition enough_frames_for_estimate (rc : MJpegEncoderRateControl) : bool :=
  (num_enc_frames (bit_rate_info rc) >? MJPEG_BIT_RATE_EVAL_MIN_NUM_FRAMES)
  || (num_enc_frames (bit_rate_info rc) >? fps rc).

(** The six assignments that restart the accounting window. *)
Definition reset_bit_rate_info (upgraded : bool) : MJpegEncoderBitRateInfo :=
  {| change_start_time := 0; last_frame_time := 0;
     change_start_mm_time := 0; was_upgraded := upgraded;
     num_enc_frames := 0; sum_enc_size := 0 |}.

Definition cleared_client_state : MJpegEncoderClientState :=
  {| max_video_latency := 0; max_audio_latency := 0 |}.

(** The end of [mjpeg_encoder_decrease_bit_rate], from the re-estimation of
    the rate on; [rc] is the rate control as the warm-up test left it. *)
Definition decrease_bit_rate_tail (encoder : MJpegEncoder)
  (rc : MJpegEncoderRateControl) : MJpegEncoder :=
  let bri := bit_rate_info rc in
  let '(measured, decrease_size) :=
    if enough_frames_for_estimate rc
    then (measured_byte_rate bri, sum_enc_size bri / num_enc_frames bri)
    else (byte_rate rc, byte_rate rc / fps rc) in
  let measured := MIN (byte_rate rc) measured in
  let decrease_size :=
    if decrease_size >=? measured then measured / 2 else decrease_size in
  let rc := set_byte_rate rc (to_uint64 (measured - decrease_size)) in
  let rc := set_bit_rate_info rc (reset_bit_rate_info false) in
  mjpeg_encoder_quality_eval_set_downgrade
    (set_rate_control encoder rc)
    MJPEG_QUALITY_EVAL_REASON_RATE_CHANGE
    (to_uint32 (quality_id rc)) (fps rc).

(** [now] is the value [spice_get_monotonic_time_ns] returns if the function
    reads the clock, which it does only when [warmup_start_time] is set. *)
Definition mjpeg_encoder_decrease_bit_rate (encoder : MJpegEncoder)
  (now : Z) : MJpegEncoder :=
  let encoder := mjpeg_encoder_quality_eval_stop encoder in
  let rc := rate_control encoder in
  let rc := set_client_state rc cleared_client_state in
  if negb (warmup_start_time rc =? 0) then
    if to_uint64 (now - warmup_start_time rc) <? MJPEG_WARMUP_TIME
    then set_rate_control encoder rc
    else decrease_bit_rate_tail encoder (set_warmup_start_time rc 0)
  else decrease_bit_rate_tail encoder rc.

Definition mjpeg_encoder_handle_negative_client_stream_report
  (encoder : MJpegEncoder) (now : Z) (report_end_frame_mm_time : Z)
  : MJpegEncoder :=
  let bri := bit_rate_info (rate_control encoder) in
  if ((change_start_mm_time bri >? report_end_frame_mm_time)
      || (change_start_mm_time bri =? 0))
     && negb (was_upgraded bri)
  then encoder
  else mjpeg_encoder_decrease_bit_rate encoder now.

Definition mjpeg_encoder_increase_bit_rate (encoder : MJpegEncoder)
  : MJpegEncoder :=
  let rc := rate_control encoder in
  let bri := bit_rate_info rc in
  if enough_frames_for_estimate rc then
    let measured := measured_byte_rate bri in
    let avg_frame_size := sum_enc_size bri / num_enc_frames bri in
    let increase_size := avg_frame_size in
    let encoder := mjpeg_encoder_quality_eval_stop encoder in
    let rc := rate_control encoder in
    let rc :=
      if to_uint64 (measured + increase_size) <? byte_rate rc then rc
      else set_byte_rate rc
             (to_uint64 (MIN measured (byte_rate rc) + increase_size)) in
    let rc := set_bit_rate_info rc (reset_bit_rate_info true) in
    mjpeg_encoder_quality_eval_set_upgrade
      (set_rate_control encoder rc)
      MJPEG_QUALITY_EVAL_REASON_RATE_CHANGE
      (to_uint32 (quality_id rc)) (fps rc)
  else encoder.

Definition mjpeg_encoder_handle_positive_client_stream_report
  (encoder : MJpegEncoder) (host : Host) (report_start_frame_mm_time : Z)
  : MJpegEncoder :=
  let rc := rate_control encoder in
  let bri := bit_rate_info rc in
  if during_quality_eval rc
     && is_rate_change (reason (quality_eval_data rc))
  then encoder
  else
    let timeout :=
      if ((fps rc >? MJPEG_IMPROVE_QUALITY_FPS_STRICT_TH)
          || (fps rc >=? mjpeg_encoder_get_source_fps encoder host))
         && (quality_id rc >? MJPEG_QUALITY_SAMPLE_NUM / 2)
      then MJPEG_CLIENT_POSITIVE_REPORT_STRICT_TIMEOUT
      else MJPEG_CLIENT_POSITIVE_REPORT_TIMEOUT in
    let stable_client_mm_time :=
      to_int (to_uint32 (to_int report_start_frame_mm_time)
              - change_start_mm_time bri) in
    if (change_start_mm_time bri =? 0)
       || (stable_client_mm_time <? timeout)
    then encoder
    else mjpeg_encoder_increase_bit_rate encoder.

(** ** Server-drop monitor *)

Definition mjpeg_encoder_process_server_drops (encoder : MJpegEncoder)
  (host : Host) (now : Z) : MJpegEncoder :=
  let server_state := server_state (rate_control encoder) in
  let fps :=
    MIN (fps (rate_control encoder))
        (mjpeg_encoder_get_source_fps encoder host) in
  if num_frames_encoded server_state
     <? to_uint32 (fps * MJPEG_SERVER_STATUS_EVAL_FPS_INTERVAL)
  then encoder
  else
    let num_frames_total :=
      to_uint32 (num_frames_dropped server_state
                 + num_frames_encoded server_state) in
    let drop_factor :=
      (double_of_Z (num_frames_dropped server_state)
       / double_of_Z num_frames_total)%float in
    let encoder :=
      if PrimFloat.ltb MJPEG_SERVER_STATUS_DOWNGRADE_DROP_FACTOR_TH
           drop_factor
      then mjpeg_encoder_decrease_bit_rate encoder now
      else encoder in
    set_rate_control encoder
      (set_server_state (rate_control encoder) cleared_server_state).

Definition mjpeg_encoder_notify_server_frame_drop (encoder : MJpegEncoder)
  (host : Host) (now : Z) : MJpegEncoder :=
  let rc := rate_control encoder in
  let encoder :=
    set_rate_control encoder
      (set_server_state rc
         (set_num_frames_dropped (server_state rc)
            (to_uint32 (num_frames_dropped (server_state rc) + 1)))) in
  mjpeg_encoder_process_server_drops encoder host now.

(** ** Adjust-to-bit-rate *)

Definition record_sample_and_eval (encoder : MJpegEncoder) (host : Host)
  (size : Z) : MJpegEncoder :=
  let rc := rate_control encoder in
  let quality_eval := quality_eval_data rc in
  let quality_eval :=
    set_encoded_size_by_quality quality_eval
      (array_set (encoded_size_by_quality quality_eval) (quality_id rc)
         size) in
  mjpeg_encoder_eval_quality
    (set_rate_control encoder (set_quality_eval_data rc quality_eval)) host.

(** The code after the label [end] of
    [mjpeg_encoder_adjust_params_to_bit_rate]. *)
Definition adjust_params_end (encoder : MJpegEncoder) (host : Host)
  (now : Z) (new_avg_enc_size : Z) : MJpegEncoder :=
  if during_quality_eval (rate_control encoder)
  then record_sample_and_eval encoder host new_avg_enc_size
  else mjpeg_encoder_process_server_drops encoder host now.

Definition mjpeg_encoder_adjust_params_to_bit_rate (encoder : MJpegEncoder)
  (host : Host) (now : Z) : MJpegEncoder :=
  let rc := rate_control encoder in
  if last_enc_size rc =? 0 then encoder
  else if during_quality_eval rc
  then record_sample_and_eval encoder host (last_enc_size rc)
  else if num_recent_enc_frames rc =? 0 then encoder
  else if (num_recent_enc_frames rc <? MJPEG_AVERAGE_SIZE_WINDOW)
          && (num_recent_enc_frames rc <? fps rc)
  then adjust_params_end encoder host now 0
  else
    let new_avg_enc_size :=
      sum_recent_enc_size rc / num_recent_enc_frames rc in
    let new_fps := get_max_fps new_avg_enc_size (byte_rate rc) in
    let src_fps := mjpeg_encoder_get_source_fps encoder host in
    let encoder :=
      if (new_fps >? fps rc)
         && ((fps rc <? src_fps)
             || (quality_id rc <? MJPEG_QUALITY_SAMPLE_NUM - 1))
      then mjpeg_encoder_quality_eval_set_upgrade encoder
             MJPEG_QUALITY_EVAL_REASON_SIZE_CHANGE
             (to_uint32 (quality_id rc)) (fps rc)
      else if (new_fps <? fps rc) && (new_fps <? src_fps)
      then mjpeg_encoder_quality_eval_set_downgrade encoder
             MJPEG_QUALITY_EVAL_REASON_SIZE_CHANGE
             (to_uint32 (quality_id rc)) (fps rc)
      else encoder in
    adjust_params_end encoder host now new_avg_enc_size.

End RateControl.

Section Facade.

Variable undefined_uint64 : float -> Z.

(** Whether the encoder was compiled against a libjpeg that defines
    [JCS_EXTENSIONS]. *)
Variable JCS_EXTENSIONS : bool.

(** ** Per-frame entry point *)

(** The [switch (format)] of [mjpeg_encoder_start_frame]; [None] is its
    [default] case. *)
Definition select_pixel_format (encoder : MJpegEncoder)
  (format : SpiceBitmapFmt) : option MJpegEncoder :=
  let set_color_space e cs comps :=
    set_cinfo e
      {| in_color_space := cs; input_components := comps;
         image_width := image_width (cinfo e);
         image_height := image_height (cinfo e) |} in
  match format with
  | SPICE_BITMAP_FMT_32BIT | SPICE_BITMAP_FMT_RGBA =>
      let encoder := set_bytes_per_pixel encoder 4 in
      Some (if JCS_EXTENSIONS then set_color_space encoder JCS_EXT_BGRX 4
            else set_pixel_converter encoder (Some pixel_rgb32bpp_to_24))
  | SPICE_BITMAP_FMT_16BIT =>
      let encoder := set_bytes_per_pixel encoder 2 in
      Some (set_pixel_converter encoder (Some pixel_rgb16bpp_to_24))
  | SPICE_BITMAP_FMT_24BIT =>
      let encoder := set_bytes_per_pixel encoder 3 in
      Some (if JCS_EXTENSIONS
            then set_color_space encoder JCS_EXT_BGR
                   (input_components (cinfo encoder))
            else set_pixel_converter encoder (Some pixel_rgb24bpp_to_24))
  | _ => None
  end.

(** The rest of [mjpeg_encoder_start_frame], from the setting of the colour
    space on: the pixel format, the row buffer and the start of the JPEG
    compression at the current quality. *)
Definition start_compress (encoder : MJpegEncoder)
  (format : SpiceBitmapFmt) (src : SpiceRect)
  : VideoEncodeResults * MJpegEncoder :=
  let encoder :=
    set_cinfo encoder
      {| in_color_space := JCS_RGB; input_components := 3;
         image_width := image_width (cinfo encoder);
         image_height := image_height (cinfo encoder) |} in
  let encoder := set_pixel_converter encoder None in
  match select_pixel_format encoder format with
  | None => (VIDEO_ENCODER_FRAME_UNSUPPORTED, encoder)
  | Some encoder =>
      let encoder :=
        set_cinfo encoder
          {| in_color_space := in_color_space (cinfo encoder);
             input_components := input_components (cinfo encoder);
             image_width := to_uint32 (right src - left src);
             image_height := to_uint32 (bottom src - top src) |} in
      let stride := to_uint32 (image_width (cinfo encoder) * 3) in
      let overflow :=
        match pixel_converter encoder with
        | Some _ => stride <? image_width (cinfo encoder)
        | None => false
        end in
      if overflow then (VIDEO_ENCODER_FRAME_UNSUPPORTED, encoder)
      else
        let encoder :=
          match pixel_converter encoder with
          | Some _ =>
              if row_size encoder <? stride
              then set_row_size encoder stride
              else encoder
          | None => encoder
          end in
        let quality :=
          array_get mjpeg_quality_samples
            (quality_id (rate_control encoder)) in
        let encoder :=
          set_num_frames encoder (to_uint32 (num_frames encoder + 1)) in
        let encoder :=
          set_avg_quality encoder
            (to_uint64 (avg_quality encoder + quality)) in
        (VIDEO_ENCODER_FRAME_ENCODE_DONE, encoder)
  end.

(** [now] is the clock value read at the top of the function; [now_dec] the
    one read by a Decrease-bit-rate that the function may trigger. *)
Definition mjpeg_encoder_start_frame (encoder : MJpegEncoder) (host : Host)
  (now now_dec : Z) (format : SpiceBitmapFmt) (src : SpiceRect)
  (frame_mm_time : Z) : VideoEncodeResults * MJpegEncoder :=
  let encoder := start_frame_pacing encoder host now in
  if interval_too_short encoder now
  then (VIDEO_ENCODER_FRAME_DROP, encoder)
  else
    let encoder :=
      mjpeg_encoder_adjust_params_to_bit_rate undefined_uint64 encoder host
        now_dec in
    let encoder := stamp_frame_time encoder now frame_mm_time in
    start_compress encoder format src.

(** [written] is what [jpeg_write_scanlines] returned for this row. *)
Definition mjpeg_encoder_encode_scanline (encoder : MJpegEncoder)
  (written : Z) : Z * MJpegEncoder :=
  if written =? 0
  then (0, set_rate_control encoder
             (set_last_enc_size (rate_control encoder) 0))
  else (written, encoder).

Definition mjpeg_encoder_end_frame (encoder : MJpegEncoder) (jpeg : JpegRun)
  : MJpegEncoder :=
  let encoder := set_first_frame encoder false in
  let rc := rate_control encoder in
  let rc := set_last_enc_size rc (to_uint64 (compressed_size jpeg)) in
  let rc :=
    set_server_state rc
      (set_num_frames_encoded (server_state rc)
         (to_uint32 (num_frames_encoded (server_state rc) + 1))) in
  let rc :=
    if negb (during_quality_eval rc)
       || is_size_change (reason (quality_eval_data rc))
    then
      let rc :=
        if negb (during_quality_eval rc) then
          let rc :=
            if num_recent_enc_frames rc >=? MJPEG_AVERAGE_SIZE_WINDOW
            then set_sum_recent_enc_size
                   (set_num_recent_enc_frames rc 0) 0
            else rc in
          let rc :=
            set_sum_recent_enc_size rc
              (to_uint64 (sum_recent_enc_size rc + last_enc_size rc)) in
          let rc :=
            set_num_recent_enc_frames rc
              (to_uint32 (num_recent_enc_frames rc + 1)) in
          set_adjusted_fps_num_frames rc
            (to_uint64 (adjusted_fps_num_frames rc + 1))
        else rc in
      let bri := bit_rate_info rc in
      let bri :=
        set_sum_enc_size bri
          (to_uint64 (sum_enc_size bri + last_enc_size rc)) in
      let bri :=
        set_num_enc_frames bri (to_uint32 (num_enc_frames bri + 1)) in
      set_bit_rate_info rc bri
    else rc in
  set_rate_control encoder rc.

(** The walk over the chunks of the bitmap.  The result is whether a row
    was found ([false] is the C [NULL]), with the updated [offset] and
    [chunk_nr]. *)
Definition get_image_line (chunks : list Z) (offset chunk_nr stride : Z)
  : bool * Z * Z :=
  let num_chunks := to_uint32 (Z.of_nat (length chunks)) in
  if (offset =? array_get chunks chunk_nr)
     && (to_uint32 chunk_nr =? to_uint32 (num_chunks - 1))
  then (false, offset, chunk_nr)
  else
    let '(offset, chunk_nr) :=
      if offset =? array_get chunks chunk_nr
      then (0, to_int (chunk_nr + 1))
      else (offset, chunk_nr) in
    if to_uint64 (array_get chunks chunk_nr - offset)
       <? to_uint64 (to_int stride)
    then (false, offset, chunk_nr)
    else (true, to_uint64 (offset + to_int stride), chunk_nr).

Fixpoint skip_image_lines (n : nat) (chunks : list Z)
  (offset chunk_nr stride : Z) : Z * Z :=
  match n with
  | O => (offset, chunk_nr)
  | S n' =>
      let '(_, offset, chunk_nr) :=
        get_image_line chunks offset chunk_nr stride in
      skip_image_lines n' chunks offset chunk_nr stride
  end.

(** The second loop of [encode_frame]: [rows] rows are left, [i] is the
    index of the next one. *)
Fixpoint encode_rows (rows : nat) (i : nat) (encoder : MJpegEncoder)
  (jpeg : JpegRun) (chunks : list Z) (offset chunk_nr stride : Z)
  : bool * MJpegEncoder :=
  match rows with
  | O => (true, encoder)
  | S rows' =>
      let '(src_line, offset, chunk_nr) :=
        get_image_line chunks offset chunk_nr stride in
      if negb src_line then (false, encoder)
      else
        let '(written, encoder) :=
          mjpeg_encoder_encode_scanline encoder
            (to_uint32 (scanlines_written jpeg i)) in
        if written =? 0 then (false, encoder)
        else encode_rows rows' (S i) encoder jpeg chunks offset chunk_nr
               stride
  end.

Definition encode_frame (encoder : MJpegEncoder) (jpeg : JpegRun)
  (src : SpiceRect) (image : SpiceBitmap) (top_down : bool)
  : bool * MJpegEncoder :=
  let chunks := data image in
  let image_stride := stride image in
  let skip_lines :=
    if top_down then top src
    else to_int (to_uint32 (y image - to_uint32 (bottom src))) in
  let '(offset, chunk) :=
    skip_image_lines (Z.to_nat skip_lines) chunks 0 0 image_stride in
  let stream_height := to_uint32 (bottom src - top src) in
  encode_rows (Z.to_nat stream_height) O encoder jpeg chunks offset chunk
    image_stride.

(** [buffer] tells whether [create_mjpeg_video_buffer] could allocate the
    output buffer. *)
Definition mjpeg_encoder_encode_frame (encoder : MJpegEncoder) (host : Host)
  (now now_dec : Z) (buffer : bool) (jpeg : JpegRun) (frame_mm_time : Z)
  (bitmap : SpiceBitmap) (src : SpiceRect) (top_down : bool)
  : VideoEncodeResults * MJpegEncoder :=
  if negb buffer then (VIDEO_ENCODER_FRAME_UNSUPPORTED, encoder)
  else
    let '(ret, encoder) :=
      mjpeg_encoder_start_frame encoder host now now_dec (format bitmap)
        src frame_mm_time in
    match ret with
    | VIDEO_ENCODER_FRAME_ENCODE_DONE =>
        let '(ok, encoder) :=
          encode_frame encoder jpeg src bitmap top_down in
        if ok
        then (VIDEO_ENCODER_FRAME_ENCODE_DONE,
              mjpeg_encoder_end_frame encoder jpeg)
        else (VIDEO_ENCODER_FRAME_UNSUPPORTED, encoder)
    | _ => (ret, encoder)
    end.

End Facade.

Section ClientReports.

Variable undefined_uint64 : float -> Z.

(** ** Client-stream-report handler *)

(** [num_frames], the number of frames the report covers, only feeds a
    debug message. *)
Definition mjpeg_encoder_client_stream_report (encoder : MJpegEncoder)
  (host : Host) (now : Z)
  (num_frames num_drops start_frame_mm_time end_frame_mm_time : Z)
  (end_frame_delay : Z) (audio_delay : Z) : MJpegEncoder :=
  let rc := rate_control encoder in
  if during_quality_eval rc
     && match type (quality_eval_data rc) with
        | MJPEG_QUALITY_EVAL_TYPE_DOWNGRADE => true
        | _ => false
        end
     && is_rate_change (reason (quality_eval_data rc))
  then encoder
  else
    let avg_enc_size :=
      if negb (num_recent_enc_frames rc =? 0)
      then sum_recent_enc_size rc / num_recent_enc_frames rc
      else 0 in
    let min_playback_delay :=
      get_min_required_playback_delay avg_enc_size (byte_rate rc)
        (mjpeg_encoder_get_latency encoder host) in
    let '(is_video_delay_small, encoder) :=
      if min_playback_delay >? to_uint32 end_frame_delay then
        let src_fps := mjpeg_encoder_get_source_fps encoder host in
        if negb (quality_id rc =? MJPEG_QUALITY_SAMPLE_NUM - 1)
           || (fps rc <? MIN src_fps MJPEG_MAX_FPS)
           || (end_frame_delay <? 0)
        then (true,
              if update_client_playback_delay (cbs encoder)
              then notify_playback_delay encoder min_playback_delay
              else encoder)
        else (false, encoder)
      else (false, encoder) in
    let client_state := client_state rc in
    if (end_frame_delay >? 0)
       && PrimFloat.ltb (double_of_Z audio_delay)
            (MJPEG_PLAYBACK_LATENCY_DECREASE_FACTOR
             * double_of_Z (max_audio_latency client_state))%float
       && PrimFloat.ltb
            (MJPEG_VIDEO_VS_AUDIO_LATENCY_FACTOR
             * double_of_Z audio_delay)%float
            (double_of_Z end_frame_delay)
    then mjpeg_encoder_handle_negative_client_stream_report
           undefined_uint64 encoder now end_frame_mm_time
    else if end_frame_delay <? MJPEG_VIDEO_DELAY_TH
    then mjpeg_encoder_handle_negative_client_stream_report
           undefined_uint64 encoder now end_frame_mm_time
    else
      let client_state :=
        {| max_video_latency :=
             MAX end_frame_delay (max_video_latency client_state);
           max_audio_latency :=
             MAX audio_delay (max_audio_latency client_state) |} in
      let encoder :=
        set_rate_control encoder
          (set_client_state (rate_control encoder) client_state) in
      let medium_delay_decrease_thresh :=
        (double_of_Z (max_video_latency client_state)
         * MJPEG_PLAYBACK_LATENCY_DECREASE_FACTOR)%float in
      let major_delay_decrease_thresh :=
        (medium_delay_decrease_thresh
         * MJPEG_PLAYBACK_LATENCY_DECREASE_FACTOR)%float in
      if (PrimFloat.ltb (double_of_Z end_frame_delay)
            medium_delay_decrease_thresh
          && is_video_delay_small)
         || PrimFloat.ltb (double_of_Z end_frame_delay)
              major_delay_decrease_thresh
      then mjpeg_encoder_handle_negative_client_stream_report
             undefined_uint64 encoder now end_frame_mm_time
      else if num_drops =? 0
      then mjpeg_encoder_handle_positive_client_stream_report
             undefined_uint64 encoder host start_frame_mm_time
      else encoder.

End ClientReports.

(** ** Queries and construction *)

Definition mjpeg_encoder_get_bit_rate (encoder : MJpegEncoder) : Z :=
  to_uint64 (byte_rate (rate_control encoder) * 8).

Record VideoEncoderStats : Type := {
  stats_starting_bit_rate : Z;
  stats_cur_bit_rate : Z;
  stats_avg_quality : float
}.

Definition mjpeg_encoder_get_stats (encoder : MJpegEncoder)
  : VideoEncoderStats :=
  {| stats_starting_bit_rate := starting_bit_rate encoder;
     stats_cur_bit_rate := mjpeg_encoder_get_bit_rate encoder;
     stats_avg_quality :=
       (double_of_Z (avg_quality encoder)
        / double_of_Z (num_frames encoder))%float |}.

(** Whether a double is a number: neither a NaN nor an infinity. *)
Definition double_is_number (f : float) : bool :=
  match classify f with
  | NaN | PInf | NInf => false
  | _ => true
  end.

(** Modelled from the spec: the codec types of the protocol header, which is
    not part of the sources; the spec pins only the MJPEG variant. *)
Inductive SpiceVideoCodecType : Type :=
| SPICE_VIDEO_CODEC_TYPE_MJPEG
| SPICE_VIDEO_CODEC_TYPE_VP8
| SPICE_VIDEO_CODEC_TYPE_H264.

(** [spice_new0(MJpegEncoder, 1)]: every field zero. *)
Definition zeroed_encoder : MJpegEncoder :=
  {| row_size := 0; first_frame := false;
     cinfo := {| in_color_space := JCS_RGB; input_components := 0;
                 image_width := 0; image_height := 0 |};
     bytes_per_pixel := 0; pixel_converter := None;
     rate_control :=
       {| during_quality_eval := false;
          quality_eval_data := cleared_quality_eval;
          bit_rate_info :=
            {| change_start_time := 0; last_frame_time := 0;
               change_start_mm_time := 0; was_upgraded := false;
               num_enc_frames := 0; sum_enc_size := 0 |};
          client_state :=
            {| max_video_latency := 0; max_audio_latency := 0 |};
          server_state := cleared_server_state;
          byte_rate := 0; quality_id := 0; fps := 0;
          adjusted_fps := 0%float;
          adjusted_fps_start_time := 0; adjusted_fps_num_frames := 0;
          base_enc_size := 0; last_enc_size := 0;
          sum_recent_enc_size := 0; num_recent_enc_frames := 0;
          warmup_start_time := 0 |};
     cbs := {| get_roundtrip_ms := false; get_source_fps := false;
               update_client_playback_delay := false |};
     starting_bit_rate := 0; avg_quality := 0; num_frames := 0;
     playback_delay_updates := [] |}.

(** [now] is the clock value stored in [warmup_start_time]; [None] is the
    [NULL] returned for a codec type other than MJPEG. *)
Definition mjpeg_encoder_new (codec_type : SpiceVideoCodecType)
  (new_starting_bit_rate : Z) (new_cbs : VideoEncoderRateControlCbs)
  (now : Z) : option MJpegEncoder :=
  match codec_type with
  | SPICE_VIDEO_CODEC_TYPE_MJPEG =>
      let encoder := zeroed_encoder in
      let encoder := set_first_frame encoder true in
      let encoder :=
        set_rate_control encoder
          (set_byte_rate (rate_control encoder) (new_starting_bit_rate / 8)) in
      let encoder :=
        {| row_size := row_size encoder; first_frame := first_frame encoder;
           cinfo := cinfo encoder; bytes_per_pixel := bytes_per_pixel encoder;
           pixel_converter := pixel_converter encoder;
           rate_control := rate_control encoder;
           cbs := new_cbs;
           starting_bit_rate := new_starting_bit_rate;
           avg_quality := avg_quality encoder;
           num_frames := num_frames encoder;
           playback_delay_updates := playback_delay_updates encoder |} in
      let encoder :=
        mjpeg_encoder_reset_quality encoder (MJPEG_QUALITY_SAMPLE_NUM / 2) 5
          0 in
      let rc := rate_control encoder in
      let rc := set_during_quality_eval rc true in
      let rc :=
        set_quality_eval_data rc
          (set_type (quality_eval_data rc) MJPEG_QUALITY_EVAL_TYPE_SET) in
      let rc :=
        set_quality_eval_data rc
          (set_reason (quality_eval_data rc)
             MJPEG_QUALITY_EVAL_REASON_RATE_CHANGE) in
      let rc := set_warmup_start_time rc now in
      Some (set_rate_control encoder rc)
  | _ => None
  end.

(** ** Events

    The three entry points through which the host changes the encoder, with
    what the clock, the host callbacks, the allocator and libjpeg answer
    during the call. *)

Inductive Event : Type :=
| EncodeFrame (host : Host) (now now_dec : Z) (buffer : bool) (jpeg : JpegRun)
    (frame_mm_time : Z) (bitmap : SpiceBitmap) (src : SpiceRect)
    (top_down : bool)
| ClientStreamReport (host : Host) (now : Z)
    (num_frames num_drops start_frame_mm_time end_frame_mm_time : Z)
    (end_frame_delay audio_delay : Z)
| NotifyServerFrameDrop (host : Host) (now : Z).

Section Runs.

Variable undefined_uint64 : float -> Z.
Variable JCS_EXTENSIONS : bool.

Definition run_event (encoder : MJpegEncoder) (ev : Event) : MJpegEncoder :=
  match ev with
  | EncodeFrame host now now_dec buffer jpeg frame_mm_time bitmap src
      top_down =>
      snd (mjpeg_encoder_encode_frame undefined_uint64 JCS_EXTENSIONS
             encoder host now now_dec buffer jpeg frame_mm_time bitmap src
             top_down)
  | ClientStreamReport host now num_frames num_drops start_frame_mm_time
      end_frame_mm_time end_frame_delay audio_delay =>
      mjpeg_encoder_client_stream_report undefined_uint64 encoder host now
        num_frames num_drops start_frame_mm_time end_frame_mm_time
        end_frame_delay audio_delay
  | NotifyServerFrameDrop host now =>
      mjpeg_encoder_notify_server_frame_drop undefined_uint64 encoder host
        now
  end.

Definition run_events (encoder : MJpegEncoder) (events : list Event)
  : MJpegEncoder :=
  fold_left run_event events encoder.

(** The byte rate that a re-estimation would measure over the accounting
    window of [encoder] is at least 1 byte per second, or the window holds
    at most one frame (and then no re-estimation takes place). *)
Definition window_rate_positive (encoder : MJpegEncoder) : Prop :=
  num_enc_frames (bit_rate_info (rate_control encoder)) <= 1
  \/ 0 < measured_byte_rate undefined_uint64
           (bit_rate_info (rate_control encoder)).

(** Every event of the run starts in a state with [window_rate_positive]. *)
Fixpoint windows_rate_positive (encoder : MJpegEncoder)
  (events : list Event) : Prop :=
  match events with
  | [] => True
  | ev :: events' =>
      window_rate_positive encoder
      /\ windows_rate_positive (run_event encoder ev) events'
  end.

End Runs.

(** The ranges of the C types of the fields that the bit-rate arithmetic
    reads, the bounds of the quality table and the frame-rate clamp. *)
Record rate_control_wf (rc : MJpegEncoderRateControl) : Prop := {
  wf_byte_rate : 0 <= byte_rate rc < 2 ^ 64;
  wf_fps : MJPEG_MIN_FPS <= fps rc <= MJPEG_MAX_FPS;
  wf_quality_id : 0 <= quality_id rc < MJPEG_QUALITY_SAMPLE_NUM;
  wf_min_quality_id :
    0 <= min_quality_id (quality_eval_data rc) < MJPEG_QUALITY_SAMPLE_NUM;
  wf_max_quality_id :
    0 <= max_quality_id (quality_eval_data rc) < MJPEG_QUALITY_SAMPLE_NUM;
  wf_max_sampled_fps_quality_id :
    0 <= max_sampled_fps_quality_id (quality_eval_data rc)
      < MJPEG_QUALITY_SAMPLE_NUM;
  wf_sizes : length (encoded_size_by_quality (quality_eval_data rc)) = 7%nat;
  wf_sum_enc_size : 0 <= sum_enc_size (bit_rate_info rc) < 2 ^ 64;
  wf_num_enc_frames : 0 <= num_enc_frames (bit_rate_info rc) < 2 ^ 32
}.

(** The condition on the accounting window that the strict invariant needs. *)
Definition window_ok (undefined_uint64 : float -> Z) (strict : bool)
  (encoder : MJpegEncoder) : Prop :=
  strict = true -> window_rate_positive undefined_uint64 encoder.

(** The invariant of the controller: the rate control is well formed and,
    when [strict] is set, the byte rate is positive. *)
Definition encoder_ok (strict : bool) (encoder : MJpegEncoder) : Prop :=
  rate_control_wf (rate_control encoder)
  /\ (strict = true -> 0 < byte_rate (rate_control encoder)).

(** [same_rate e e'] relates an encoder with a later one whose bit-rate
    belief, accounting window and warm-up stamp are the same. *)
Definition same_rate (e e' : MJpegEncoder) : Prop :=
  byte_rate (rate_control e') = byte_rate (rate_control e)
  /\ bit_rate_info (rate_control e') = bit_rate_info (rate_control e)
  /\ warmup_start_time (rate_control e') = warmup_start_time (rate_control e).

(** ** Example inputs

    A host that reports 25 frames per second, a 2x2 bitmap in one chunk, a
    libjpeg run that writes every row, and the encoder constructed with
    8 Mbps one second after the clock started. *)

Definition example_undefined_uint64 : float -> Z := fun _ => 0.

Definition example_cbs : VideoEncoderRateControlCbs :=
  {| get_roundtrip_ms := true; get_source_fps := true;
     update_client_playback_delay := true |}.

Definition example_host : Host :=
  {| host_roundtrip_ms := 0; host_source_fps := 25 |}.

Definition example_bitmap (fmt : SpiceBitmapFmt) : SpiceBitmap :=
  {| format := fmt; y := 2; stride := 8; data := [16] |}.

Definition example_rect : SpiceRect :=
  {| left := 0; top := 0; right := 2; bottom := 2 |}.

Definition jpeg_success (size : Z) : JpegRun :=
  {| scanlines_written := fun _ => 1; compressed_size := size |}.

Definition seconds (n : Z) : Z := n * NSEC_PER_SEC.

(** The encoder that [mjpeg_encoder_new] returns, or the zeroed one for a
    codec type that it refuses. *)
Definition new_encoder (starting_bit_rate : Z) (now : Z) : MJpegEncoder :=
  match
    mjpeg_encoder_new SPICE_VIDEO_CODEC_TYPE_MJPEG starting_bit_rate
      example_cbs now
  with
  | Some encoder => encoder
  | None => zeroed_encoder
  end.

Definition example_encoder : MJpegEncoder := new_encoder 8000000 (seconds 1).

(** A 32-bit frame submitted at [now], stamped [mm] and compressed by libjpeg
    to [size] bytes. *)
Definition example_frame (now mm size : Z) : Event :=
  EncodeFrame example_host now now true (jpeg_success size) mm
    (example_bitmap SPICE_BITMAP_FMT_32BIT) example_rect true.

(** The quality walk of the spec: the evaluator is stepped, as
    [mjpeg_encoder_adjust_params_to_bit_rate] does it before each frame, with
    the size of the frame encoded last. *)
Definition sample (encoder : MJpegEncoder) (size : Z) : MJpegEncoder :=
  mjpeg_encoder_adjust_params_to_bit_rate example_undefined_uint64
    (set_rate_control encoder
       (set_last_enc_size (rate_control encoder) size))
    example_host (seconds 2).

Definition quality_walk (sizes : list Z) : MJpegEncoder :=
  fold_left sample sizes example_encoder.

(** The same walk through the frame entry point: four frames one second
    apart with these compressed sizes, and a fifth frame whose submission
    evaluates the fourth sample. *)
Definition quality_walk_frames : list Event :=
  [example_frame (seconds 2) 1000 20000;
   example_frame (seconds 3) 2000 25000;
   example_frame (seconds 4) 3000 40000;
   example_frame (seconds 5) 4000 90000;
   example_frame (seconds 6) 5000 90000].

(** A stream that goes idle: after the first evaluation, five frames of 100
    bytes arrive 1000 seconds apart; then the client reports a late frame. *)
Definition idle_stream_frames : list Event :=
  [example_frame (seconds 2) 1000 100;
   example_frame (seconds 3) 2000 100;
   example_frame (seconds 4) 3000 100;
   example_frame (seconds 5) 4000 100;
   example_frame (seconds 1000) 5000 100;
   example_frame (seconds 2000) 6000 100;
   example_frame (seconds 3000) 7000 100;
   example_frame (seconds 4000) 8000 100;
   example_frame (seconds 5000) 9000 100].

Definition late_frame_report : Event :=
  ClientStreamReport example_host (seconds 5001) 5 0 5000 9000 (-50) 0.

(** A busy stream: after the quality walk, four more frames of 90000 bytes
    arrive 100 ms apart. *)
Definition milliseconds (n : Z) : Z := n * NSEC_PER_MILLISEC.

Definition busy_stream_frames : list Event :=
  quality_walk_frames
  ++ [example_frame (milliseconds 6100) 5100 90000;
      example_frame (milliseconds 6200) 5200 90000;
      example_frame (milliseconds 6300) 5300 90000;
      example_frame (milliseconds 6400) 5400 90000].

Definition busy_encoder : MJpegEncoder :=
  run_events example_undefined_uint64 false example_encoder
    busy_stream_frames.

(** A state outside the invariant, which no run reaches: a frame rate of 0
    and an accounting window of two seconds whose single frame is counted
    with 2^64 - 3 bytes. *)
Definition zero_fps_encoder : MJpegEncoder :=
  set_rate_control busy_encoder
    (set_fps
       (set_byte_rate
          (set_bit_rate_info (rate_control busy_encoder)
             {| change_start_time := seconds 1; last_frame_time := seconds 3;
                change_start_mm_time := 1000; was_upgraded := false;
                num_enc_frames := 1; sum_enc_size := 2 ^ 64 - 3 |})
          10)
       0).

(** A report of a frame that arrived 50 ms late, received 11 seconds after
    the clock started. *)
Definition busy_late_frame_report : Event :=
  ClientStreamReport example_host (seconds 11) 5 0 5000 5400 (-50) 0.

(** ** Pixel conversion

    The three routines that [mjpeg_encoder_start_frame] installs in
    [encoder->pixel_converter]; each writes the red, green and blue bytes of
    one pixel to [dest].  The constructors of [PixelConverter] bear the C
    names, so the bodies are named after what they write. *)

Definition to_uint8 (z : Z) : Z := z mod 2 ^ 8.

(** [pixel_rgb24bpp_to_24]: [src] holds the three bytes of the pixel. *)
Definition rgb24bpp_to_24 (src : list Z) : list Z :=
  [nth 2 src 0; nth 1 src 0; nth 0 src 0].

(** [pixel_rgb32bpp_to_24]: [pixel] is the [uint32_t] read from [src]. *)
Definition rgb32bpp_to_24 (pixel : Z) : list Z :=
  [Z.land (Z.shiftr pixel 16) 255;
   Z.land (Z.shiftr pixel 8) 255;
   Z.land (Z.shiftr pixel 0) 255].

(** [pixel_rgb16bpp_to_24]: [pixel] is the [uint16_t] read from [src]; the
    three expressions are computed in [int] and stored in a [uint8_t]. *)
Definition rgb16bpp_to_24 (pixel : Z) : list Z :=
  [to_uint8 (Z.lor (Z.land (Z.shiftr pixel 7) 248)
               (Z.land (Z.shiftr pixel 12) 7));
   to_uint8 (Z.lor (Z.land (Z.shiftr pixel 2) 248)
               (Z.land (Z.shiftr pixel 7) 7));
   to_uint8 (Z.lor (Z.land (Z.shiftl pixel 3) 248)
               (Z.land (Z.shiftr pixel 2) 7))].

(** A 15-bit pixel with five bits per colour, and a 32-bit pixel with eight;
    [x] stands for the bits above the colours, which the converters ignore. *)
Definition rgb555 (x r g b : Z) : Z := x * 32768 + r * 1024 + g * 32 + b.
Definition xrgb8888 (x r g b : Z) : Z :=
  x * 16777216 + r * 65536 + g * 256 + b.

(** ** The encoder around the rate control

    The fields of the encoder that are not part of its rate control: the row
    buffer, the libjpeg settings, the pixel format, the callbacks and the
    statistics. *)
Definition frontend (e : MJpegEncoder) :=
  (row_size e, first_frame e, cinfo e, bytes_per_pixel e, pixel_converter e,
   cbs e, starting_bit_rate e, avg_quality e, num_frames e).

(** ** Runs of the evaluator

    The qualities that the evaluation in progress has not sampled yet, and
    the evaluator fed with a series of samples: for each of them the two
    statements of [mjpeg_encoder_adjust_params_to_bit_rate] that record the
    size and call [mjpeg_encoder_eval_quality], for as long as the
    evaluation is in progress.  Each sample comes with what the host
    answers during the call. *)
Definition unsampled (encoder : MJpegEncoder) : nat :=
  count_occ Z.eq_dec
    (encoded_size_by_quality (quality_eval_data (rate_control encoder))) 0.

Fixpoint eval_samples (encoder : MJpegEncoder) (samples : list (Host * Z))
  : MJpegEncoder :=
  match samples with
  | [] => encoder
  | (host, size) :: samples' =>
      if during_quality_eval (rate_control encoder)
      then eval_samples (record_sample_and_eval encoder host size) samples'
      else encoder
  end.

(** The table of sampled sizes between two steps of the evaluator: while
    an evaluation is in progress the quality to sample next has no sample
    yet, and outside an evaluation the table is empty. *)
Definition eval_table_ok (rc : MJpegEncoderRateControl) : Prop :=
  if during_quality_eval rc
  then array_get (encoded_size_by_quality (quality_eval_data rc))
         (quality_id rc) = 0
  else encoded_size_by_quality (quality_eval_data rc)
       = [0; 0; 0; 0; 0; 0; 0].

(** [warmup_kept e e'] relates an encoder with a later one whose warm-up
    stamp is the same or has been cleared. *)
Definition warmup_kept (e e' : MJpegEncoder) : Prop :=
  warmup_start_time (rate_control e') = warmup_start_time (rate_control e)
  \/ warmup_start_time (rate_control e') = 0.

(** What [mjpeg_encoder_quality_eval_stop] goes back to when it cancels an
    evaluation: the type and the bounds of the evaluation. *)
Definition eval_restore_point (e : MJpegEncoder) :=
  let quality_eval := quality_eval_data (rate_control e) in
  (type quality_eval, min_quality_id quality_eval,
   min_quality_fps quality_eval, max_quality_id quality_eval,
   max_quality_fps quality_eval).

(** ** Frames that can be encoded

    The formats that the [switch] of [mjpeg_encoder_start_frame] names,
    those for which it installs a pixel converter, and its test for a row
    of converted pixels, three bytes each, that does not fit a
    [JDIMENSION]. *)
Definition supported_format (format : SpiceBitmapFmt) : bool :=
  match format with
  | SPICE_BITMAP_FMT_32BIT | SPICE_BITMAP_FMT_RGBA
  | SPICE_BITMAP_FMT_16BIT | SPICE_BITMAP_FMT_24BIT => true
  | _ => false
  end.

Definition uses_pixel_converter (JCS_EXTENSIONS : bool)
  (format : SpiceBitmapFmt) : bool :=
  match format with
  | SPICE_BITMAP_FMT_16BIT => true
  | SPICE_BITMAP_FMT_32BIT | SPICE_BITMAP_FMT_RGBA
  | SPICE_BITMAP_FMT_24BIT => negb JCS_EXTENSIONS
  | _ => false
  end.

Definition stride_overflow (JCS_EXTENSIONS : bool) (format : SpiceBitmapFmt)
  (src : SpiceRect) : bool :=
  let width := to_uint32 (right src - left src) in
  uses_pixel_converter JCS_EXTENSIONS format
  && (to_uint32 (width * 3) <? width).

(** ** Bitmaps whose chunks hold whole rows

    The two loop bounds of [encode_frame], the number of rows that the
    chunks of a bitmap hold, and the bitmaps that [get_image_line] walks
    without a complaint: at least one chunk, and in every chunk a whole
    number of rows, at least one. *)
Definition skip_lines (src : SpiceRect) (image : SpiceBitmap)
  (top_down : bool) : Z :=
  if top_down then top src
  else to_int (to_uint32 (y image - to_uint32 (bottom src))).

Definition stream_height (src : SpiceRect) : Z :=
  to_uint32 (bottom src - top src).

Definition chunk_rows (stride : Z) (chunks : list Z) : Z :=
  fold_right (fun len rows => len / stride + rows) 0 chunks.

Definition bitmap_rows (image : SpiceBitmap) : Z :=
  chunk_rows (stride image) (data image).

Definition whole_rows (image : SpiceBitmap) : Prop :=
  0 < stride image < 2 ^ 31
  /\ data image <> []
  /\ Z.of_nat (length (data image)) < 2 ^ 31
  /\ Forall (fun len => 0 < len < 2 ^ 32 /\ len mod stride image = 0)
       (data image).

(** A position of the walk of [get_image_line]: it stands in chunk [n] at
    [offset], a multiple of the stride, and [rows_left] rows follow, the
    rest of the chunk and the chunks after it. *)
Definition walk_at (stride : Z) (chunks : list Z) (n : nat) (offset : Z)
  : Prop :=
  (n < length chunks)%nat
  /\ 0 <= offset <= nth n chunks 0
  /\ offset mod stride = 0.

Definition rows_left (stride : Z) (chunks : list Z) (n : nat) (offset : Z)
  : Z :=
  (nth n chunks 0 - offset) / stride
  + chunk_rows stride (skipn (S n) chunks).

(** ** Reports that reach Handle-Positive

    The tests of [mjpeg_encoder_client_stream_report] that lie between its
    early return and its call of
    [mjpeg_encoder_handle_positive_client_stream_report], on the encoder as
    the report finds it: whether the playback delay is found too small, the
    test for a video latency that runs away from the audio latency, the
    running maxima of the client state as the report leaves them, and the
    test for a latency that has decreased against them. *)
Definition report_video_delay_small (encoder : MJpegEncoder) (host : Host)
  (end_frame_delay : Z) : bool :=
  let rc := rate_control encoder in
  let avg_enc_size :=
    if negb (num_recent_enc_frames rc =? 0)
    then sum_recent_enc_size rc / num_recent_enc_frames rc
    else 0 in
  let min_playback_delay :=
    get_min_required_playback_delay avg_enc_size (byte_rate rc)
      (mjpeg_encoder_get_latency encoder host) in
  (min_playback_delay >? to_uint32 end_frame_delay)
  && (negb (quality_id rc =? MJPEG_QUALITY_SAMPLE_NUM - 1)
      || (fps rc <? MIN (mjpeg_encoder_get_source_fps encoder host)
                      MJPEG_MAX_FPS)
      || (end_frame_delay <? 0)).

Definition report_audio_drift (encoder : MJpegEncoder)
  (end_frame_delay audio_delay : Z) : bool :=
  let client_state := client_state (rate_control encoder) in
  (end_frame_delay >? 0)
  && PrimFloat.ltb (double_of_Z audio_delay)
       (MJPEG_PLAYBACK_LATENCY_DECREASE_FACTOR
        * double_of_Z (max_audio_latency client_state))%float
  && PrimFloat.ltb
       (MJPEG_VIDEO_VS_AUDIO_LATENCY_FACTOR * double_of_Z audio_delay)%float
       (double_of_Z end_frame_delay).

Definition report_client_state (encoder : MJpegEncoder)
  (end_frame_delay audio_delay : Z) : MJpegEncoderClientState :=
  let client_state := client_state (rate_control encoder) in
  {| max_video_latency :=
       MAX end_frame_delay (max_video_latency client_state);
     max_audio_latency :=
       MAX audio_delay (max_audio_latency client_state) |}.

Definition report_delay_decreased (encoder : MJpegEncoder) (host : Host)
  (end_frame_delay audio_delay : Z) : bool :=
  let client_state :=
    report_client_state encoder end_frame_delay audio_delay in
  let medium_delay_decrease_thresh :=
    (double_of_Z (max_video_latency client_state)
     * MJPEG_PLAYBACK_LATENCY_DECREASE_FACTOR)%float in
  let major_delay_decrease_thresh :=
    (medium_delay_decrease_thresh
     * MJPEG_PLAYBACK_LATENCY_DECREASE_FACTOR)%float in
  (PrimFloat.ltb (double_of_Z end_frame_delay) medium_delay_decrease_thresh
   && report_video_delay_small encoder host end_frame_delay)
  || PrimFloat.ltb (double_of_Z end_frame_delay)
       major_delay_decrease_thresh.

(** The reports that [mjpeg_encoder_client_stream_report] passes to
    Handle-Positive: none of the three tests that lead to Handle-Negative
    holds, and no frame was dropped. *)
Definition report_is_positive (encoder : MJpegEncoder) (host : Host)
  (num_drops end_frame_delay audio_delay : Z) : bool :=
  negb (report_audio_drift encoder end_frame_delay audio_delay)
  && negb (end_frame_delay <? MJPEG_VIDEO_DELAY_TH)
  && negb (report_delay_decreased encoder host end_frame_delay audio_delay)
  && (num_drops =? 0).

(** A stream whose evaluation has completed at the median quality: the first
    frame is compressed to 125000 bytes, of which the byte rate carries 8 per
    second. *)
Definition slow_encoder : MJpegEncoder :=
  run_events example_undefined_uint64 false example_encoder
    [example_frame (seconds 2) 1000 125000;
     example_frame (seconds 3) 2000 125000].

(** * Properties *)

(** ** Proof steps *)

(** Reduce the projections of updated records, and nothing else. *)
Ltac fields :=
  cbn [type reason encoded_size_by_quality min_quality_id min_quality_fps
       max_quality_id max_quality_fps max_sampled_fps
       max_sampled_fps_quality_id max_video_latency max_audio_latency
       num_frames_encoded num_frames_dropped change_start_time
       last_frame_time change_start_mm_time was_upgraded num_enc_frames
       sum_enc_size during_quality_eval quality_eval_data bit_rate_info
       client_state server_state byte_rate quality_id fps adjusted_fps
       adjusted_fps_start_time adjusted_fps_num_frames base_enc_size
       last_enc_size sum_recent_enc_size num_recent_enc_frames
       warmup_start_time row_size first_frame cinfo bytes_per_pixel
       pixel_converter rate_control cbs starting_bit_rate avg_quality
       num_frames playback_delay_updates in_color_space input_components
       image_width image_height set_type set_reason
       set_encoded_size_by_quality set_min_quality_id set_min_quality_fps
       set_max_quality_id set_max_quality_fps set_max_sampled_fps
       set_max_sampled_fps_quality_id set_num_frames_encoded
       set_num_frames_dropped set_change_start_time set_last_frame_time
       set_change_start_mm_time set_was_upgraded set_num_enc_frames
       set_sum_enc_size set_during_quality_eval set_quality_eval_data
       set_bit_rate_info set_client_state set_server_state set_byte_rate
       set_quality_id set_fps set_adjusted_fps set_adjusted_fps_start_time
       set_adjusted_fps_num_frames set_base_enc_size set_last_enc_size
       set_sum_recent_enc_size set_num_recent_enc_frames
       set_warmup_start_time set_row_size set_first_frame set_cinfo
       set_bytes_per_pixel set_pixel_converter set_rate_control
       set_avg_quality set_num_frames set_playback_delay_updates
       notify_playback_delay fst snd].

(** Split on the condition of an [if] of the goal. *)
Ltac case_if :=
  match goal with
  | |- context [if ?c then _ else _] => destruct c eqn:?
  end.

(** Turn the boolean tests among the hypotheses into (in)equalities. *)
Ltac boolZ :=
  repeat match goal with
    | H : negb _ = true |- _ => apply negb_true_iff in H
    | H : negb _ = false |- _ => apply negb_false_iff in H
    | H : _ && _ = true |- _ => apply andb_true_iff in H; destruct H
    | H : _ || _ = false |- _ => apply orb_false_iff in H; destruct H
    | H : (_ >? _) = true |- _ => apply Z.gtb_lt in H
    | H : (_ >? _) = false |- _ => rewrite Z.gtb_ltb in H
    | H : (_ >=? _) = _ |- _ => rewrite Z.geb_leb in H
    | H : (_ =? _) = true |- _ => apply Z.eqb_eq in H
    | H : (_ =? _) = false |- _ => apply Z.eqb_neq in H
    | H : (_ <? _) = true |- _ => apply Z.ltb_lt in H
    | H : (_ <? _) = false |- _ => apply Z.ltb_ge in H
    | H : (_ <=? _) = true |- _ => apply Z.leb_le in H
    | H : (_ <=? _) = false |- _ => apply Z.leb_gt in H
    end.

Ltac same_rate_fields := unfold same_rate; fields; auto.

(** ** Arithmetic of the C types *)

Lemma to_uint64_range z : 0 <= to_uint64 z < 2 ^ 64.
Proof. unfold to_uint64. apply Z.mod_pos_bound. reflexivity. Qed.

Lemma to_uint32_range z : 0 <= to_uint32 z < 2 ^ 32.
Proof. unfold to_uint32. apply Z.mod_pos_bound. reflexivity. Qed.

Lemma to_int_small z : - 2 ^ 31 <= z < 2 ^ 31 -> to_int z = z.
Proof. unfold to_int. intros H. rewrite Z.mod_small; lia. Qed.

Lemma to_uint32_small z : 0 <= z < 2 ^ 32 -> to_uint32 z = z.
Proof. unfold to_uint32. intros H. apply Z.mod_small. lia. Qed.

Lemma to_uint64_small z : 0 <= z < 2 ^ 64 -> to_uint64 z = z.
Proof. unfold to_uint64. intros H. apply Z.mod_small. lia. Qed.

Lemma quality_id_round_trip q :
  0 <= q < MJPEG_QUALITY_SAMPLE_NUM -> to_int (to_uint32 q) = q.
Proof.
  unfold MJPEG_QUALITY_SAMPLE_NUM. intros H.
  rewrite to_uint32_small by lia. apply to_int_small. lia.
Qed.

Lemma MIN_le_r a b : MIN a b <= b.
Proof. unfold MIN. destruct (Z.ltb_spec a b); lia. Qed.

Lemma fps_clamp f :
  MJPEG_MIN_FPS <= MIN MJPEG_MAX_FPS (MAX MJPEG_MIN_FPS f) <= MJPEG_MAX_FPS.
Proof.
  unfold MIN, MAX, MJPEG_MIN_FPS, MJPEG_MAX_FPS. rewrite Z.gtb_ltb.
  repeat match goal with
         | |- context [?a <? ?b] => destruct (Z.ltb_spec a b)
         end; lia.
Qed.

Lemma trunc_magnitude_nonneg m e : 0 <= trunc_magnitude m e.
Proof.
  destruct e as [|p|p]; cbn [trunc_magnitude]; [lia| |].
  - apply Z.mul_nonneg_nonneg; [lia|]. apply Z.pow_nonneg. lia.
  - apply Z.div_pos; [lia|]. apply Z.pow_pos_nonneg; lia.
Qed.

(** Whatever an undefined conversion stores, the result is a [uint64_t]. *)
Lemma double_to_uint64_range u f : 0 <= double_to_uint64 u f < 2 ^ 64.
Proof.
  unfold double_to_uint64.
  destruct (Prim2SF f) as [s|s| |s m e]; try apply to_uint64_range; [lia|].
  cbv zeta. destruct (Z.eqb_spec (trunc_magnitude m e) 0); [lia|].
  destruct s; [apply to_uint64_range|].
  destruct (Z.ltb_spec (trunc_magnitude m e) (2 ^ 64));
    [|apply to_uint64_range].
  split; [apply trunc_magnitude_nonneg | assumption].
Qed.

Lemma measured_byte_rate_range u bri : 0 <= measured_byte_rate u bri < 2 ^ 64.
Proof. apply double_to_uint64_range. Qed.

Lemma list_set_length a n x : length (list_set a n x) = length a.
Proof.
  revert n. induction a as [|y a IH]; intros [|n]; cbn; auto.
Qed.

Lemma array_set_length a i x : length (array_set a i x) = length a.
Proof. unfold array_set. case_if; [apply list_set_length|reflexivity]. Qed.

Lemma Some_inj {A : Type} (a b : A) : Some a = Some b -> a = b.
Proof. intros H. injection H. auto. Qed.

(** ** Arithmetic of the doubles *)

(** The right shifts of the rounding never make a mantissa negative, so
    rounding a non-negative mantissa never gives a NaN. *)
Lemma shr_1_nonneg r : 0 <= shr_m r -> 0 <= shr_m (shr_1 r).
Proof.
  destruct r as [m r s]. cbn [shr_m shr_1].
  destruct m as [|[p|p|]|p]; cbn [shr_m]; lia.
Qed.

Lemma iter_pos_shr_1_nonneg n : forall r,
  0 <= shr_m r -> 0 <= shr_m (iter_pos shr_1 n r).
Proof.
  induction n as [n IH|n IH|]; intros r Hr; cbn [iter_pos].
  - apply IH, IH, shr_1_nonneg, Hr.
  - apply IH, IH, Hr.
  - apply shr_1_nonneg, Hr.
Qed.

Lemma shr_nonneg r e n : 0 <= shr_m r -> 0 <= shr_m (fst (shr r e n)).
Proof.
  intros Hr. unfold shr. destruct n; cbn [fst]; try assumption.
  now apply iter_pos_shr_1_nonneg.
Qed.

Lemma shr_record_of_loc_m m l : shr_m (shr_record_of_loc m l) = m.
Proof. destruct l as [|[| |]]; reflexivity. Qed.

Lemma shr_fexp_nonneg m e l :
  0 <= m -> 0 <= shr_m (fst (shr_fexp prec emax m e l)).
Proof.
  intros Hm. unfold shr_fexp. apply shr_nonneg.
  now rewrite shr_record_of_loc_m.
Qed.

Lemma round_nearest_even_nonneg m l : 0 <= m -> 0 <= round_nearest_even m l.
Proof.
  intros Hm. unfold round_nearest_even.
  destruct l as [|[| |]]; try destruct (Z.even m); lia.
Qed.

Lemma binary_round_aux_not_nan s m e l :
  0 <= m -> binary_round_aux prec emax s m e l <> S754_nan.
Proof.
  intros Hm. unfold binary_round_aux.
  pose proof (shr_fexp_nonneg m e l Hm) as H1.
  destruct (shr_fexp prec emax m e l) as [mrs' e']. cbn [fst] in H1.
  pose proof (shr_fexp_nonneg
                (round_nearest_even (shr_m mrs') (loc_of_shr_record mrs'))
                e' loc_Exact (round_nearest_even_nonneg _ _ H1)) as H2.
  destruct (shr_fexp prec emax _ e' loc_Exact) as [mrs'' e''].
  cbn [fst] in H2.
  destruct (shr_m mrs'') as [|p|p]; try discriminate; [|lia].
  destruct (e'' <=? emax - prec); discriminate.
Qed.

Lemma binary_normalize_not_nan z :
  0 <= z -> binary_normalize prec emax z 0 false <> S754_nan.
Proof.
  intros Hz. unfold binary_normalize.
  destruct z as [|p|p]; [discriminate| |lia].
  unfold binary_round.
  destruct (shl_align p 0 _) as [mz ez].
  apply binary_round_aux_not_nan. lia.
Qed.

(** The conversion of an integer below 2^63 is the rounding of its
    specification. *)
Lemma Prim2SF_double_of_Z z :
  0 <= z < 2 ^ 63 ->
  Prim2SF (double_of_Z z) = binary_normalize prec emax z 0 false.
Proof.
  intros Hz. unfold double_of_Z. apply Prim2SF_SF2Prim.
  pose proof (Prim2SF_valid (of_uint63 (Uint63.of_Z z))) as Hv.
  rewrite of_uint63_spec in Hv.
  rewrite Uint63.of_Z_spec in Hv.
  rewrite Z.mod_small in Hv; [exact Hv|].
  change Uint63.wB with (2 ^ 63). lia.
Qed.

(** An integer below 2^53 is converted exactly, to a finite double that is
    not zero. *)
Lemma digits2_pos_iter_xO k : forall p,
  digits2_pos (Pos.iter xO p k) = (digits2_pos p + k)%positive.
Proof.
  induction k as [|k IH] using Pos.peano_ind; intros p.
  - cbn. lia.
  - rewrite Pos.iter_succ. cbn [digits2_pos]. rewrite IH. lia.
Qed.

Lemma digits2_pos_lower p : 2 ^ (Zpos (digits2_pos p) - 1) <= Zpos p.
Proof.
  induction p as [p IH|p IH|]; cbn [digits2_pos]; [| |cbn; lia].
  - rewrite Pos2Z.inj_succ.
    replace (Z.succ (Zpos (digits2_pos p)) - 1)
      with (Z.succ (Zpos (digits2_pos p) - 1)) by lia.
    rewrite Z.pow_succ_r by lia. lia.
  - rewrite Pos2Z.inj_succ.
    replace (Z.succ (Zpos (digits2_pos p)) - 1)
      with (Z.succ (Zpos (digits2_pos p) - 1)) by lia.
    rewrite Z.pow_succ_r by lia. lia.
Qed.

Lemma digits2_pos_small p : Zpos p < 2 ^ 53 -> Zpos (digits2_pos p) <= 53.
Proof.
  intros Hp. pose proof (digits2_pos_lower p) as Hl.
  destruct (Z.le_gt_cases (Zpos (digits2_pos p)) 53) as [H|H]; [exact H|].
  exfalso.
  assert (2 ^ 53 <= 2 ^ (Zpos (digits2_pos p) - 1))
    by (apply Z.pow_le_mono_r; lia).
  lia.
Qed.

Lemma binary_round_aux_exact m e :
  Zpos (digits2_pos m) = 53 -> -1074 <= e <= 971 ->
  binary_round_aux prec emax false (Zpos m) e loc_Exact
  = S754_finite false m e.
Proof.
  intros Hd He.
  assert (Hshift :
            shr_fexp prec emax (Zpos m) e loc_Exact
            = ({| shr_m := Zpos m; shr_r := false; shr_s := false |}, e)).
  { unfold shr_fexp, fexp, SpecFloat.emin, prec, emax. cbn [Zdigits2].
    rewrite Hd. replace (Z.max (53 + e - 53) (3 - 1024 - 53)) with e by lia.
    rewrite Z.sub_diag. reflexivity. }
  unfold binary_round_aux. rewrite Hshift.
  cbn [shr_m loc_of_shr_record round_nearest_even]. rewrite Hshift.
  cbn [shr_m]. unfold prec, emax.
  destruct (Z.leb_spec e (1024 - 53)); [reflexivity|lia].
Qed.

Lemma binary_normalize_finite p :
  Zpos p < 2 ^ 53 ->
  exists m e, binary_normalize prec emax (Zpos p) 0 false
              = S754_finite false m e.
Proof.
  intros Hp. pose proof (digits2_pos_small p Hp) as Hd.
  unfold binary_normalize, binary_round, shl_align, fexp, SpecFloat.emin,
    prec, emax.
  replace (Z.max (Zpos (digits2_pos p) + 0 - 53) (3 - 1024 - 53))
    with (Zpos (digits2_pos p) - 53) by lia.
  destruct (Zpos (digits2_pos p) - 53 - 0) as [|k|k] eqn:Hk; [|lia|].
  - exists p, 0. apply (binary_round_aux_exact p 0); lia.
  - exists (Pos.iter xO p k), (Zpos (digits2_pos p) - 53).
    apply (binary_round_aux_exact (Pos.iter xO p k)).
    + rewrite digits2_pos_iter_xO. lia.
    + lia.
Qed.

(** Dividing by a finite double that is not zero gives no NaN. *)
Lemma SFdiv_by_finite_not_nan x s m e :
  x <> S754_nan -> SFdiv prec emax x (S754_finite s m e) <> S754_nan.
Proof.
  intros Hx. destruct x as [sx|sx| |sx mx ex]; cbn [SFdiv];
    try discriminate; [congruence|].
  unfold SFdiv_core_binary.
  set (d := Z.min _ _). set (sh := ex - e - d).
  set (m' := match sh with Z0 => Zpos mx | Zpos _ => Z.shiftl (Zpos mx) sh
                      | Zneg _ => 0 end).
  assert (0 <= m') as Hm'.
  { unfold m'. destruct sh; [lia| |lia]. apply Z.shiftl_nonneg. lia. }
  destruct (Z.div_eucl m' (Zpos m)) as [q r] eqn:Hqr.
  apply binary_round_aux_not_nan.
  assert (q = m' / Zpos m) as -> by (unfold Z.div; now rewrite Hqr).
  apply Z.div_pos; lia.
Qed.

Lemma division_of_integers_not_nan a n :
  0 <= a < 2 ^ 63 -> 0 < n < 2 ^ 53 ->
  classify (double_of_Z a / double_of_Z n)%float <> NaN.
Proof.
  intros Ha Hn. rewrite classify_spec, div_spec.
  rewrite !Prim2SF_double_of_Z by lia.
  destruct n as [|p|p]; try lia.
  destruct (binary_normalize_finite p ltac:(lia)) as (m & e & ->).
  pose proof (SFdiv_by_finite_not_nan
                (binary_normalize prec emax a 0 false) false m e
                (binary_normalize_not_nan a ltac:(lia))) as H.
  unfold SF64classify, SF64div.
  destruct (SFdiv prec emax _ _) as [[|]|[|]| |[|] m' e'];
    cbn [SFclassify]; try discriminate; try congruence;
    destruct (_ =? _); discriminate.
Qed.

(** ** What the quality evaluator leaves alone *)

Lemma same_rate_refl e : same_rate e e.
Proof. unfold same_rate. auto. Qed.

Lemma same_rate_trans e1 e2 e3 :
  same_rate e1 e2 -> same_rate e2 e3 -> same_rate e1 e3.
Proof.
  intros (H1 & H2 & H3) (H4 & H5 & H6).
  unfold same_rate. rewrite H4, H5, H6. auto.
Qed.

Lemma reset_quality_same_rate encoder q f s :
  same_rate encoder (mjpeg_encoder_reset_quality encoder q f s).
Proof.
  unfold mjpeg_encoder_reset_quality.
  destruct (negb _), (is_rate_change _); same_rate_fields.
Qed.

Lemma complete_sample_same_rate encoder host :
  same_rate encoder (complete_sample encoder host).
Proof.
  unfold complete_sample.
  match goal with
  | |- context [mjpeg_encoder_reset_quality ?e ?q ?f ?s] =>
      pose proof (reset_quality_same_rate e q f s) as H;
      generalize dependent (mjpeg_encoder_reset_quality e q f s)
  end.
  intros e' (H1 & H2 & H3). cbv zeta.
  destruct (update_client_playback_delay _); same_rate_fields.
Qed.

Lemma quality_id_step_same_rate encoder d :
  same_rate encoder (quality_id_step encoder d).
Proof. unfold quality_id_step. same_rate_fields. Qed.

Lemma track_best_sample_same_rate encoder f sf :
  same_rate encoder (track_best_sample encoder f sf).
Proof. unfold track_best_sample. cbv zeta. case_if; same_rate_fields. Qed.

Lemma choose_next_quality_same_rate encoder host f sf :
  same_rate encoder (choose_next_quality encoder host f sf).
Proof.
  unfold choose_next_quality. cbv zeta.
  repeat case_if;
    try (eapply same_rate_trans; [|apply complete_sample_same_rate]);
    try apply quality_id_step_same_rate; apply same_rate_refl.
Qed.

Lemma eval_quality_same_rate encoder host :
  same_rate encoder (mjpeg_encoder_eval_quality encoder host).
Proof.
  unfold mjpeg_encoder_eval_quality. cbv zeta.
  case_if; [apply same_rate_refl|].
  eapply same_rate_trans;
    [apply track_best_sample_same_rate|apply choose_next_quality_same_rate].
Qed.

Lemma quality_eval_stop_same_rate encoder :
  same_rate encoder (mjpeg_encoder_quality_eval_stop encoder).
Proof.
  unfold mjpeg_encoder_quality_eval_stop.
  destruct (negb _); [apply same_rate_refl|].
  destruct (type _); apply reset_quality_same_rate.
Qed.

Lemma record_sample_and_eval_same_rate encoder host size :
  same_rate encoder (record_sample_and_eval encoder host size).
Proof.
  unfold record_sample_and_eval. cbv zeta.
  eapply same_rate_trans; [|apply eval_quality_same_rate].
  same_rate_fields.
Qed.

Lemma adjust_fps_same_rate encoder host now :
  same_rate encoder (mjpeg_encoder_adjust_fps encoder host now).
Proof.
  unfold mjpeg_encoder_adjust_fps. cbv zeta.
  case_if; [|apply same_rate_refl].
  unfold same_rate. fields. repeat case_if; fields; auto.
Qed.

Lemma start_frame_pacing_same_rate encoder host now :
  same_rate encoder (start_frame_pacing encoder host now).
Proof.
  unfold start_frame_pacing. cbv zeta.
  eapply same_rate_trans; [|apply adjust_fps_same_rate].
  case_if; same_rate_fields.
Qed.

Lemma same_rate_window u e e' :
  same_rate e e' -> window_rate_positive u e -> window_rate_positive u e'.
Proof.
  intros (_ & Hi & _). unfold window_rate_positive. now rewrite Hi.
Qed.

(** ** The bit-rate arithmetic *)

Lemma enough_frames_at_least_two rc :
  MJPEG_MIN_FPS <= fps rc ->
  enough_frames_for_estimate rc = true ->
  2 <= num_enc_frames (bit_rate_info rc).
Proof.
  unfold enough_frames_for_estimate, MJPEG_MIN_FPS,
    MJPEG_BIT_RATE_EVAL_MIN_NUM_FRAMES.
  intros Hfps H. apply orb_true_iff in H. destruct H as [H|H];
    apply Z.gtb_lt in H; lia.
Qed.

Lemma avg_frame_size_bound s n :
  0 <= s < 2 ^ 64 -> 2 <= n -> 0 <= s / n < 2 ^ 63.
Proof.
  intros Hs Hn. split.
  - apply Z.div_pos; lia.
  - apply Z.div_lt_upper_bound; [lia|].
    change (2 ^ 64) with (2 * 2 ^ 63) in Hs. nia.
Qed.

(** With an increase of less than 2^63 the unsigned sums of Increase-bit-rate
    cannot wrap below the old rate. *)
Lemma increase_arith m i b :
  0 <= m < 2 ^ 64 -> 0 <= i < 2 ^ 63 -> 0 <= b < 2 ^ 64 ->
  ~ to_uint64 (m + i) < b ->
  b <= to_uint64 (MIN m b + i).
Proof.
  unfold to_uint64, MIN. intros Hm Hi Hb Hnot.
  destruct (Z.ltb_spec m b); [lia|].
  change (2 ^ 64) with 18446744073709551616 in *.
  change (2 ^ 63) with 9223372036854775808 in *.
  Z.div_mod_to_equations. lia.
Qed.

Lemma decrease_arith b m d :
  0 < b < 2 ^ 64 -> 0 < m -> 0 <= d ->
  let m' := MIN b m in
  let d' := if d >=? m' then m' / 2 else d in
  0 < to_uint64 (m' - d') < 2 ^ 64.
Proof.
  intros Hb Hm Hd. cbv zeta. unfold MIN.
  assert (0 < (if b <? m then b else m) < 2 ^ 64) as Hm'
      by (destruct (Z.ltb_spec b m); lia).
  set (m' := if b <? m then b else m) in *.
  rewrite Z.geb_leb.
  assert (0 <= m' / 2 < m')
    by (split; [apply Z.div_pos; lia|apply Z.div_lt; lia]).
  destruct (Z.leb_spec m' d); rewrite to_uint64_small; lia.
Qed.

(** The byte rate after Increase-bit-rate, by cases. *)
Lemma increase_bit_rate_byte_rate u encoder :
  let rc := rate_control encoder in
  let bri := bit_rate_info rc in
  let measured := measured_byte_rate u bri in
  let increase_size := sum_enc_size bri / num_enc_frames bri in
  byte_rate (rate_control (mjpeg_encoder_increase_bit_rate u encoder))
  = if enough_frames_for_estimate rc
    then if to_uint64 (measured + increase_size) <? byte_rate rc
         then byte_rate rc
         else to_uint64 (MIN measured (byte_rate rc) + increase_size)
    else byte_rate rc.
Proof.
  cbv zeta. unfold mjpeg_encoder_increase_bit_rate.
  destruct (enough_frames_for_estimate _); [|reflexivity].
  destruct (quality_eval_stop_same_rate encoder) as (Hb & _).
  unfold mjpeg_encoder_quality_eval_set_upgrade. cbv zeta. fields.
  rewrite Hb. case_if; fields; [exact Hb|reflexivity].
Qed.

Lemma increase_bit_rate_monotone u encoder :
  0 <= byte_rate (rate_control encoder) < 2 ^ 64 ->
  0 <= sum_enc_size (bit_rate_info (rate_control encoder)) < 2 ^ 64 ->
  MJPEG_MIN_FPS <= fps (rate_control encoder) ->
  byte_rate (rate_control encoder)
  <= byte_rate (rate_control (mjpeg_encoder_increase_bit_rate u encoder)).
Proof.
  intros Hb Hs Hfps. rewrite increase_bit_rate_byte_rate.
  destruct (enough_frames_for_estimate _) eqn:Hframes; [|lia].
  case_if; boolZ; [lia|].
  apply increase_arith.
  - apply measured_byte_rate_range.
  - apply avg_frame_size_bound; [assumption|].
    apply enough_frames_at_least_two; assumption.
  - assumption.
  - lia.
Qed.

(** ** The invariant of the controller *)

Lemma rate_control_wf_ext rc rc' :
  byte_rate rc' = byte_rate rc ->
  fps rc' = fps rc ->
  quality_id rc' = quality_id rc ->
  quality_eval_data rc' = quality_eval_data rc ->
  bit_rate_info rc' = bit_rate_info rc ->
  rate_control_wf rc -> rate_control_wf rc'.
Proof.
  intros Hb Hf Hq He Hi [].
  constructor; rewrite ?Hb, ?Hf, ?Hq, ?He, ?Hi; assumption.
Qed.

Lemma reset_quality_wf encoder q f s :
  rate_control_wf (rate_control encoder) ->
  0 <= q < MJPEG_QUALITY_SAMPLE_NUM ->
  rate_control_wf (rate_control (mjpeg_encoder_reset_quality encoder q f s)).
Proof.
  intros [] Hq. unfold mjpeg_encoder_reset_quality.
  constructor;
    destruct (negb _), (is_rate_change _);
    cbn -[MIN MAX Z.pow]; try assumption; try apply fps_clamp;
    try (unfold MJPEG_QUALITY_SAMPLE_NUM; lia); try reflexivity.
Qed.

Lemma quality_id_step_wf encoder d :
  rate_control_wf (rate_control encoder) ->
  0 <= quality_id (rate_control encoder) + d < MJPEG_QUALITY_SAMPLE_NUM ->
  rate_control_wf (rate_control (quality_id_step encoder d)).
Proof.
  intros [] Hq. unfold quality_id_step.
  constructor; fields; try assumption.
  unfold MJPEG_QUALITY_SAMPLE_NUM in *. rewrite to_int_small; lia.
Qed.

Lemma complete_sample_wf encoder host :
  rate_control_wf (rate_control encoder) ->
  rate_control_wf (rate_control (complete_sample encoder host)).
Proof.
  intros Hwf. unfold complete_sample.
  match goal with
  | |- context [mjpeg_encoder_reset_quality ?e ?q ?f ?s] =>
      assert (H : rate_control_wf
                    (rate_control (mjpeg_encoder_reset_quality e q f s)));
      [|generalize dependent (mjpeg_encoder_reset_quality e q f s)]
  end.
  - apply reset_quality_wf; [assumption|].
    assert (Hq := wf_quality_id _ Hwf).
    assert (Hs := wf_max_sampled_fps_quality_id _ Hwf).
    rewrite quality_id_round_trip; unfold MAX; repeat case_if; lia.
  - intros e' He'. cbv zeta.
    destruct (update_client_playback_delay _);
      (eapply rate_control_wf_ext; [..|exact He']); reflexivity.
Qed.

Lemma track_best_sample_wf encoder f sf :
  rate_control_wf (rate_control encoder) ->
  rate_control_wf (rate_control (track_best_sample encoder f sf)).
Proof.
  intros Hwf. unfold track_best_sample. cbv zeta.
  case_if; [|assumption].
  destruct Hwf. constructor; fields; assumption.
Qed.

Lemma choose_next_quality_wf encoder host f sf :
  rate_control_wf (rate_control encoder) ->
  rate_control_wf (rate_control (choose_next_quality encoder host f sf)).
Proof.
  intros Hwf. assert (Hq := wf_quality_id _ Hwf).
  unfold choose_next_quality. cbv zeta.
  change (MJPEG_QUALITY_SAMPLE_NUM / 2) with 3.
  unfold MJPEG_QUALITY_SAMPLE_NUM in *.
  repeat case_if; boolZ;
    try apply complete_sample_wf; try apply quality_id_step_wf;
    try assumption; unfold MJPEG_QUALITY_SAMPLE_NUM; lia.
Qed.

Lemma eval_quality_wf encoder host :
  rate_control_wf (rate_control encoder) ->
  rate_control_wf (rate_control (mjpeg_encoder_eval_quality encoder host)).
Proof.
  intros Hwf. unfold mjpeg_encoder_eval_quality. cbv zeta.
  case_if; [assumption|].
  apply choose_next_quality_wf, track_best_sample_wf, Hwf.
Qed.

Lemma quality_eval_stop_wf encoder :
  rate_control_wf (rate_control encoder) ->
  rate_control_wf (rate_control (mjpeg_encoder_quality_eval_stop encoder)).
Proof.
  intros Hwf. unfold mjpeg_encoder_quality_eval_stop.
  destruct (negb _); [assumption|].
  destruct (type _); cbv iota beta; apply reset_quality_wf; try assumption.
  - vm_compute. split; [discriminate|reflexivity].
  - rewrite quality_id_round_trip; apply Hwf.
  - rewrite quality_id_round_trip; apply Hwf.
Qed.

Section Invariant.

Variable undefined_uint64 : float -> Z.
Variable JCS_EXTENSIONS : bool.

(** With [strict] the lemmas carry the positive byte rate along, and ask
    that a re-estimation does not measure zero; without it they carry
    [rate_control_wf] alone, unconditionally. *)
Variable strict : bool.

Lemma encoder_ok_ext e e' :
  byte_rate (rate_control e') = byte_rate (rate_control e) ->
  fps (rate_control e') = fps (rate_control e) ->
  quality_id (rate_control e') = quality_id (rate_control e) ->
  quality_eval_data (rate_control e') = quality_eval_data (rate_control e) ->
  bit_rate_info (rate_control e') = bit_rate_info (rate_control e) ->
  encoder_ok strict e -> encoder_ok strict e'.
Proof.
  intros Hb Hf Hq He Hi [Hwf Hpos]. split.
  - eapply rate_control_wf_ext; eassumption.
  - rewrite Hb. assumption.
Qed.

Lemma encoder_ok_rate_control e e' :
  rate_control e' = rate_control e ->
  encoder_ok strict e -> encoder_ok strict e'.
Proof. unfold encoder_ok. intros ->. auto. Qed.

Lemma encoder_ok_same_rate e e' :
  same_rate e e' ->
  rate_control_wf (rate_control e') ->
  encoder_ok strict e -> encoder_ok strict e'.
Proof.
  intros (Hb & _) Hwf [_ Hpos]. split; [assumption|]. now rewrite Hb.
Qed.

Lemma window_ok_same_rate e e' :
  same_rate e e' ->
  window_ok undefined_uint64 strict e -> window_ok undefined_uint64 strict e'.
Proof.
  intros Hsame Hwin Hstrict. eapply same_rate_window; eauto.
Qed.

(** The state that Decrease-bit-rate leaves for a measured rate [m] and a
    decrease [d]. *)
Lemma decrease_arith_ok e rc m d :
  rate_control_wf rc ->
  (strict = true -> 0 < byte_rate rc) ->
  (strict = true -> 0 < m) -> 0 <= d ->
  encoder_ok strict
    (mjpeg_encoder_quality_eval_set_downgrade
       (set_rate_control e
          (set_bit_rate_info
             (set_byte_rate rc
                (to_uint64
                   (MIN (byte_rate rc) m
                    - (if d >=? MIN (byte_rate rc) m
                       then MIN (byte_rate rc) m / 2 else d))))
             (reset_bit_rate_info false)))
       MJPEG_QUALITY_EVAL_REASON_RATE_CHANGE
       (to_uint32 (quality_id rc)) (fps rc)).
Proof.
  intros Hrc Hpos Hm Hd.
  assert (Hbr := wf_byte_rate _ Hrc). assert (Hq := wf_quality_id _ Hrc).
  unfold mjpeg_encoder_quality_eval_set_downgrade. split.
  - destruct Hrc. constructor; fields; try assumption.
    all: try (rewrite quality_id_round_trip; assumption).
    all: try apply to_uint64_range.
    all: unfold reset_bit_rate_info; fields; lia.
  - intros Hstrict. fields.
    pose proof (decrease_arith (byte_rate rc) m d
                  ltac:(specialize (Hpos Hstrict); lia) (Hm Hstrict) Hd)
      as Ha.
    cbv zeta in Ha. lia.
Qed.

Lemma decrease_bit_rate_tail_ok e rc :
  rate_control_wf rc ->
  (strict = true -> 0 < byte_rate rc) ->
  (strict = true ->
   num_enc_frames (bit_rate_info rc) <= 1
   \/ 0 < measured_byte_rate undefined_uint64 (bit_rate_info rc)) ->
  encoder_ok strict (decrease_bit_rate_tail undefined_uint64 e rc).
Proof.
  intros Hrc Hpos Hwin. unfold decrease_bit_rate_tail.
  assert (Hbr := wf_byte_rate _ Hrc). assert (Hfps := wf_fps _ Hrc).
  assert (Hsum := wf_sum_enc_size _ Hrc).
  destruct (enough_frames_for_estimate rc) eqn:Hframes;
    cbv beta iota zeta.
  - assert (Hn := enough_frames_at_least_two rc (proj1 Hfps) Hframes).
    apply (decrease_arith_ok e rc
             (measured_byte_rate undefined_uint64 (bit_rate_info rc))
             (sum_enc_size (bit_rate_info rc)
              / num_enc_frames (bit_rate_info rc))); try assumption.
    + intros Hstrict. destruct (Hwin Hstrict); [lia|assumption].
    + apply Z.div_pos; lia.
  - apply (decrease_arith_ok e rc (byte_rate rc)
             (byte_rate rc / fps rc)); try assumption.
    apply Z.div_pos; unfold MJPEG_MIN_FPS in *; lia.
Qed.

Lemma decrease_bit_rate_ok encoder now :
  encoder_ok strict encoder ->
  window_ok undefined_uint64 strict encoder ->
  encoder_ok strict
    (mjpeg_encoder_decrease_bit_rate undefined_uint64 encoder now).
Proof.
  intros [Hwf Hpos] Hwin. unfold mjpeg_encoder_decrease_bit_rate.
  pose proof (quality_eval_stop_wf encoder Hwf) as Hwf'.
  destruct (quality_eval_stop_same_rate encoder) as (Hb & Hi & _).
  unfold window_ok, window_rate_positive in Hwin.
  rewrite <- Hi in Hwin. rewrite <- Hb in Hpos.
  remember (mjpeg_encoder_quality_eval_stop encoder) as e eqn:He.
  clear He Hwf Hb Hi encoder. rename Hwf' into Hwf. cbv zeta.
  assert (Hrc : forall rc,
             byte_rate rc = byte_rate (rate_control e) ->
             fps rc = fps (rate_control e) ->
             quality_id rc = quality_id (rate_control e) ->
             quality_eval_data rc = quality_eval_data (rate_control e) ->
             bit_rate_info rc = bit_rate_info (rate_control e) ->
             encoder_ok strict (decrease_bit_rate_tail undefined_uint64 e rc)).
  { intros rc Hb Hf Hq He Hi. apply decrease_bit_rate_tail_ok.
    - eapply rate_control_wf_ext; eassumption.
    - now rewrite Hb.
    - now rewrite Hi. }
  case_if; [case_if|]; try (apply Hrc; reflexivity).
  split; [|exact Hpos].
  eapply rate_control_wf_ext; [..|exact Hwf]; reflexivity.
Qed.

Lemma increase_bit_rate_ok encoder :
  encoder_ok strict encoder ->
  encoder_ok strict
    (mjpeg_encoder_increase_bit_rate undefined_uint64 encoder).
Proof.
  intros [Hwf Hpos]. split.
  - unfold mjpeg_encoder_increase_bit_rate. cbv zeta.
    case_if; [|assumption].
    pose proof (quality_eval_stop_wf encoder Hwf) as Hwf'.
    remember (mjpeg_encoder_quality_eval_stop encoder) as e eqn:He.
    clear He. assert (Hq := wf_quality_id _ Hwf'). destruct Hwf'.
    unfold mjpeg_encoder_quality_eval_set_upgrade.
    constructor; fields; try assumption;
      try (rewrite quality_id_round_trip; case_if; fields; assumption);
      try (case_if; fields; assumption);
      try (unfold reset_bit_rate_info; fields; lia).
    case_if; fields; [assumption|apply to_uint64_range].
  - intros Hstrict.
    pose proof (increase_bit_rate_monotone undefined_uint64 encoder
                  (wf_byte_rate _ Hwf) (wf_sum_enc_size _ Hwf)
                  (proj1 (wf_fps _ Hwf))).
    specialize (Hpos Hstrict). lia.
Qed.

Lemma process_server_drops_ok encoder host now :
  encoder_ok strict encoder ->
  window_ok undefined_uint64 strict encoder ->
  encoder_ok strict
    (mjpeg_encoder_process_server_drops undefined_uint64 encoder host now).
Proof.
  intros Hok Hwin. unfold mjpeg_encoder_process_server_drops. cbv zeta.
  case_if; [assumption|].
  case_if.
  - pose proof (decrease_bit_rate_ok encoder now Hok Hwin) as H.
    eapply encoder_ok_ext; [..|exact H]; reflexivity.
  - eapply encoder_ok_ext; [..|exact Hok]; reflexivity.
Qed.

Lemma notify_server_frame_drop_ok encoder host now :
  encoder_ok strict encoder ->
  window_ok undefined_uint64 strict encoder ->
  encoder_ok strict
    (mjpeg_encoder_notify_server_frame_drop undefined_uint64 encoder host
       now).
Proof.
  intros Hok Hwin. unfold mjpeg_encoder_notify_server_frame_drop. cbv zeta.
  apply process_server_drops_ok.
  - eapply encoder_ok_ext; [..|exact Hok]; reflexivity.
  - exact Hwin.
Qed.

Lemma record_sample_and_eval_ok encoder host size :
  encoder_ok strict encoder ->
  encoder_ok strict (record_sample_and_eval encoder host size).
Proof.
  intros Hok.
  eapply encoder_ok_same_rate;
    [apply record_sample_and_eval_same_rate| |exact Hok].
  unfold record_sample_and_eval. cbv zeta.
  apply eval_quality_wf. destruct Hok as [[] _].
  constructor; fields; try assumption.
  rewrite array_set_length. assumption.
Qed.

Lemma adjust_params_end_ok encoder host now size :
  encoder_ok strict encoder ->
  window_ok undefined_uint64 strict encoder ->
  encoder_ok strict
    (adjust_params_end undefined_uint64 encoder host now size).
Proof.
  intros Hok Hwin. unfold adjust_params_end. case_if.
  - now apply record_sample_and_eval_ok.
  - now apply process_server_drops_ok.
Qed.

Lemma quality_eval_set_upgrade_ok encoder r :
  encoder_ok strict encoder ->
  encoder_ok strict
    (mjpeg_encoder_quality_eval_set_upgrade encoder r
       (to_uint32 (quality_id (rate_control encoder)))
       (fps (rate_control encoder))).
Proof.
  intros [Hwf Hpos]. split; [|exact Hpos].
  assert (Hq := wf_quality_id _ Hwf). destruct Hwf.
  unfold mjpeg_encoder_quality_eval_set_upgrade.
  constructor; fields; try assumption.
  rewrite quality_id_round_trip; assumption.
Qed.

Lemma quality_eval_set_downgrade_ok encoder r :
  encoder_ok strict encoder ->
  encoder_ok strict
    (mjpeg_encoder_quality_eval_set_downgrade encoder r
       (to_uint32 (quality_id (rate_control encoder)))
       (fps (rate_control encoder))).
Proof.
  intros [Hwf Hpos]. split; [|exact Hpos].
  assert (Hq := wf_quality_id _ Hwf). destruct Hwf.
  unfold mjpeg_encoder_quality_eval_set_downgrade.
  constructor; fields; try assumption.
  rewrite quality_id_round_trip; assumption.
Qed.

Lemma adjust_params_to_bit_rate_ok encoder host now :
  encoder_ok strict encoder ->
  window_ok undefined_uint64 strict encoder ->
  encoder_ok strict
    (mjpeg_encoder_adjust_params_to_bit_rate undefined_uint64 encoder host
       now).
Proof.
  intros Hok Hwin. unfold mjpeg_encoder_adjust_params_to_bit_rate. cbv zeta.
  case_if; [assumption|].
  case_if; [now apply record_sample_and_eval_ok|].
  case_if; [assumption|].
  case_if; [now apply adjust_params_end_ok|].
  case_if; [|case_if].
  - apply adjust_params_end_ok; [now apply quality_eval_set_upgrade_ok|].
    exact Hwin.
  - apply adjust_params_end_ok; [now apply quality_eval_set_downgrade_ok|].
    exact Hwin.
  - now apply adjust_params_end_ok.
Qed.

Lemma start_frame_pacing_ok encoder host now :
  encoder_ok strict encoder ->
  encoder_ok strict (start_frame_pacing encoder host now).
Proof.
  intros Hok.
  eapply encoder_ok_same_rate;
    [apply start_frame_pacing_same_rate| |exact Hok].
  destruct Hok as [Hwf _].
  unfold start_frame_pacing, mjpeg_encoder_adjust_fps. cbv zeta.
  repeat case_if; fields;
    (eapply rate_control_wf_ext; [..|exact Hwf]); reflexivity.
Qed.

Lemma stamp_frame_time_ok encoder now mm :
  encoder_ok strict encoder ->
  encoder_ok strict (stamp_frame_time encoder now mm).
Proof.
  intros [Hwf Hpos]. unfold stamp_frame_time. cbv zeta.
  case_if; [|split; assumption].
  split; [|exact Hpos].
  destruct Hwf. constructor; fields; try assumption; case_if; assumption.
Qed.

Lemma select_pixel_format_rate_control encoder format e' :
  select_pixel_format JCS_EXTENSIONS encoder format = Some e' ->
  rate_control e' = rate_control encoder.
Proof.
  unfold select_pixel_format.
  destruct format, JCS_EXTENSIONS; intros H; inversion H; reflexivity.
Qed.

Lemma start_compress_rate_control encoder format src :
  rate_control (snd (start_compress JCS_EXTENSIONS encoder format src))
  = rate_control encoder.
Proof.
  unfold start_compress. cbv zeta.
  destruct (select_pixel_format _ _ _) as [e'|] eqn:Hsel; [|reflexivity].
  apply select_pixel_format_rate_control in Hsel.
  case_if; [exact Hsel|].
  destruct (pixel_converter _); [case_if|]; exact Hsel.
Qed.

Lemma start_frame_ok encoder host now now_dec format src mm :
  encoder_ok strict encoder ->
  window_ok undefined_uint64 strict encoder ->
  encoder_ok strict
    (snd (mjpeg_encoder_start_frame undefined_uint64 JCS_EXTENSIONS encoder
            host now now_dec format src mm)).
Proof.
  intros Hok Hwin. unfold mjpeg_encoder_start_frame. cbv zeta.
  pose proof (start_frame_pacing_ok encoder host now Hok) as Hok'.
  pose proof (window_ok_same_rate _ _
                (start_frame_pacing_same_rate encoder host now) Hwin)
    as Hwin'.
  case_if; [exact Hok'|].
  eapply encoder_ok_rate_control; [apply start_compress_rate_control|].
  apply stamp_frame_time_ok. now apply adjust_params_to_bit_rate_ok.
Qed.

Lemma encode_scanline_ok encoder written :
  encoder_ok strict encoder ->
  encoder_ok strict (snd (mjpeg_encoder_encode_scanline encoder written)).
Proof.
  intros Hok. unfold mjpeg_encoder_encode_scanline.
  case_if; [|assumption].
  eapply encoder_ok_ext; [..|exact Hok]; reflexivity.
Qed.

Lemma encode_rows_ok rows :
  forall i encoder jpeg chunks offset chunk stride,
    encoder_ok strict encoder ->
    encoder_ok strict
      (snd (encode_rows rows i encoder jpeg chunks offset chunk stride)).
Proof.
  induction rows as [|rows IH]; intros i encoder jpeg chunks offset chunk
    stride Hok; cbn [encode_rows]; [assumption|].
  destruct (get_image_line _ _ _ _) as [[line offset'] chunk'].
  destruct line; cbn [negb]; [|assumption].
  pose proof (encode_scanline_ok encoder
                (to_uint32 (scanlines_written jpeg i)) Hok) as Hs.
  destruct (mjpeg_encoder_encode_scanline _ _) as [written e'].
  cbn [snd] in Hs. case_if; [assumption|]. now apply IH.
Qed.

Lemma encode_frame_ok encoder jpeg src image top_down :
  encoder_ok strict encoder ->
  encoder_ok strict (snd (encode_frame encoder jpeg src image top_down)).
Proof.
  intros Hok. unfold encode_frame. cbv zeta.
  destruct (skip_image_lines _ _ _ _ _) as [offset chunk].
  now apply encode_rows_ok.
Qed.

Lemma end_frame_ok encoder jpeg :
  encoder_ok strict encoder ->
  encoder_ok strict (mjpeg_encoder_end_frame encoder jpeg).
Proof.
  intros [Hwf Hpos]. unfold mjpeg_encoder_end_frame. cbv zeta.
  split.
  - destruct Hwf. constructor; fields;
      repeat case_if; fields; try assumption;
      try apply to_uint64_range; try apply to_uint32_range.
  - fields. repeat case_if; fields; assumption.
Qed.

Lemma mjpeg_encoder_encode_frame_ok encoder host now now_dec buffer jpeg mm
  bitmap src top_down :
  encoder_ok strict encoder ->
  window_ok undefined_uint64 strict encoder ->
  encoder_ok strict
    (snd (mjpeg_encoder_encode_frame undefined_uint64 JCS_EXTENSIONS encoder
            host now now_dec buffer jpeg mm bitmap src top_down)).
Proof.
  intros Hok Hwin. unfold mjpeg_encoder_encode_frame.
  destruct buffer; cbn [negb]; [|assumption].
  pose proof (start_frame_ok encoder host now now_dec (format bitmap) src mm
                Hok Hwin) as Hs.
  destruct (mjpeg_encoder_start_frame _ _ _ _ _ _ _ _ _) as [ret e'].
  cbn [snd] in Hs. destruct ret; try assumption.
  pose proof (encode_frame_ok e' jpeg src bitmap top_down Hs) as He.
  destruct (encode_frame _ _ _ _ _) as [ok e'']. cbn [snd] in He.
  destruct ok; cbn [snd]; [now apply end_frame_ok|assumption].
Qed.

Lemma handle_negative_ok encoder now t :
  encoder_ok strict encoder ->
  window_ok undefined_uint64 strict encoder ->
  encoder_ok strict
    (mjpeg_encoder_handle_negative_client_stream_report undefined_uint64
       encoder now t).
Proof.
  intros Hok Hwin. unfold mjpeg_encoder_handle_negative_client_stream_report.
  cbv zeta. case_if; [assumption|now apply decrease_bit_rate_ok].
Qed.

Lemma handle_positive_ok encoder host t :
  encoder_ok strict encoder ->
  encoder_ok strict
    (mjpeg_encoder_handle_positive_client_stream_report undefined_uint64
       encoder host t).
Proof.
  intros Hok. unfold mjpeg_encoder_handle_positive_client_stream_report.
  cbv zeta. case_if; [assumption|].
  case_if; [assumption|now apply increase_bit_rate_ok].
Qed.

Lemma client_stream_report_ok encoder host now nf nd st en delay audio :
  encoder_ok strict encoder ->
  window_ok undefined_uint64 strict encoder ->
  encoder_ok strict
    (mjpeg_encoder_client_stream_report undefined_uint64 encoder host now nf
       nd st en delay audio).
Proof.
  intros Hok Hwin. unfold mjpeg_encoder_client_stream_report. cbv zeta.
  case_if; [assumption|].
  match goal with
  | |- context [match ?p with (s, e) => _ end] =>
      assert (Hp : encoder_ok strict (snd p)
                   /\ window_ok undefined_uint64 strict (snd p));
      [|destruct p as [small e']]
  end.
  { repeat case_if; cbn [snd];
      (split; [eapply encoder_ok_ext; [..|exact Hok]; reflexivity
              |exact Hwin]). }
  cbn [snd] in Hp. destruct Hp as [Hok' Hwin'].
  case_if; [now apply handle_negative_ok|].
  case_if; [now apply handle_negative_ok|].
  assert (Hok'' : forall cs,
             encoder_ok strict
               (set_rate_control e'
                  (set_client_state (rate_control e') cs)))
    by (intros cs; eapply encoder_ok_ext; [..|exact Hok']; reflexivity).
  case_if; [apply handle_negative_ok; [apply Hok''|exact Hwin']|].
  case_if; [apply handle_positive_ok, Hok''|apply Hok''].
Qed.

Lemma run_event_ok encoder ev :
  encoder_ok strict encoder ->
  window_ok undefined_uint64 strict encoder ->
  encoder_ok strict (run_event undefined_uint64 JCS_EXTENSIONS encoder ev).
Proof.
  intros Hok Hwin. destruct ev; cbn [run_event].
  - now apply mjpeg_encoder_encode_frame_ok.
  - now apply client_stream_report_ok.
  - now apply notify_server_frame_drop_ok.
Qed.

Lemma run_events_ok events :
  forall encoder,
    encoder_ok strict encoder ->
    (strict = true ->
     windows_rate_positive undefined_uint64 JCS_EXTENSIONS encoder events) ->
    encoder_ok strict
      (run_events undefined_uint64 JCS_EXTENSIONS encoder events).
Proof.
  induction events as [|ev events IH]; intros encoder Hok Hwin;
    [assumption|].
  cbn [run_events fold_left]. apply IH.
  - apply run_event_ok; [assumption|]. intros Hs. apply (Hwin Hs).
  - intros Hs. apply (Hwin Hs).
Qed.

End Invariant.

Lemma new_encoder_ok (strict : bool) sbr cbs now encoder :
  (if strict then 8 else 0) <= sbr < 2 ^ 64 ->
  mjpeg_encoder_new SPICE_VIDEO_CODEC_TYPE_MJPEG sbr cbs now = Some encoder ->
  encoder_ok strict encoder.
Proof.
  intros Hs Hnew.
  assert (0 <= sbr / 8 < 2 ^ 64 /\ (strict = true -> 0 < sbr / 8))
    as [Hb Hpos].
  { split; [split|].
    - apply Z.div_pos; destruct strict; lia.
    - apply Z.div_lt_upper_bound; lia.
    - intros ->. apply Z.div_str_pos; lia. }
  unfold mjpeg_encoder_new in Hnew. cbv zeta in Hnew.
  apply Some_inj in Hnew. subst encoder.
  unfold mjpeg_encoder_reset_quality, zeroed_encoder, encoder_ok.
  cbv zeta. fields.
  split; [constructor|]; fields; repeat case_if; fields;
    try apply fps_clamp; try exact Hb; try exact Hpos; try lia;
    try (unfold MJPEG_QUALITY_SAMPLE_NUM; cbn; lia); try reflexivity.
Qed.

(** The spec's invariants on the frame rate and the quality index: every
    state reachable from construction is well formed. *)
Lemma reachable_rate_control_wf u jcs sbr cbs now encoder events :
  0 <= sbr < 2 ^ 64 ->
  mjpeg_encoder_new SPICE_VIDEO_CODEC_TYPE_MJPEG sbr cbs now = Some encoder ->
  rate_control_wf (rate_control (run_events u jcs encoder events)).
Proof.
  intros Hs Hnew.
  apply (run_events_ok u jcs false events encoder); [|discriminate].
  now apply (new_encoder_ok false sbr cbs now).
Qed.

(** ** The admission gate *)

Lemma start_compress_not_drop jcs encoder format src :
  fst (start_compress jcs encoder format src) <> VIDEO_ENCODER_FRAME_DROP.
Proof.
  unfold start_compress. cbv zeta.
  destruct (select_pixel_format _ _ _); [|discriminate].
  case_if; discriminate.
Qed.

Lemma start_frame_drop_iff u jcs encoder host now now_dec format src mm :
  fst (mjpeg_encoder_start_frame u jcs encoder host now now_dec format src mm)
  = VIDEO_ENCODER_FRAME_DROP
  <-> interval_too_short (start_frame_pacing encoder host now) now = true.
Proof.
  unfold mjpeg_encoder_start_frame. cbv zeta.
  destruct (interval_too_short _ now) eqn:Hgate.
  - simpl. split; reflexivity.
  - split; [|discriminate]. intros H.
    now apply start_compress_not_drop in H.
Qed.

(** A dropped frame changes nothing but the pacing window. *)
Lemma start_frame_drop_state u jcs encoder host now now_dec format src mm :
  fst (mjpeg_encoder_start_frame u jcs encoder host now now_dec format src mm)
  = VIDEO_ENCODER_FRAME_DROP ->
  snd (mjpeg_encoder_start_frame u jcs encoder host now now_dec format src mm)
  = start_frame_pacing encoder host now.
Proof.
  intros H. pose proof H as Hgate. apply start_frame_drop_iff in Hgate.
  unfold mjpeg_encoder_start_frame. cbv zeta. now rewrite Hgate.
Qed.

(** Without an output buffer the frame is unsupported, whatever the gate
    would have said. *)
Lemma encode_frame_without_buffer u jcs encoder host now now_dec jpeg mm
  bitmap src top_down :
  mjpeg_encoder_encode_frame u jcs encoder host now now_dec false jpeg mm
    bitmap src top_down
  = (VIDEO_ENCODER_FRAME_UNSUPPORTED, encoder).
Proof. reflexivity. Qed.

(** C1, as the code has it: [mjpeg_encoder_encode_frame] answers a frame
    with [VIDEO_ENCODER_FRAME_DROP] exactly when its output buffer could be
    allocated and the time since the last accepted frame,
    [now - bit_rate_info.last_frame_time], is strictly less than
    [1e9 / adjusted_fps] nanoseconds, both sides compared as doubles, with
    [adjusted_fps] as [mjpeg_encoder_adjust_fps] leaves it in this call.  A
    frame that passes this test is never dropped, and neither is one whose
    output buffer cannot be allocated. *)
Theorem encode_frame_drop_iff_interval_below_period u jcs encoder host now
  now_dec buffer jpeg mm bitmap src top_down :
  let interval :=
    to_uint64 (now - last_frame_time (bit_rate_info (rate_control encoder)))
  in
  let adjusted_fps_now :=
    adjusted_fps (rate_control (start_frame_pacing encoder host now)) in
  fst (mjpeg_encoder_encode_frame u jcs encoder host now now_dec buffer jpeg
         mm bitmap src top_down) = VIDEO_ENCODER_FRAME_DROP
  <-> buffer = true
      /\ PrimFloat.ltb (double_of_Z interval)
           (1000000000 / adjusted_fps_now)%float = true.
Proof.
  cbv zeta.
  assert (Hgate : interval_too_short (start_frame_pacing encoder host now)
                    now
                  = PrimFloat.ltb
                      (double_of_Z
                         (to_uint64
                            (now - last_frame_time
                                     (bit_rate_info (rate_control encoder)))))
                      (1000000000
                       / adjusted_fps
                           (rate_control
                              (start_frame_pacing encoder host now)))%float).
  { unfold interval_too_short, frame_interval.
    destruct (start_frame_pacing_same_rate encoder host now) as (_ & -> & _).
    reflexivity. }
  rewrite <- Hgate.
  rewrite <- (start_frame_drop_iff u jcs encoder host now now_dec
                (format bitmap) src mm).
  unfold mjpeg_encoder_encode_frame.
  destruct buffer; cbn [negb fst].
  - destruct (mjpeg_encoder_start_frame _ _ _ _ _ _ _ _ _) as [ret e'].
    destruct ret; cbn [fst]; try tauto;
      try (split; [discriminate|intros [_ H]; discriminate H]).
    destruct (encode_frame _ _ _ _ _) as [ok e''].
    destruct ok; cbn [fst]; split;
      try discriminate; intros [_ H]; discriminate H.
  - split; [discriminate|intros [H _]; discriminate H].
Qed.

(** On the busy stream, whose pacing is 16.5 frames per second, a frame
    60 ms after the last one is below the period and dropped, and one 61 ms
    after it is not. *)
Lemma encode_frame_drop_iff_interval_below_period_witness :
  fst (mjpeg_encoder_encode_frame example_undefined_uint64 false busy_encoder
         example_host (milliseconds 6460) (milliseconds 6460) true
         (jpeg_success 90000) 5460 (example_bitmap SPICE_BITMAP_FMT_32BIT)
         example_rect true)
  = VIDEO_ENCODER_FRAME_DROP
  /\ fst (mjpeg_encoder_encode_frame example_undefined_uint64 false
            busy_encoder example_host (milliseconds 6461)
            (milliseconds 6461) true (jpeg_success 90000) 5461
            (example_bitmap SPICE_BITMAP_FMT_32BIT) example_rect true)
     <> VIDEO_ENCODER_FRAME_DROP.
Proof.
  split.
  - apply encode_frame_drop_iff_interval_below_period.
    split; [reflexivity|vm_compute; reflexivity].
  - intros Hdrop.
    apply encode_frame_drop_iff_interval_below_period in Hdrop.
    destruct Hdrop as [_ Hbelow]. vm_compute in Hbelow.
    discriminate Hbelow.
Defined.

(** The gate on the busy stream, whose pacing is 16.5 frames per second: a
    frame 60 ms after the last one is dropped, one 61 ms after it is not. *)
Example gate_drops_after_60_ms :
  fst (mjpeg_encoder_encode_frame example_undefined_uint64 false busy_encoder
         example_host (milliseconds 6460) (milliseconds 6460) true
         (jpeg_success 90000) 5460 (example_bitmap SPICE_BITMAP_FMT_32BIT)
         example_rect true)
  = VIDEO_ENCODER_FRAME_DROP.
Proof. vm_compute. reflexivity. Qed.

Example gate_admits_after_61_ms :
  fst (mjpeg_encoder_encode_frame example_undefined_uint64 false busy_encoder
         example_host (milliseconds 6461) (milliseconds 6461) true
         (jpeg_success 90000) 5461 (example_bitmap SPICE_BITMAP_FMT_32BIT)
         example_rect true)
  = VIDEO_ENCODER_FRAME_ENCODE_DONE.
Proof. vm_compute. reflexivity. Qed.

(** C1, as stated, fails: on the busy stream, whose pacing is 16.5 frames
    per second, a frame 60 ms after the last one is below the period, and is
    answered [VIDEO_ENCODER_FRAME_UNSUPPORTED] when its output buffer cannot
    be allocated. *)
Lemma short_interval_without_buffer_is_unsupported :
  let now := milliseconds 6460 in
  let below_period :=
    PrimFloat.ltb
      (double_of_Z
         (to_uint64
            (now
             - last_frame_time (bit_rate_info (rate_control busy_encoder)))))
      (1000000000
       / adjusted_fps
           (rate_control (start_frame_pacing busy_encoder example_host now)))
  in
  let answer :=
    fst (mjpeg_encoder_encode_frame example_undefined_uint64 false
           busy_encoder example_host now now false (jpeg_success 90000) 5460
           (example_bitmap SPICE_BITMAP_FMT_32BIT) example_rect true) in
  below_period = true
  /\ answer = VIDEO_ENCODER_FRAME_UNSUPPORTED
  /\ ~ (answer = VIDEO_ENCODER_FRAME_DROP <-> below_period = true).
Proof.
  cbv zeta. split; [vm_compute; reflexivity|].
  split; [reflexivity|]. intros [_ Hdrop].
  assert (Hbelow : PrimFloat.ltb
                     (double_of_Z
                        (to_uint64
                           (milliseconds 6460
                            - last_frame_time
                                (bit_rate_info (rate_control busy_encoder)))))
                     (1000000000
                      / adjusted_fps
                          (rate_control
                             (start_frame_pacing busy_encoder example_host
                                (milliseconds 6460))))
                   = true) by (vm_compute; reflexivity).
  specialize (Hdrop Hbelow). vm_compute in Hdrop. discriminate Hdrop.
Qed.

(** ** Warm-up *)

(** C2: a call of [mjpeg_encoder_decrease_bit_rate] made while the warm-up
    window is active ([warmup_start_time] is set and fewer than
    3 000 000 000 ns of monotonic time have passed since it) leaves
    [byte_rate] unchanged. *)
Theorem decrease_bit_rate_noop_during_warmup u encoder now :
  warmup_start_time (rate_control encoder) <> 0 ->
  to_uint64 (now - warmup_start_time (rate_control encoder)) < 3000000000 ->
  byte_rate (rate_control (mjpeg_encoder_decrease_bit_rate u encoder now))
  = byte_rate (rate_control encoder).
Proof.
  intros Hset Hearly. unfold mjpeg_encoder_decrease_bit_rate.
  destruct (quality_eval_stop_same_rate encoder) as (Hb & _ & Hw).
  cbv zeta. cbn [warmup_start_time set_client_state]. rewrite Hw.
  apply Z.eqb_neq in Hset. rewrite Hset.
  apply Z.ltb_lt in Hearly. change MJPEG_WARMUP_TIME with 3000000000.
  rewrite Hearly. cbn [negb]. fields. exact Hb.
Qed.

Lemma decrease_bit_rate_noop_during_warmup_witness :
  byte_rate
    (rate_control
       (mjpeg_encoder_decrease_bit_rate example_undefined_uint64
          example_encoder (seconds 2)))
  = byte_rate (rate_control example_encoder).
Proof.
  apply decrease_bit_rate_noop_during_warmup.
  - vm_compute. discriminate.
  - vm_compute. reflexivity.
Defined.

(** The spec's scenario: one second into the stream a client report with
    [end_frame_delay = -50] leaves [byte_rate] at its value. *)
Example warmup_suppresses_late_frame_report :
  byte_rate
    (rate_control
       (mjpeg_encoder_client_stream_report example_undefined_uint64
          (run_events example_undefined_uint64 false example_encoder
             quality_walk_frames)
          example_host (seconds 2) 5 0 1000 5000 (-50) 0))
  = 1000000.
Proof. vm_compute. reflexivity. Qed.

(** ** Increase-bit-rate *)

(** C3: a call of [mjpeg_encoder_increase_bit_rate] leaves [byte_rate] at
    least as large as it was, from any state whose [byte_rate] and
    [sum_enc_size] are 64-bit unsigned values and whose [fps] is at least
    [MJPEG_MIN_FPS]. *)
Theorem increase_bit_rate_never_reduces u encoder :
  0 <= byte_rate (rate_control encoder) < 2 ^ 64 ->
  0 <= sum_enc_size (bit_rate_info (rate_control encoder)) < 2 ^ 64 ->
  MJPEG_MIN_FPS <= fps (rate_control encoder) ->
  byte_rate (rate_control encoder)
  <= byte_rate (rate_control (mjpeg_encoder_increase_bit_rate u encoder)).
Proof. apply increase_bit_rate_monotone. Qed.

Lemma increase_bit_rate_never_reduces_witness :
  byte_rate (rate_control busy_encoder)
  <= byte_rate
       (rate_control
          (mjpeg_encoder_increase_bit_rate example_undefined_uint64
             busy_encoder)).
Proof.
  apply increase_bit_rate_never_reduces;
    vm_compute; try split; congruence.
Defined.

(** On the busy stream the rate measured is 1 125 000 bytes per second and
    the average frame 90 000 bytes: the byte rate goes from 1 000 000 to
    [min(1 125 000, 1 000 000) + 90 000]. *)
Example increase_bit_rate_on_busy_stream :
  byte_rate (rate_control busy_encoder) = 1000000
  /\ measured_byte_rate example_undefined_uint64
       (bit_rate_info (rate_control busy_encoder)) = 1125000
  /\ byte_rate
       (rate_control
          (mjpeg_encoder_increase_bit_rate example_undefined_uint64
             busy_encoder)) = 1090000.
Proof. vm_compute. repeat split. Qed.

(** Every state reachable from construction is within these bounds. *)
Corollary reachable_increase_bit_rate_monotone u jcs sbr cbs now
  encoder events :
  0 <= sbr < 2 ^ 64 ->
  mjpeg_encoder_new SPICE_VIDEO_CODEC_TYPE_MJPEG sbr cbs now = Some encoder ->
  byte_rate (rate_control (run_events u jcs encoder events))
  <= byte_rate
       (rate_control
          (mjpeg_encoder_increase_bit_rate u
             (run_events u jcs encoder events))).
Proof.
  intros Hs Hnew.
  pose proof (reachable_rate_control_wf u jcs sbr cbs now encoder events
                Hs Hnew) as Hwf.
  apply increase_bit_rate_monotone; apply Hwf.
Qed.

(** The bound on [fps] is used. With [fps = 0] a window of one frame is
    enough for the estimate, and the average frame size can then exceed 2^63:
    on [zero_fps_encoder] the test [measured_byte_rate + increase_size <
    byte_rate] wraps to 2^63 - 3, not below 10, and the new rate
    [MIN(2^63, 10) + (2^64 - 3)] wraps to 7. *)
Example increase_bit_rate_wraps_outside_invariant :
  fps (rate_control zero_fps_encoder) = 0
  /\ byte_rate (rate_control zero_fps_encoder) = 10
  /\ byte_rate
       (rate_control
          (mjpeg_encoder_increase_bit_rate example_undefined_uint64
             zero_fps_encoder)) = 7.
Proof. vm_compute. repeat split. Qed.

(** ** The quality walk from the median *)

(** The walk visits the qualities 3, 4, 5 and 6 in turn. *)
Example quality_walk_steps :
  quality_id (rate_control (quality_walk [])) = 3
  /\ quality_id (rate_control (quality_walk [20000])) = 4
  /\ quality_id (rate_control (quality_walk [20000; 25000])) = 5
  /\ quality_id (rate_control (quality_walk [20000; 25000; 40000])) = 6
  /\ during_quality_eval
       (rate_control (quality_walk [20000; 25000; 40000])) = true.
Proof. vm_compute. repeat split. Qed.

(** C4, as the code has it: from the median quality (SET type), with
    [src_fps = 25] and a byte rate of 1 000 000, the samples 20 KB at quality
    3, 25 KB at quality 4, 40 KB at quality 5 and 90 KB at quality 6 make the
    evaluator commit to quality 6 with 11 frames per second: at quality 6
    the estimate of 11 FPS is not below the strict bar of 10, so the
    evaluator does not step back to quality 5. *)
Theorem quality_walk_commits_quality_6 :
  let rc := rate_control (quality_walk [20000; 25000; 40000; 90000]) in
  during_quality_eval rc = false /\ quality_id rc = 6 /\ fps rc = 11.
Proof. vm_compute. repeat split. Qed.

(** C4, as stated, fails: the committed quality is not 5. *)
Lemma quality_walk_does_not_commit_quality_5 :
  quality_id (rate_control (quality_walk [20000; 25000; 40000; 90000])) <> 5.
Proof. vm_compute. discriminate. Qed.

(** The same commit with kilobytes of 1024 bytes, and through the frame
    entry point. *)
Example quality_walk_with_KiB_commits_quality_6 :
  quality_id (rate_control (quality_walk [20480; 25600; 40960; 92160])) = 6.
Proof. vm_compute. reflexivity. Qed.

Example quality_walk_frames_commit_quality_6 :
  let rc :=
    rate_control
      (run_events example_undefined_uint64 false example_encoder
         quality_walk_frames) in
  during_quality_eval rc = false /\ quality_id rc = 6 /\ fps rc = 11.
Proof. vm_compute. repeat split. Qed.

(** With a sample of 9 FPS at quality 6 (110 KB) the walk does step back
    and commit quality 5. *)
Example quality_walk_steps_back_below_10_fps :
  quality_id (rate_control (quality_walk [20000; 25000; 40000; 110000])) = 5.
Proof. vm_compute. reflexivity. Qed.

(** ** Playback-delay recommendation *)

(** C5, as the code has it: for a non-zero [frame_enc_size] and a non-zero
    [byte_rate], [get_min_required_playback_delay] returns at most 5000 ms. *)
Theorem min_delay_capped frame_enc_size byte_rate latency :
  frame_enc_size <> 0 -> byte_rate <> 0 ->
  get_min_required_playback_delay frame_enc_size byte_rate latency <= 5000.
Proof.
  intros Hs Hb. unfold get_min_required_playback_delay.
  apply Z.eqb_neq in Hs. apply Z.eqb_neq in Hb. rewrite Hs, Hb.
  cbn [orb]. apply MIN_le_r.
Qed.

Lemma min_delay_capped_witness :
  get_min_required_playback_delay 90000 1000 6000 <= 5000.
Proof. apply min_delay_capped; discriminate. Defined.

(** Without a size sample the function returns the latency as it is. *)
Lemma min_delay_without_sample byte_rate latency :
  get_min_required_playback_delay 0 byte_rate latency = latency.
Proof. reflexivity. Qed.

(** C5, as stated, fails: with [byte_rate > 0] but no size sample, a latency
    of 6000 ms is returned uncapped. *)
Lemma min_delay_uncapped_without_sample :
  ~ (forall frame_enc_size byte_rate latency,
        0 <= frame_enc_size < 2 ^ 64 -> 0 < byte_rate < 2 ^ 64 ->
        0 <= latency < 2 ^ 32 ->
        get_min_required_playback_delay frame_enc_size byte_rate latency
        <= 5000).
Proof.
  intro H.
  assert (C := H 0 1 6000 ltac:(lia) ltac:(lia) ltac:(lia)).
  vm_compute in C. apply C. reflexivity.
Qed.

(** ** Construction *)

(** C6: right after construction with a starting bit rate of 8 000 000, at a
    non-zero clock value, [byte_rate = 1 000 000], [quality_id = 3],
    [fps = 5], [during_quality_eval] is set, [warmup_start_time] is not zero
    and [mjpeg_encoder_get_bit_rate] returns 8 000 000. *)
Theorem construction_defaults cbs now :
  now <> 0 ->
  exists encoder,
    mjpeg_encoder_new SPICE_VIDEO_CODEC_TYPE_MJPEG 8000000 cbs now
    = Some encoder
    /\ byte_rate (rate_control encoder) = 1000000
    /\ quality_id (rate_control encoder) = 3
    /\ fps (rate_control encoder) = 5
    /\ during_quality_eval (rate_control encoder) = true
    /\ warmup_start_time (rate_control encoder) <> 0
    /\ mjpeg_encoder_get_bit_rate encoder = 8000000.
Proof.
  intros Hnow. eexists. split; [reflexivity|].
  repeat split; try reflexivity. exact Hnow.
Qed.

Lemma construction_defaults_witness :
  exists encoder,
    mjpeg_encoder_new SPICE_VIDEO_CODEC_TYPE_MJPEG 8000000 example_cbs
      (seconds 1)
    = Some encoder
    /\ byte_rate (rate_control encoder) = 1000000
    /\ quality_id (rate_control encoder) = 3
    /\ fps (rate_control encoder) = 5
    /\ during_quality_eval (rate_control encoder) = true
    /\ warmup_start_time (rate_control encoder) <> 0
    /\ mjpeg_encoder_get_bit_rate encoder = 8000000.
Proof. apply construction_defaults. vm_compute. discriminate. Defined.

(** The evaluation that construction starts is of type SET, for a rate
    change, and paces frames at 7.5 per second. *)
Example construction_starts_set_evaluation :
  type (quality_eval_data (rate_control example_encoder))
  = MJPEG_QUALITY_EVAL_TYPE_SET
  /\ reason (quality_eval_data (rate_control example_encoder))
     = MJPEG_QUALITY_EVAL_REASON_RATE_CHANGE
  /\ adjusted_fps (rate_control example_encoder) = 7.5%float.
Proof. vm_compute. repeat split. Qed.

(** ** Unsupported frames *)

(** The sibling path: when [jpeg_write_scanlines] writes nothing,
    [last_enc_size] is cleared. *)
Lemma encode_scanline_failure_clears_last_enc_size encoder :
  mjpeg_encoder_encode_scanline encoder 0
  = (0, set_rate_control encoder (set_last_enc_size (rate_control encoder) 0)).
Proof. reflexivity. Qed.

(** When the row loop of [encode_frame] fails, either a scanline could not be
    written, and [last_enc_size] is 0, or a row was missing from the chunks,
    and the encoder is as it was. *)
Lemma encode_rows_failure rows :
  forall i encoder jpeg chunks offset chunk stride,
    fst (encode_rows rows i encoder jpeg chunks offset chunk stride) = false ->
    let encoder' :=
      snd (encode_rows rows i encoder jpeg chunks offset chunk stride) in
    last_enc_size (rate_control encoder') = 0 \/ encoder' = encoder.
Proof.
  induction rows as [|rows IH]; intros i encoder jpeg chunks offset chunk
    stride; cbn [encode_rows]; [discriminate|].
  destruct (get_image_line _ _ _ _) as [[line offset'] chunk'].
  destruct line; cbn [negb]; [|right; reflexivity].
  unfold mjpeg_encoder_encode_scanline.
  destruct (to_uint32 (scanlines_written jpeg i) =? 0) eqn:Hw.
  - intros _. left. reflexivity.
  - rewrite Hw. apply IH.
Qed.

(** An unsupported frame of [mjpeg_encoder_start_frame] (an unrecognized
    format, or a row stride that overflows) leaves [last_enc_size] as
    Adjust-to-bit-rate left it: nothing clears it. *)
Lemma start_frame_unsupported_last_enc_size u jcs encoder host now now_dec
  format src mm :
  fst (mjpeg_encoder_start_frame u jcs encoder host now now_dec format src mm)
  = VIDEO_ENCODER_FRAME_UNSUPPORTED ->
  last_enc_size
    (rate_control
       (snd (mjpeg_encoder_start_frame u jcs encoder host now now_dec format
               src mm)))
  = last_enc_size
      (rate_control
         (mjpeg_encoder_adjust_params_to_bit_rate u
            (start_frame_pacing encoder host now) host now_dec)).
Proof.
  unfold mjpeg_encoder_start_frame. cbv zeta.
  case_if; [discriminate|]. intros _.
  rewrite start_compress_rate_control.
  unfold stamp_frame_time. cbv zeta. case_if; reflexivity.
Qed.

(** C7 fails on the code: after one accepted frame of 20000 bytes, a frame
    in the unrecognized format [SPICE_BITMAP_FMT_8BIT] is answered
    [VIDEO_ENCODER_FRAME_UNSUPPORTED] while [last_enc_size] is still 20000;
    the stale size has meanwhile been recorded for quality 3 and the
    evaluator has moved on to quality 4. *)
Theorem unsupported_format_keeps_last_enc_size :
  let encoder :=
    run_event example_undefined_uint64 false example_encoder
      (example_frame (seconds 2) 1000 20000) in
  let result :=
    mjpeg_encoder_encode_frame example_undefined_uint64 false encoder
      example_host (seconds 3) (seconds 3) true (jpeg_success 25000) 2000
      (example_bitmap SPICE_BITMAP_FMT_8BIT) example_rect true in
  last_enc_size (rate_control encoder) = 20000
  /\ quality_id (rate_control encoder) = 3
  /\ fst result = VIDEO_ENCODER_FRAME_UNSUPPORTED
  /\ last_enc_size (rate_control (snd result)) = 20000
  /\ quality_id (rate_control (snd result)) = 4.
Proof. vm_compute. repeat split. Qed.

(** The next frame then records the stale 20000 bytes, measured at quality
    3, as the size of quality 4. *)
Example stale_size_recorded_for_next_quality :
  let encoder :=
    run_events example_undefined_uint64 false example_encoder
      [example_frame (seconds 2) 1000 20000;
       EncodeFrame example_host (seconds 3) (seconds 3) true
         (jpeg_success 25000) 2000 (example_bitmap SPICE_BITMAP_FMT_8BIT)
         example_rect true] in
  let next :=
    mjpeg_encoder_adjust_params_to_bit_rate example_undefined_uint64 encoder
      example_host (seconds 4) in
  firstn 5 (encoded_size_by_quality (quality_eval_data (rate_control next)))
  = [0; 0; 0; 20000; 20000].
Proof. vm_compute. reflexivity. Qed.

(** The overflow check of the row stride: a rectangle 1 610 612 736 pixels
    wide is unsupported, and [last_enc_size] stays 20000 as well. *)
Example stride_overflow_keeps_last_enc_size :
  let encoder :=
    run_event example_undefined_uint64 false example_encoder
      (example_frame (seconds 2) 1000 20000) in
  let result :=
    mjpeg_encoder_encode_frame example_undefined_uint64 false encoder
      example_host (seconds 3) (seconds 3) true (jpeg_success 25000) 2000
      (example_bitmap SPICE_BITMAP_FMT_32BIT)
      {| left := 0; top := 0; right := 1610612736; bottom := 2 |} true in
  fst result = VIDEO_ENCODER_FRAME_UNSUPPORTED
  /\ last_enc_size (rate_control (snd result)) = 20000.
Proof. vm_compute. repeat split. Qed.

(** A scanline that cannot be written does clear it. *)
Example scanline_failure_clears_last_enc_size :
  let encoder :=
    run_event example_undefined_uint64 false example_encoder
      (example_frame (seconds 2) 1000 20000) in
  let result :=
    mjpeg_encoder_encode_frame example_undefined_uint64 false encoder
      example_host (seconds 3) (seconds 3) true
      {| scanlines_written := fun i => if Nat.eqb i 1 then 0 else 1;
         compressed_size := 25000 |}
      2000 (example_bitmap SPICE_BITMAP_FMT_32BIT) example_rect true in
  fst result = VIDEO_ENCODER_FRAME_UNSUPPORTED
  /\ last_enc_size (rate_control (snd result)) = 0.
Proof. vm_compute. repeat split. Qed.

(** ** Positive byte rate *)

(** C8, as the code has it: after construction with a starting bit rate of
    at least 8, [byte_rate] is greater than zero in every state reached by
    frame submissions, client reports and server-drop notifications that each
    start with an accounting window of at most one frame or of a measured
    rate of at least one byte per second. *)
Theorem byte_rate_positive u jcs sbr cbs now encoder events :
  8 <= sbr < 2 ^ 64 ->
  mjpeg_encoder_new SPICE_VIDEO_CODEC_TYPE_MJPEG sbr cbs now = Some encoder ->
  windows_rate_positive u jcs encoder events ->
  0 < byte_rate (rate_control (run_events u jcs encoder events)).
Proof.
  intros Hs Hnew Hwin.
  apply (run_events_ok u jcs true events encoder); auto.
  now apply (new_encoder_ok true sbr cbs now).
Qed.

Lemma byte_rate_positive_witness :
  0 < byte_rate
        (rate_control
           (run_events example_undefined_uint64 false example_encoder
              (busy_stream_frames ++ [busy_late_frame_report]))).
Proof.
  apply (byte_rate_positive example_undefined_uint64 false 8000000
           example_cbs (seconds 1)).
  - vm_compute. split; [discriminate|reflexivity].
  - reflexivity.
  - vm_compute.
    repeat split;
      first [left; discriminate | right; reflexivity].
Defined.

(** In that run the late-frame report lowers the byte rate from 1 000 000 to
    910 000: the measured 1 125 000 is capped by the current rate, and one
    average frame of 90 000 bytes is taken off. *)
Example decrease_bit_rate_on_busy_stream :
  byte_rate
    (rate_control
       (run_events example_undefined_uint64 false example_encoder
          (busy_stream_frames ++ [busy_late_frame_report]))) = 910000.
Proof. vm_compute. reflexivity. Qed.

(** C8, as stated, fails: a starting bit rate below 8 gives a byte rate of
    zero at construction. *)
Lemma byte_rate_zero_at_construction :
  exists encoder,
    mjpeg_encoder_new SPICE_VIDEO_CODEC_TYPE_MJPEG 7 example_cbs (seconds 1)
    = Some encoder
    /\ byte_rate (rate_control encoder) = 0.
Proof. eexists. split; reflexivity. Qed.

(** The other way to a byte rate of zero, left out of C8 above: on the idle
    stream the accounting window holds 500 bytes over 4000 seconds; the
    re-estimation of Decrease-bit-rate truncates that rate to 0, and the
    guard [decrease_size >= measured_byte_rate] then leaves 0 - 0. *)
Example byte_rate_zero_after_idle_stream :
  let encoder :=
    run_events example_undefined_uint64 false example_encoder
      idle_stream_frames in
  byte_rate (rate_control encoder) = 1000000
  /\ measured_byte_rate example_undefined_uint64
       (bit_rate_info (rate_control encoder)) = 0
  /\ byte_rate
       (rate_control
          (run_event example_undefined_uint64 false encoder
             late_frame_report)) = 0.
Proof. vm_compute. repeat split. Qed.

(** ** Statistics *)

(** A double divided by the double zero is a NaN or an infinity. *)
Lemma division_by_zero_is_no_number x :
  double_is_number (x / double_of_Z 0) = false.
Proof.
  unfold double_is_number. rewrite classify_spec, div_spec.
  change (Prim2SF (double_of_Z 0)) with (S754_zero false).
  destruct (Prim2SF x) as [[|]|[|]| |[|] m e]; reflexivity.
Qed.

Lemma new_encoder_has_no_frames sbr cbs now encoder :
  mjpeg_encoder_new SPICE_VIDEO_CODEC_TYPE_MJPEG sbr cbs now = Some encoder ->
  num_frames encoder = 0 /\ avg_quality encoder = 0.
Proof.
  intros Hnew. unfold mjpeg_encoder_new in Hnew. cbv zeta in Hnew.
  apply Some_inj in Hnew. subst encoder.
  unfold mjpeg_encoder_reset_quality. cbv zeta. fields. split; reflexivity.
Qed.

(** The frame counter moves only when [mjpeg_encoder_start_frame] reaches
    the JPEG setup. *)
Lemma start_compress_num_frames jcs encoder format src :
  num_frames (snd (start_compress jcs encoder format src))
  = match fst (start_compress jcs encoder format src) with
    | VIDEO_ENCODER_FRAME_ENCODE_DONE => to_uint32 (num_frames encoder + 1)
    | _ => num_frames encoder
    end.
Proof.
  unfold start_compress. cbv zeta.
  destruct (select_pixel_format _ _ _) as [e'|] eqn:Hsel; [|reflexivity].
  assert (num_frames e' = num_frames encoder) as Hn.
  { unfold select_pixel_format in Hsel.
    destruct format, jcs; inversion Hsel; reflexivity. }
  case_if; fields; [exact Hn|].
  destruct (pixel_converter _); [case_if|]; fields; now rewrite Hn.
Qed.

(** A double that is not zero, divided by the double zero, is an infinity
    of its sign. *)
Lemma division_of_positive_by_zero a :
  0 < a < 2 ^ 53 ->
  classify (double_of_Z a / double_of_Z 0)%float = PInf.
Proof.
  intros Ha. rewrite classify_spec, div_spec.
  rewrite Prim2SF_double_of_Z by lia.
  change (Prim2SF (double_of_Z 0)) with (S754_zero false).
  destruct a as [|p|p]; try lia.
  destruct (binary_normalize_finite p ltac:(lia)) as (m & e & ->).
  reflexivity.
Qed.

(** C9: [mjpeg_encoder_get_stats] reports as average quality the quotient
    of the sum of the qualities by [num_frames], the division of the two
    integers as doubles, and nothing guards a divisor of zero.  With at
    least one frame counted the quotient is no NaN.  With [num_frames] zero
    it is not a number: an infinity when the sum is not zero, and
    0.0 / 0.0, a NaN, when it is, as on the encoder that
    [mjpeg_encoder_new] returns, where no frame has reached the JPEG
    setup. *)
Theorem get_stats_divides_by_num_frames encoder :
  let avg := stats_avg_quality (mjpeg_encoder_get_stats encoder) in
  (0 <= avg_quality encoder < 2 ^ 63 ->
   0 <= num_frames encoder < 2 ^ 63 ->
   Prim2SF avg
   = SFdiv prec emax
       (binary_normalize prec emax (avg_quality encoder) 0 false)
       (binary_normalize prec emax (num_frames encoder) 0 false))
  /\ (0 <= avg_quality encoder < 2 ^ 63 ->
      0 < num_frames encoder < 2 ^ 32 ->
      classify avg <> NaN)
  /\ (num_frames encoder = 0 ->
      double_is_number avg = false
      /\ (0 < avg_quality encoder < 2 ^ 53 -> classify avg = PInf)
      /\ (avg_quality encoder = 0 -> classify avg = NaN))
  /\ (forall sbr cbs now,
         mjpeg_encoder_new SPICE_VIDEO_CODEC_TYPE_MJPEG sbr cbs now
         = Some encoder ->
         num_frames encoder = 0 /\ classify avg = NaN).
Proof.
  cbv zeta. unfold mjpeg_encoder_get_stats. cbn [stats_avg_quality].
  split; [|split; [|split]].
  - intros Hq Hn. rewrite div_spec, !Prim2SF_double_of_Z by lia.
    reflexivity.
  - intros Hq Hn. apply division_of_integers_not_nan; lia.
  - intros Hn. rewrite Hn. split; [apply division_by_zero_is_no_number|].
    split.
    + apply division_of_positive_by_zero.
    + intros ->. reflexivity.
  - intros sbr cbs now Hnew.
    destruct (new_encoder_has_no_frames _ _ _ _ Hnew) as [Hn Hq].
    split; [exact Hn|]. rewrite Hn, Hq. reflexivity.
Qed.

(** On the encoder just constructed the average is a NaN; after a first
    frame, encoded at quality 50, it is the quotient of 50 by 1. *)
Lemma get_stats_divides_by_num_frames_witness :
  (num_frames example_encoder = 0
   /\ classify (stats_avg_quality (mjpeg_encoder_get_stats example_encoder))
      = NaN)
  /\ (let encoder :=
        run_event example_undefined_uint64 false example_encoder
          (example_frame (seconds 2) 1000 20000) in
      Prim2SF (stats_avg_quality (mjpeg_encoder_get_stats encoder))
      = SFdiv prec emax (binary_normalize prec emax 50 0 false)
          (binary_normalize prec emax 1 0 false)
      /\ classify (stats_avg_quality (mjpeg_encoder_get_stats encoder))
         <> NaN).
Proof.
  split.
  - destruct (get_stats_divides_by_num_frames example_encoder)
      as (_ & _ & _ & Hnew).
    apply (Hnew 8000000 example_cbs (seconds 1)). reflexivity.
  - cbv zeta.
    destruct (get_stats_divides_by_num_frames
                (run_event example_undefined_uint64 false example_encoder
                   (example_frame (seconds 2) 1000 20000)))
      as (Hdiv & Hdef & _).
    split; [apply Hdiv|apply Hdef]; vm_compute; split; congruence.
Defined.

(** With at least one frame counted, and a sum of qualities below 2^63, the
    divisor is a finite double that is not zero and the average is no
    NaN. *)
Lemma get_stats_defined_with_frames encoder :
  0 < num_frames encoder < 2 ^ 32 ->
  0 <= avg_quality encoder < 2 ^ 63 ->
  classify (stats_avg_quality (mjpeg_encoder_get_stats encoder)) <> NaN.
Proof.
  intros Hn Hq. unfold mjpeg_encoder_get_stats. cbn [stats_avg_quality].
  apply division_of_integers_not_nan; lia.
Qed.

(** After the first encoded frame, at quality 50, the average is 50. *)
Example get_stats_after_first_frame :
  let encoder :=
    run_event example_undefined_uint64 false example_encoder
      (example_frame (seconds 2) 1000 20000) in
  num_frames encoder = 1
  /\ stats_avg_quality (mjpeg_encoder_get_stats encoder) = 50%float.
Proof. vm_compute. split; reflexivity. Qed.

(** ** Positive reports during a rate-change evaluation *)

(** While a quality evaluation with reason RATE_CHANGE is in progress, of
    whatever type, [mjpeg_encoder_handle_positive_client_stream_report]
    returns at once: it does not look at the timeout, does not call
    Increase-bit-rate, and returns the encoder as it received it. *)
Lemma handle_positive_during_rate_change_eval u encoder host t :
  during_quality_eval (rate_control encoder) = true ->
  reason (quality_eval_data (rate_control encoder))
  = MJPEG_QUALITY_EVAL_REASON_RATE_CHANGE ->
  mjpeg_encoder_handle_positive_client_stream_report u encoder host t
  = encoder.
Proof.
  intros Heval Hreason.
  unfold mjpeg_encoder_handle_positive_client_stream_report.
  rewrite Heval, Hreason. reflexivity.
Qed.

(** A report that passes the tests for Handle-Negative and reports no drops
    ends in Handle-Positive, with the running maxima of the client state
    updated on the way. *)
Lemma client_stream_report_positive u encoder host now nf nd st en delay
  audio :
  (during_quality_eval (rate_control encoder)
   && match type (quality_eval_data (rate_control encoder)) with
      | MJPEG_QUALITY_EVAL_TYPE_DOWNGRADE => true
      | _ => false
      end
   && is_rate_change (reason (quality_eval_data (rate_control encoder))))
  = false ->
  report_is_positive encoder host nd delay audio = true ->
  exists e1,
    rate_control e1
    = set_client_state (rate_control encoder)
        (report_client_state encoder delay audio)
    /\ mjpeg_encoder_client_stream_report u encoder host now nf nd st en delay
         audio
       = mjpeg_encoder_handle_positive_client_stream_report u e1 host st.
Proof.
  intros Hgo Hpos. unfold report_is_positive in Hpos.
  apply andb_true_iff in Hpos. destruct Hpos as [Hpos Hnd].
  apply andb_true_iff in Hpos. destruct Hpos as [Hpos Hdec].
  apply andb_true_iff in Hpos. destruct Hpos as [Hdrift Hth].
  apply negb_true_iff in Hdrift, Hth, Hdec.
  unfold report_audio_drift in Hdrift. cbv zeta in Hdrift.
  unfold report_delay_decreased, report_client_state in Hdec.
  cbv zeta in Hdec. cbn [max_video_latency] in Hdec.
  unfold mjpeg_encoder_client_stream_report. cbv zeta.
  rewrite Hgo.
  match goal with
  | |- context [match ?p with (s, e) => _ end] =>
      assert (Hp : rate_control (snd p) = rate_control encoder
                   /\ fst p = report_video_delay_small encoder host delay);
      [|destruct p as [small e']]
  end.
  { unfold report_video_delay_small. cbv zeta.
    repeat case_if; split; reflexivity. }
  cbn [fst snd] in Hp. destruct Hp as [Hrc Hsmall].
  rewrite Hdrift, Hth. fields. rewrite Hsmall, Hdec, Hnd.
  eexists. split; [|reflexivity]. fields. rewrite Hrc. reflexivity.
Qed.

(** C10, as the code has it: while a quality evaluation with reason
    RATE_CHANGE is in progress, of whatever type, a positive client report
    does not raise the bit rate: Handle-Positive returns before the timeout
    check and Increase-bit-rate is never invoked.  If the type is DOWNGRADE,
    the report handler [mjpeg_encoder_client_stream_report] returns at once
    and the whole encoder is unchanged.  For the other types a report that
    the handler passes to Handle-Positive has by then raised the two running
    maxima of the client state to the delays of the report, and the rest of
    the rate-control state is unchanged. *)
Theorem positive_report_during_rate_change_eval u encoder host now nf nd st
  en delay audio :
  during_quality_eval (rate_control encoder) = true ->
  reason (quality_eval_data (rate_control encoder))
  = MJPEG_QUALITY_EVAL_REASON_RATE_CHANGE ->
  let reported :=
    mjpeg_encoder_client_stream_report u encoder host now nf nd st en delay
      audio in
  mjpeg_encoder_handle_positive_client_stream_report u encoder host st
  = encoder
  /\ (type (quality_eval_data (rate_control encoder))
      = MJPEG_QUALITY_EVAL_TYPE_DOWNGRADE ->
      reported = encoder)
  /\ (type (quality_eval_data (rate_control encoder))
      <> MJPEG_QUALITY_EVAL_TYPE_DOWNGRADE ->
      report_is_positive encoder host nd delay audio = true ->
      rate_control reported
      = set_client_state (rate_control encoder)
          (report_client_state encoder delay audio)).
Proof.
  intros Heval Hreason. cbv zeta.
  split; [now apply handle_positive_during_rate_change_eval|].
  split.
  - intros Htype. unfold mjpeg_encoder_client_stream_report. cbv zeta.
    rewrite Heval, Htype, Hreason. reflexivity.
  - intros Htype Hpos.
    destruct (client_stream_report_positive u encoder host now nf nd st en
                delay audio) as (e1 & Hrc & ->); [|exact Hpos|].
    { rewrite Heval, Hreason.
      destruct (type _); [reflexivity|reflexivity|congruence]. }
    rewrite handle_positive_during_rate_change_eval;
      [exact Hrc|rewrite Hrc; fields; exact Heval
      |rewrite Hrc; fields; exact Hreason].
Qed.

(** Two states.  The first is the busy stream with an UPGRADE evaluation
    for a rate change set on it, its accounting window still open since
    5000 ms of stream time, and a report that starts 15 seconds later: the
    first test of Handle-Positive is the one that ignores it.  The second
    is the busy stream after a positive report has raised its bit rate and
    started such an evaluation, and a further positive report. *)
Lemma positive_report_during_rate_change_eval_witness :
  (let encoder :=
     mjpeg_encoder_quality_eval_set_upgrade busy_encoder
       MJPEG_QUALITY_EVAL_REASON_RATE_CHANGE 6 11 in
   let reported :=
     mjpeg_encoder_client_stream_report example_undefined_uint64 encoder
       example_host (seconds 11) 5 0 20000 21000 100 0 in
   mjpeg_encoder_handle_positive_client_stream_report
     example_undefined_uint64 encoder example_host 20000 = encoder
   /\ rate_control reported
      = set_client_state (rate_control encoder)
          {| max_video_latency := 100; max_audio_latency := 0 |})
  /\ (let encoder :=
        run_events example_undefined_uint64 false example_encoder
          (busy_stream_frames
           ++ [ClientStreamReport example_host (seconds 11) 5 0 20000 21000
                 100 0]) in
      let reported :=
        mjpeg_encoder_client_stream_report example_undefined_uint64 encoder
          example_host (seconds 12) 5 0 21000 22000 200 0 in
      rate_control reported
      = set_client_state (rate_control encoder)
          {| max_video_latency := 200; max_audio_latency := 0 |}).
Proof.
  cbv zeta. split.
  - destruct (positive_report_during_rate_change_eval
                example_undefined_uint64
                (mjpeg_encoder_quality_eval_set_upgrade busy_encoder
                   MJPEG_QUALITY_EVAL_REASON_RATE_CHANGE 6 11)
                example_host (seconds 11) 5 0 20000 21000 100 0)
      as (Hhelper & _ & Hreport); [reflexivity|reflexivity|].
    split; [exact Hhelper|].
    apply Hreport; [discriminate|vm_compute; reflexivity].
  - destruct (positive_report_during_rate_change_eval
                example_undefined_uint64
                (run_events example_undefined_uint64 false example_encoder
                   (busy_stream_frames
                    ++ [ClientStreamReport example_host (seconds 11) 5 0
                          20000 21000 100 0]))
                example_host (seconds 12) 5 0 21000 22000 200 0)
      as (_ & _ & Hreport);
      [vm_compute; reflexivity|vm_compute; reflexivity|].
    apply Hreport; [vm_compute; discriminate|vm_compute; reflexivity].
Defined.

(** The same report on the busy stream itself, where no evaluation is in
    progress, does raise the byte rate. *)
Example positive_report_outside_evaluation :
  byte_rate
    (rate_control
       (mjpeg_encoder_client_stream_report example_undefined_uint64
          busy_encoder example_host (seconds 11) 5 0 20000 21000 100 0))
  = 1090000.
Proof. vm_compute. reflexivity. Qed.

(** C10, as stated, fails: a positive report does not leave the whole
    rate-control state unchanged during an UPGRADE evaluation.  The report
    above starts one on the busy stream; a second report, with no drops and
    a playback delay of 200 ms, is passed to Handle-Positive and ignored
    there, and has by then raised [max_video_latency] from 100 to 200. *)
Lemma positive_report_changes_client_state_during_upgrade_eval :
  let encoder :=
    run_events example_undefined_uint64 false example_encoder
      (busy_stream_frames
       ++ [ClientStreamReport example_host (seconds 11) 5 0 20000 21000 100
             0]) in
  let reported :=
    mjpeg_encoder_client_stream_report example_undefined_uint64 encoder
      example_host (seconds 12) 5 0 21000 22000 200 0 in
  during_quality_eval (rate_control encoder) = true
  /\ reason (quality_eval_data (rate_control encoder))
     = MJPEG_QUALITY_EVAL_REASON_RATE_CHANGE
  /\ type (quality_eval_data (rate_control encoder))
     = MJPEG_QUALITY_EVAL_TYPE_UPGRADE
  /\ report_is_positive encoder example_host 0 200 0 = true
  /\ max_video_latency (client_state (rate_control encoder)) = 100
  /\ max_video_latency (client_state (rate_control reported)) = 200
  /\ rate_control reported <> rate_control encoder.
Proof.
  cbv zeta. do 6 (split; [vm_compute; reflexivity|]).
  intros H.
  apply (f_equal (fun rc => max_video_latency (client_state rc))) in H.
  vm_compute in H. discriminate H.
Qed.

(** ** Reports during a rate-change evaluation *)

(** Decrease-bit-rate never raises the byte rate. *)
Lemma decrease_bit_rate_tail_never_raises u e rc :
  rate_control_wf rc ->
  byte_rate (rate_control (decrease_bit_rate_tail u e rc)) <= byte_rate rc.
Proof.
  intros Hrc. unfold decrease_bit_rate_tail.
  assert (Hbr := wf_byte_rate _ Hrc). assert (Hfps := wf_fps _ Hrc).
  assert (Hsum := wf_sum_enc_size _ Hrc).
  assert (Hcase : forall m d,
             0 <= m -> 0 <= d ->
             to_uint64
               (MIN (byte_rate rc) m
                - (if d >=? MIN (byte_rate rc) m
                   then MIN (byte_rate rc) m / 2 else d))
             <= byte_rate rc).
  { intros m d Hm Hd. unfold MIN.
    assert (0 <= (if byte_rate rc <? m then byte_rate rc else m)
            <= byte_rate rc) as Hm'
        by (destruct (Z.ltb_spec (byte_rate rc) m); lia).
    set (m' := if byte_rate rc <? m then byte_rate rc else m) in *.
    rewrite Z.geb_leb.
    assert (0 <= m' / 2 <= m')
      by (split; [apply Z.div_pos; lia
                 |apply Z.div_le_upper_bound; lia]).
    destruct (Z.leb_spec m' d); rewrite to_uint64_small; lia. }
  destruct (enough_frames_for_estimate rc) eqn:Hframes;
    cbv beta iota zeta;
    unfold mjpeg_encoder_quality_eval_set_downgrade; fields; apply Hcase.
  - apply measured_byte_rate_range.
  - assert (Hn := enough_frames_at_least_two rc (proj1 Hfps) Hframes).
    apply Z.div_pos; lia.
  - lia.
  - apply Z.div_pos; unfold MJPEG_MIN_FPS in *; lia.
Qed.

Lemma decrease_bit_rate_never_raises u encoder now :
  rate_control_wf (rate_control encoder) ->
  byte_rate (rate_control (mjpeg_encoder_decrease_bit_rate u encoder now))
  <= byte_rate (rate_control encoder).
Proof.
  intros Hwf. unfold mjpeg_encoder_decrease_bit_rate.
  pose proof (quality_eval_stop_wf encoder Hwf) as Hwf'.
  destruct (quality_eval_stop_same_rate encoder) as (Hb & _).
  rewrite <- Hb.
  remember (mjpeg_encoder_quality_eval_stop encoder) as e eqn:He.
  clear He Hwf Hb encoder. cbv zeta.
  assert (Hrc : forall rc,
             byte_rate rc = byte_rate (rate_control e) ->
             fps rc = fps (rate_control e) ->
             quality_id rc = quality_id (rate_control e) ->
             quality_eval_data rc = quality_eval_data (rate_control e) ->
             bit_rate_info rc = bit_rate_info (rate_control e) ->
             byte_rate (rate_control (decrease_bit_rate_tail u e rc))
             <= byte_rate (rate_control e)).
  { intros rc Hb Hf Hq He Hi. rewrite <- Hb.
    apply decrease_bit_rate_tail_never_raises.
    eapply rate_control_wf_ext; eassumption. }
  case_if; [case_if|]; try (apply Hrc; reflexivity).
  fields. lia.
Qed.

(** While a rate-change evaluation is in progress no client report raises
    the byte rate: a report that turns out positive is ignored, one that
    turns out negative can only lower it. *)
Lemma client_report_during_rate_change_eval u encoder host now nf nd st en
  delay audio :
  rate_control_wf (rate_control encoder) ->
  during_quality_eval (rate_control encoder) = true ->
  reason (quality_eval_data (rate_control encoder))
  = MJPEG_QUALITY_EVAL_REASON_RATE_CHANGE ->
  byte_rate
    (rate_control
       (mjpeg_encoder_client_stream_report u encoder host now nf nd st en
          delay audio))
  <= byte_rate (rate_control encoder).
Proof.
  intros Hwf Heval Hreason. unfold mjpeg_encoder_client_stream_report.
  cbv zeta. case_if; [lia|].
  match goal with
  | |- context [match ?p with (s, e) => _ end] =>
      assert (Hp : rate_control (snd p) = rate_control encoder);
      [|destruct p as [small e']]
  end.
  { repeat case_if; reflexivity. }
  cbn [snd] in Hp.
  assert (Hneg : forall t,
             byte_rate
               (rate_control
                  (mjpeg_encoder_handle_negative_client_stream_report u e'
                     now t))
             <= byte_rate (rate_control encoder)).
  { intros t. unfold mjpeg_encoder_handle_negative_client_stream_report.
    cbv zeta. case_if; [rewrite Hp; lia|].
    rewrite <- Hp. apply decrease_bit_rate_never_raises. now rewrite Hp. }
  case_if; [apply Hneg|]. case_if; [apply Hneg|].
  case_if.
  - unfold mjpeg_encoder_handle_negative_client_stream_report.
    cbv zeta. fields. case_if; [fields; rewrite Hp; lia|].
    etransitivity; [apply decrease_bit_rate_never_raises|].
    + eapply rate_control_wf_ext; [..|exact Hwf]; fields;
        now rewrite Hp.
    + fields. rewrite Hp. lia.
  - case_if; [|fields; rewrite Hp; lia].
    unfold mjpeg_encoder_handle_positive_client_stream_report.
    cbv zeta. fields. rewrite Hp, Heval, Hreason. cbn [andb is_rate_change].
    fields. rewrite ?Hp. lia.
Qed.

(** [fields] on a hypothesis. *)
Ltac fields_in H :=
  cbn [type reason encoded_size_by_quality min_quality_id min_quality_fps
       max_quality_id max_quality_fps max_sampled_fps
       max_sampled_fps_quality_id max_video_latency max_audio_latency
       num_frames_encoded num_frames_dropped change_start_time
       last_frame_time change_start_mm_time was_upgraded num_enc_frames
       sum_enc_size during_quality_eval quality_eval_data bit_rate_info
       client_state server_state byte_rate quality_id fps adjusted_fps
       adjusted_fps_start_time adjusted_fps_num_frames base_enc_size
       last_enc_size sum_recent_enc_size num_recent_enc_frames
       warmup_start_time row_size first_frame cinfo bytes_per_pixel
       pixel_converter rate_control cbs starting_bit_rate avg_quality
       num_frames playback_delay_updates in_color_space input_components
       image_width image_height set_type set_reason
       set_encoded_size_by_quality set_min_quality_id set_min_quality_fps
       set_max_quality_id set_max_quality_fps set_max_sampled_fps
       set_max_sampled_fps_quality_id set_num_frames_encoded
       set_num_frames_dropped set_change_start_time set_last_frame_time
       set_change_start_mm_time set_was_upgraded set_num_enc_frames
       set_sum_enc_size set_during_quality_eval set_quality_eval_data
       set_bit_rate_info set_client_state set_server_state set_byte_rate
       set_quality_id set_fps set_adjusted_fps set_adjusted_fps_start_time
       set_adjusted_fps_num_frames set_base_enc_size set_last_enc_size
       set_sum_recent_enc_size set_num_recent_enc_frames
       set_warmup_start_time set_row_size set_first_frame set_cinfo
       set_bytes_per_pixel set_pixel_converter set_rate_control
       set_avg_quality set_num_frames set_playback_delay_updates
       notify_playback_delay fst snd] in H.

(** * Further properties of the encoder *)

(** ** Pixel conversion *)

(** A mask of [k] ones above [n] zeros selects [k] bits from bit [n] on. *)
Lemma land_shifted_ones x n k :
  0 <= n -> 0 <= k ->
  Z.land x (Z.shiftl (Z.ones k) n)
  = Z.shiftl (Z.land (Z.shiftr x n) (Z.ones k)) n.
Proof.
  intros Hn Hk. apply Z.bits_inj'. intros i Hi.
  rewrite Z.land_spec, !Z.shiftl_spec by assumption.
  destruct (Z.ltb_spec i n) as [Hlt|Hge].
  - rewrite !(Z.testbit_neg_r _ (i - n)) by lia. apply andb_false_r.
  - rewrite Z.land_spec, Z.shiftr_spec by lia.
    replace (i - n + n) with i by lia. reflexivity.
Qed.

(** Bits below [n] and a value below [2^n] do not overlap. *)
Lemma lor_shiftl_small u v n :
  0 <= n -> 0 <= v < 2 ^ n -> Z.lor (Z.shiftl u n) v = u * 2 ^ n + v.
Proof.
  intros Hn Hv. rewrite <- Z.shiftl_mul_pow2 by assumption.
  rewrite <- Z.add_lor_land.
  assert (Z.land (Z.shiftl u n) v = 0) as ->; [|lia].
  apply Z.bits_inj'. intros i Hi.
  rewrite Z.land_spec, Z.bits_0.
  destruct (Z.ltb_spec i n) as [Hlt|Hge].
  - rewrite Z.shiftl_spec_low by assumption. reflexivity.
  - rewrite <- (Z.mod_small v (2 ^ n)) by assumption.
    rewrite Z.mod_pow2_bits_high by lia. apply andb_false_r.
Qed.

(** The byte that [pixel_rgb16bpp_to_24] makes of a colour [c] that sits
    in the bits 3 to 7 of [hi], with [lo] the same bits five places lower:
    the five bits, then the three highest of them again. *)
Lemma rgb16_channel hi lo c :
  0 <= hi -> lo = Z.shiftr hi 5 -> c = (hi / 8) mod 32 ->
  to_uint8 (Z.lor (Z.land hi 248) (Z.land lo 7)) = c * 8 + c / 4.
Proof.
  intros Hx -> ->.
  change 248 with (Z.shiftl (Z.ones 5) 3). change 7 with (Z.ones 3).
  rewrite land_shifted_ones by lia. rewrite !Z.land_ones by lia.
  rewrite !Z.shiftr_div_pow2 by lia.
  change (2 ^ 3) with 8. change (2 ^ 5) with 32.
  assert (hi / 32 mod 8 = hi / 8 mod 32 / 4) as ->
      by (Z.div_mod_to_equations; lia).
  rewrite lor_shiftl_small; [|lia|change (2 ^ 3) with 8;
                                   Z.div_mod_to_equations; lia].
  unfold to_uint8. change (2 ^ 3) with 8. change (2 ^ 8) with 256.
  apply Z.mod_small. Z.div_mod_to_equations. lia.
Qed.

Lemma rgb16bpp_to_24_channels p :
  0 <= p ->
  rgb16bpp_to_24 p
  = [(p / 1024) mod 32 * 8 + (p / 1024) mod 32 / 4;
     (p / 32) mod 32 * 8 + (p / 32) mod 32 / 4;
     p mod 32 * 8 + p mod 32 / 4].
Proof.
  intros Hp. unfold rgb16bpp_to_24.
  f_equal; [|f_equal; [|f_equal]]; apply rgb16_channel.
  - apply Z.shiftr_nonneg. exact Hp.
  - rewrite Z.shiftr_shiftr by lia. reflexivity.
  - rewrite Z.shiftr_div_pow2 by lia. change (2 ^ 7) with 128.
    Z.div_mod_to_equations. lia.
  - apply Z.shiftr_nonneg. exact Hp.
  - rewrite Z.shiftr_shiftr by lia. reflexivity.
  - rewrite Z.shiftr_div_pow2 by lia. change (2 ^ 2) with 4.
    Z.div_mod_to_equations. lia.
  - apply Z.shiftl_nonneg. exact Hp.
  - rewrite Z.shiftr_shiftl_r by lia. reflexivity.
  - rewrite Z.shiftl_mul_pow2 by lia. change (2 ^ 3) with 8.
    Z.div_mod_to_equations. lia.
Qed.

(** X1: [pixel_rgb16bpp_to_24] widens each five-bit colour of a 16-bit
    pixel to eight bits by repeating its three highest bits below it, in
    the order red, green, blue, and ignores the sixteenth bit: the colour
    [c] becomes [c * 8 + c / 4], so 0 stays 0 and 31 becomes 255. *)
Theorem rgb16bpp_to_24_widens x r g b :
  0 <= x < 2 -> 0 <= r < 32 -> 0 <= g < 32 -> 0 <= b < 32 ->
  rgb16bpp_to_24 (rgb555 x r g b)
  = [r * 8 + r / 4; g * 8 + g / 4; b * 8 + b / 4].
Proof.
  intros Hx Hr Hg Hb. unfold rgb555.
  rewrite rgb16bpp_to_24_channels by lia.
  repeat f_equal; Z.div_mod_to_equations; lia.
Qed.

Lemma rgb16bpp_to_24_widens_witness :
  rgb16bpp_to_24 (rgb555 1 31 0 18) = [31 * 8 + 31 / 4; 0 * 8 + 0 / 4;
                                        18 * 8 + 18 / 4].
Proof. apply rgb16bpp_to_24_widens; lia. Defined.

(** X2: [pixel_rgb32bpp_to_24] writes the three low bytes of the 32-bit
    pixel, highest first, and ignores the byte above them. *)
Theorem rgb32bpp_to_24_unpacks x r g b :
  0 <= x < 256 -> 0 <= r < 256 -> 0 <= g < 256 -> 0 <= b < 256 ->
  rgb32bpp_to_24 (xrgb8888 x r g b) = [r; g; b].
Proof.
  intros Hx Hr Hg Hb. unfold rgb32bpp_to_24, xrgb8888.
  change 255 with (Z.ones 8). rewrite !Z.land_ones by lia.
  rewrite !Z.shiftr_div_pow2 by lia.
  change (2 ^ 16) with 65536. change (2 ^ 8) with 256. change (2 ^ 0) with 1.
  repeat f_equal; Z.div_mod_to_equations; lia.
Qed.

Lemma rgb32bpp_to_24_unpacks_witness :
  rgb32bpp_to_24 (xrgb8888 255 1 2 3) = [1; 2; 3].
Proof. apply rgb32bpp_to_24_unpacks; lia. Defined.

(** ** The frame rate a byte rate sustains *)

(** X3: for a frame size that is not zero, [get_max_fps] returns a frame
    rate that the byte rate sustains, [fps * frame_size <= bytes_per_sec],
    and, when the quotient fits the 32 bits of the result, the largest
    such rate. *)
Theorem get_max_fps_sustainable frame_size bytes_per_sec :
  0 < frame_size -> 0 <= bytes_per_sec ->
  get_max_fps frame_size bytes_per_sec * frame_size <= bytes_per_sec
  /\ (bytes_per_sec / frame_size < 2 ^ 32 ->
      bytes_per_sec
      < (get_max_fps frame_size bytes_per_sec + 1) * frame_size).
Proof.
  intros Hs Hb. unfold get_max_fps.
  assert ((frame_size =? 0) = false) as -> by (apply Z.eqb_neq; lia).
  assert (Hq : 0 <= bytes_per_sec / frame_size) by (apply Z.div_pos; lia).
  assert (Hle : bytes_per_sec / frame_size * frame_size <= bytes_per_sec)
    by (rewrite Z.mul_comm; apply Z.mul_div_le; lia).
  split.
  - assert (to_uint32 (bytes_per_sec / frame_size)
            <= bytes_per_sec / frame_size)
      by (unfold to_uint32; apply Z.mod_le; lia).
    nia.
  - intros Hfit. rewrite to_uint32_small by lia.
    pose proof (Z.mod_pos_bound bytes_per_sec frame_size Hs).
    pose proof (Z.div_mod bytes_per_sec frame_size). lia.
Qed.

Lemma get_max_fps_sustainable_witness :
  get_max_fps 90000 1000000 * 90000 <= 1000000
  /\ (1000000 / 90000 < 2 ^ 32 ->
      1000000 < (get_max_fps 90000 1000000 + 1) * 90000).
Proof. apply get_max_fps_sustainable; lia. Defined.

(** ** What the rate control leaves alone *)

Create Rewrite HintDb frontend.

Ltac frontend_step :=
  cbv zeta; repeat case_if; cbv beta iota;
  autorewrite with frontend; reflexivity.

Lemma reset_quality_frontend e q f s :
  frontend (mjpeg_encoder_reset_quality e q f s) = frontend e.
Proof. reflexivity. Qed.
#[global] Hint Rewrite reset_quality_frontend : frontend.

Lemma set_rate_control_frontend e rc :
  frontend (set_rate_control e rc) = frontend e.
Proof. reflexivity. Qed.
#[global] Hint Rewrite set_rate_control_frontend : frontend.

Lemma notify_playback_delay_frontend e d :
  frontend (notify_playback_delay e d) = frontend e.
Proof. reflexivity. Qed.
#[global] Hint Rewrite notify_playback_delay_frontend : frontend.

Lemma quality_id_step_frontend e d :
  frontend (quality_id_step e d) = frontend e.
Proof. reflexivity. Qed.
#[global] Hint Rewrite quality_id_step_frontend : frontend.

Lemma complete_sample_frontend e host :
  frontend (complete_sample e host) = frontend e.
Proof. unfold complete_sample. frontend_step. Qed.
#[global] Hint Rewrite complete_sample_frontend : frontend.

Lemma track_best_sample_frontend e f sf :
  frontend (track_best_sample e f sf) = frontend e.
Proof. unfold track_best_sample. frontend_step. Qed.
#[global] Hint Rewrite track_best_sample_frontend : frontend.

Lemma choose_next_quality_frontend e host f sf :
  frontend (choose_next_quality e host f sf) = frontend e.
Proof. unfold choose_next_quality. frontend_step. Qed.
#[global] Hint Rewrite choose_next_quality_frontend : frontend.

Lemma eval_quality_frontend e host :
  frontend (mjpeg_encoder_eval_quality e host) = frontend e.
Proof. unfold mjpeg_encoder_eval_quality. frontend_step. Qed.
#[global] Hint Rewrite eval_quality_frontend : frontend.

Lemma quality_eval_set_upgrade_frontend e r q f :
  frontend (mjpeg_encoder_quality_eval_set_upgrade e r q f) = frontend e.
Proof. reflexivity. Qed.
#[global] Hint Rewrite quality_eval_set_upgrade_frontend : frontend.

Lemma quality_eval_set_downgrade_frontend e r q f :
  frontend (mjpeg_encoder_quality_eval_set_downgrade e r q f) = frontend e.
Proof. reflexivity. Qed.
#[global] Hint Rewrite quality_eval_set_downgrade_frontend : frontend.

Lemma quality_eval_stop_frontend e :
  frontend (mjpeg_encoder_quality_eval_stop e) = frontend e.
Proof.
  unfold mjpeg_encoder_quality_eval_stop. cbv zeta. case_if; [reflexivity|].
  destruct (type _); reflexivity.
Qed.
#[global] Hint Rewrite quality_eval_stop_frontend : frontend.

Lemma adjust_fps_frontend e host now :
  frontend (mjpeg_encoder_adjust_fps e host now) = frontend e.
Proof. unfold mjpeg_encoder_adjust_fps. frontend_step. Qed.
#[global] Hint Rewrite adjust_fps_frontend : frontend.

Lemma start_frame_pacing_frontend e host now :
  frontend (start_frame_pacing e host now) = frontend e.
Proof. unfold start_frame_pacing. frontend_step. Qed.
#[global] Hint Rewrite start_frame_pacing_frontend : frontend.

Lemma stamp_frame_time_frontend e now mm :
  frontend (stamp_frame_time e now mm) = frontend e.
Proof. unfold stamp_frame_time. frontend_step. Qed.
#[global] Hint Rewrite stamp_frame_time_frontend : frontend.

Lemma decrease_bit_rate_tail_frontend u e rc :
  frontend (decrease_bit_rate_tail u e rc) = frontend e.
Proof. unfold decrease_bit_rate_tail. frontend_step. Qed.
#[global] Hint Rewrite decrease_bit_rate_tail_frontend : frontend.

Lemma decrease_bit_rate_frontend u e now :
  frontend (mjpeg_encoder_decrease_bit_rate u e now) = frontend e.
Proof. unfold mjpeg_encoder_decrease_bit_rate. frontend_step. Qed.
#[global] Hint Rewrite decrease_bit_rate_frontend : frontend.

Lemma handle_negative_frontend u e now t :
  frontend (mjpeg_encoder_handle_negative_client_stream_report u e now t)
  = frontend e.
Proof.
  unfold mjpeg_encoder_handle_negative_client_stream_report. frontend_step.
Qed.
#[global] Hint Rewrite handle_negative_frontend : frontend.

Lemma increase_bit_rate_frontend u e :
  frontend (mjpeg_encoder_increase_bit_rate u e) = frontend e.
Proof. unfold mjpeg_encoder_increase_bit_rate. frontend_step. Qed.
#[global] Hint Rewrite increase_bit_rate_frontend : frontend.

Lemma handle_positive_frontend u e host t :
  frontend (mjpeg_encoder_handle_positive_client_stream_report u e host t)
  = frontend e.
Proof.
  unfold mjpeg_encoder_handle_positive_client_stream_report. frontend_step.
Qed.
#[global] Hint Rewrite handle_positive_frontend : frontend.

Lemma process_server_drops_frontend u e host now :
  frontend (mjpeg_encoder_process_server_drops u e host now) = frontend e.
Proof. unfold mjpeg_encoder_process_server_drops. frontend_step. Qed.
#[global] Hint Rewrite process_server_drops_frontend : frontend.

Lemma notify_server_frame_drop_frontend u e host now :
  frontend (mjpeg_encoder_notify_server_frame_drop u e host now)
  = frontend e.
Proof. unfold mjpeg_encoder_notify_server_frame_drop. frontend_step. Qed.
#[global] Hint Rewrite notify_server_frame_drop_frontend : frontend.

Lemma record_sample_and_eval_frontend e host size :
  frontend (record_sample_and_eval e host size) = frontend e.
Proof. unfold record_sample_and_eval. frontend_step. Qed.
#[global] Hint Rewrite record_sample_and_eval_frontend : frontend.

Lemma adjust_params_end_frontend u e host now size :
  frontend (adjust_params_end u e host now size) = frontend e.
Proof. unfold adjust_params_end. frontend_step. Qed.
#[global] Hint Rewrite adjust_params_end_frontend : frontend.

Lemma adjust_params_to_bit_rate_frontend u e host now :
  frontend (mjpeg_encoder_adjust_params_to_bit_rate u e host now)
  = frontend e.
Proof. unfold mjpeg_encoder_adjust_params_to_bit_rate. frontend_step. Qed.
#[global] Hint Rewrite adjust_params_to_bit_rate_frontend : frontend.

Lemma client_stream_report_frontend u e host now nf nd st en delay audio :
  frontend
    (mjpeg_encoder_client_stream_report u e host now nf nd st en delay
       audio)
  = frontend e.
Proof. unfold mjpeg_encoder_client_stream_report. frontend_step. Qed.

Lemma encode_scanline_frontend e written :
  frontend (snd (mjpeg_encoder_encode_scanline e written)) = frontend e.
Proof. unfold mjpeg_encoder_encode_scanline. case_if; reflexivity. Qed.

Lemma encode_rows_frontend rows :
  forall i e jpeg chunks offset chunk stride,
    frontend (snd (encode_rows rows i e jpeg chunks offset chunk stride))
    = frontend e.
Proof.
  induction rows as [|rows IH]; intros i e jpeg chunks offset chunk stride;
    cbn [encode_rows]; [reflexivity|].
  destruct (get_image_line _ _ _ _) as [[line offset'] chunk'].
  destruct line; cbn [negb]; [|reflexivity].
  unfold mjpeg_encoder_encode_scanline.
  case_if; [reflexivity|]. case_if; [reflexivity|]. apply IH.
Qed.

Lemma encode_frame_frontend e jpeg src image top_down :
  frontend (snd (encode_frame e jpeg src image top_down)) = frontend e.
Proof.
  unfold encode_frame. cbv zeta.
  destruct (skip_image_lines _ _ _ _ _) as [offset chunk].
  apply encode_rows_frontend.
Qed.

(** X5: a client stream report and a server-drop notification change
    nothing of the encoder outside its rate control: the row buffer, the
    libjpeg settings, the pixel format, the callbacks and the statistics stay
    as they are. *)
Theorem reports_leave_frontend u encoder host now nf nd st en delay audio :
  frontend
    (mjpeg_encoder_client_stream_report u encoder host now nf nd st en delay
       audio)
  = frontend encoder
  /\ frontend (mjpeg_encoder_notify_server_frame_drop u encoder host now)
     = frontend encoder.
Proof.
  split.
  - apply client_stream_report_frontend.
  - apply notify_server_frame_drop_frontend.
Qed.

(** ** Construction and queries *)

Lemma frontend_fields e e' :
  frontend e' = frontend e ->
  cbs e' = cbs e /\ starting_bit_rate e' = starting_bit_rate e
  /\ avg_quality e' = avg_quality e /\ num_frames e' = num_frames e.
Proof.
  unfold frontend. intros H. injection H as _ _ _ _ _ Hc Hs Ha Hn.
  auto.
Qed.

Lemma new_encoder_computed sbr new_cbs now :
  option_map
    (fun e => (byte_rate (rate_control e), starting_bit_rate e, cbs e,
               warmup_start_time (rate_control e)))
    (mjpeg_encoder_new SPICE_VIDEO_CODEC_TYPE_MJPEG sbr new_cbs now)
  = Some (sbr / 8, sbr, new_cbs, now).
Proof. reflexivity. Qed.

Lemma new_encoder_fields sbr new_cbs now encoder :
  mjpeg_encoder_new SPICE_VIDEO_CODEC_TYPE_MJPEG sbr new_cbs now
  = Some encoder ->
  byte_rate (rate_control encoder) = sbr / 8
  /\ starting_bit_rate encoder = sbr
  /\ cbs encoder = new_cbs
  /\ warmup_start_time (rate_control encoder) = now.
Proof.
  intros Hnew. pose proof (new_encoder_computed sbr new_cbs now) as H.
  rewrite Hnew in H. cbn [option_map] in H.
  injection H as Hb Hs Hc Hw. auto.
Qed.

(** X4: on the encoder that [mjpeg_encoder_new] returns,
    [mjpeg_encoder_get_stats] reports the starting bit rate as it was given
    and, as current bit rate, the starting bit rate rounded down to a
    multiple of 8 (the byte rate is the eighth of it, truncated). *)
Theorem new_encoder_bit_rates sbr cbs now encoder :
  0 <= sbr < 2 ^ 64 ->
  mjpeg_encoder_new SPICE_VIDEO_CODEC_TYPE_MJPEG sbr cbs now = Some encoder ->
  stats_starting_bit_rate (mjpeg_encoder_get_stats encoder) = sbr
  /\ stats_cur_bit_rate (mjpeg_encoder_get_stats encoder) = sbr - sbr mod 8
  /\ mjpeg_encoder_get_bit_rate encoder = sbr - sbr mod 8.
Proof.
  intros Hs Hnew.
  destruct (new_encoder_fields _ _ _ _ Hnew) as (Hb & Hsbr & _).
  unfold mjpeg_encoder_get_stats, mjpeg_encoder_get_bit_rate.
  cbn [stats_starting_bit_rate stats_cur_bit_rate]. rewrite Hb, Hsbr.
  assert (H : to_uint64 (sbr / 8 * 8) = sbr - sbr mod 8).
  { rewrite to_uint64_small; Z.div_mod_to_equations; lia. }
  split; [reflexivity|]. split; exact H.
Qed.

Lemma new_encoder_bit_rates_witness :
  stats_starting_bit_rate
    (mjpeg_encoder_get_stats (new_encoder 8000005 (seconds 1))) = 8000005
  /\ stats_cur_bit_rate
       (mjpeg_encoder_get_stats (new_encoder 8000005 (seconds 1)))
     = 8000005 - 8000005 mod 8
  /\ mjpeg_encoder_get_bit_rate (new_encoder 8000005 (seconds 1))
     = 8000005 - 8000005 mod 8.
Proof.
  apply (new_encoder_bit_rates 8000005 example_cbs (seconds 1)).
  - lia.
  - reflexivity.
Defined.

(** ** Statistics *)

Lemma select_pixel_format_config jcs e format e' :
  select_pixel_format jcs e format = Some e' ->
  cbs e' = cbs e /\ starting_bit_rate e' = starting_bit_rate e
  /\ avg_quality e' = avg_quality e /\ num_frames e' = num_frames e.
Proof.
  unfold select_pixel_format.
  destruct format, jcs; intros H; inversion H; auto.
Qed.

(** The table of qualities holds values from 20 to 80. *)
Lemma quality_sample_range q :
  0 <= q < MJPEG_QUALITY_SAMPLE_NUM ->
  20 <= array_get mjpeg_quality_samples q <= 80.
Proof.
  unfold MJPEG_QUALITY_SAMPLE_NUM. intros Hq.
  assert (q = 0 \/ q = 1 \/ q = 2 \/ q = 3 \/ q = 4 \/ q = 5 \/ q = 6)
    as H by lia.
  destruct H as [-> | [-> | [-> | [-> | [-> | [-> | ->] ] ] ] ] ];
    vm_compute; split; discriminate.
Qed.

(** What [mjpeg_encoder_start_frame] does to the statistics once the frame
    is admitted: nothing, or one frame more with its quality. *)
Lemma start_compress_stats jcs e format src :
  rate_control_wf (rate_control e) ->
  let e' := snd (start_compress jcs e format src) in
  cbs e' = cbs e /\ starting_bit_rate e' = starting_bit_rate e
  /\ ((num_frames e' = num_frames e /\ avg_quality e' = avg_quality e)
      \/ exists q,
           20 <= q <= 80
           /\ num_frames e' = to_uint32 (num_frames e + 1)
           /\ avg_quality e' = to_uint64 (avg_quality e + q)).
Proof.
  intros Hwf. unfold start_compress. cbv zeta.
  destruct (select_pixel_format _ _ _) as [e1|] eqn:Hsel.
  - pose proof (select_pixel_format_rate_control _ _ _ _ Hsel) as Hrc.
    apply select_pixel_format_config in Hsel.
    destruct Hsel as (Hc & Hs & Ha & Hn). fields_in Hc. fields_in Hs.
    fields_in Ha. fields_in Hn. fields_in Hrc.
    assert (Hq := quality_sample_range _ (wf_quality_id _ Hwf)).
    case_if; fields; [auto|].
    split; [|split; [|right]].
    + destruct (pixel_converter e1); [case_if|]; fields; exact Hc.
    + destruct (pixel_converter e1); [case_if|]; fields; exact Hs.
    + exists (array_get mjpeg_quality_samples (quality_id (rate_control e))).
      split; [exact Hq|].
      destruct (pixel_converter e1); [case_if|]; fields;
        rewrite ?Hrc, Hn, Ha; split; reflexivity.
  - fields. auto.
Qed.

Lemma end_frame_config e jpeg :
  cbs (mjpeg_encoder_end_frame e jpeg) = cbs e
  /\ starting_bit_rate (mjpeg_encoder_end_frame e jpeg) = starting_bit_rate e
  /\ avg_quality (mjpeg_encoder_end_frame e jpeg) = avg_quality e
  /\ num_frames (mjpeg_encoder_end_frame e jpeg) = num_frames e.
Proof. split; [|split; [|split]]; reflexivity. Qed.

Lemma wf_encoder_ok e :
  rate_control_wf (rate_control e) -> encoder_ok false e.
Proof. intros H. split; [exact H|discriminate]. Qed.

Lemma window_ok_false u e : window_ok u false e.
Proof. discriminate. Qed.

(** The state in which an admitted frame reaches the JPEG setup. *)
Lemma start_frame_stats u jcs e host now now_dec format src mm :
  rate_control_wf (rate_control e) ->
  let e' :=
    snd (mjpeg_encoder_start_frame u jcs e host now now_dec format src mm) in
  cbs e' = cbs e /\ starting_bit_rate e' = starting_bit_rate e
  /\ ((num_frames e' = num_frames e /\ avg_quality e' = avg_quality e)
      \/ exists q,
           20 <= q <= 80
           /\ num_frames e' = to_uint32 (num_frames e + 1)
           /\ avg_quality e' = to_uint64 (avg_quality e + q)).
Proof.
  intros Hwf. unfold mjpeg_encoder_start_frame. cbv zeta.
  destruct (frontend_fields _ _ (start_frame_pacing_frontend e host now))
    as (Hc1 & Hs1 & Ha1 & Hn1).
  case_if; cbn [snd]; [auto|].
  set (e1 := start_frame_pacing e host now) in *.
  set (e2 := mjpeg_encoder_adjust_params_to_bit_rate u e1 host now_dec).
  set (e3 := stamp_frame_time e2 now mm).
  destruct (frontend_fields _ _
              (adjust_params_to_bit_rate_frontend u e1 host now_dec))
    as (Hc2 & Hs2 & Ha2 & Hn2).
  destruct (frontend_fields _ _ (stamp_frame_time_frontend e2 now mm))
    as (Hc3 & Hs3 & Ha3 & Hn3).
  fold e2 in Hc2, Hs2, Ha2, Hn2. fold e3 in Hc3, Hs3, Ha3, Hn3.
  assert (Hwf3 : rate_control_wf (rate_control e3)).
  { apply (stamp_frame_time_ok false).
    apply (adjust_params_to_bit_rate_ok u false);
      [|apply window_ok_false].
    apply (start_frame_pacing_ok false). now apply wf_encoder_ok. }
  destruct (start_compress_stats jcs e3 format src Hwf3)
    as (Hc & Hs & Hst).
  rewrite Hc, Hs, Hc3, Hs3, Hc2, Hs2, Hc1, Hs1.
  split; [reflexivity|]. split; [reflexivity|].
  rewrite Hn3, Hn2, Hn1, Ha3, Ha2, Ha1 in Hst. exact Hst.
Qed.

Lemma encode_frame_stats u jcs e host now now_dec buffer jpeg mm bitmap src
  top_down :
  rate_control_wf (rate_control e) ->
  let e' :=
    snd (mjpeg_encoder_encode_frame u jcs e host now now_dec buffer jpeg mm
           bitmap src top_down) in
  cbs e' = cbs e /\ starting_bit_rate e' = starting_bit_rate e
  /\ ((num_frames e' = num_frames e /\ avg_quality e' = avg_quality e)
      \/ exists q,
           20 <= q <= 80
           /\ num_frames e' = to_uint32 (num_frames e + 1)
           /\ avg_quality e' = to_uint64 (avg_quality e + q)).
Proof.
  intros Hwf. unfold mjpeg_encoder_encode_frame.
  destruct buffer; cbn [negb snd]; [|auto].
  pose proof (start_frame_stats u jcs e host now now_dec (format bitmap) src
                mm Hwf) as H.
  cbv zeta in H.
  destruct (mjpeg_encoder_start_frame _ _ _ _ _ _ _ _ _) as [ret e1].
  cbn [snd] in H.
  destruct ret; cbn [snd]; try exact H.
  destruct (frontend_fields _ _
              (encode_frame_frontend e1 jpeg src bitmap top_down))
    as (Hc & Hs & Ha & Hn).
  destruct (encode_frame _ _ _ _ _) as [ok e2]. cbn [snd] in *.
  destruct ok; cbn [snd].
  - destruct (end_frame_config e2 jpeg) as (Hc' & Hs' & Ha' & Hn').
    rewrite Hc', Hs', Ha', Hn', Hc, Hs, Ha, Hn. exact H.
  - rewrite Hc, Hs, Ha, Hn. exact H.
Qed.

Lemma run_event_stats u jcs e ev :
  rate_control_wf (rate_control e) ->
  let e' := run_event u jcs e ev in
  cbs e' = cbs e /\ starting_bit_rate e' = starting_bit_rate e
  /\ ((num_frames e' = num_frames e /\ avg_quality e' = avg_quality e)
      \/ exists q,
           20 <= q <= 80
           /\ num_frames e' = to_uint32 (num_frames e + 1)
           /\ avg_quality e' = to_uint64 (avg_quality e + q)).
Proof.
  intros Hwf.
  destruct ev as [host now now_dec buffer jpeg mm bitmap src top_down
                 |host now nf nd st en delay audio|host now];
    cbn [run_event].
  - now apply encode_frame_stats.
  - cbv zeta.
    destruct (frontend_fields _ _
                (client_stream_report_frontend u e host now nf nd st en
                   delay audio))
      as (Hc & Hs & Ha & Hn).
    auto.
  - cbv zeta.
    destruct (frontend_fields _ _
                (notify_server_frame_drop_frontend u e host now))
      as (Hc & Hs & Ha & Hn).
    auto.
Qed.

Lemma run_events_stats u jcs events :
  forall e k,
    rate_control_wf (rate_control e) ->
    0 <= num_frames e <= k ->
    k + Z.of_nat (length events) < 2 ^ 32 ->
    20 * num_frames e <= avg_quality e <= 80 * num_frames e ->
    let e' := run_events u jcs e events in
    cbs e' = cbs e /\ starting_bit_rate e' = starting_bit_rate e
    /\ 0 <= num_frames e' <= k + Z.of_nat (length events)
    /\ 20 * num_frames e' <= avg_quality e' <= 80 * num_frames e'.
Proof.
  induction events as [|ev events IH]; intros e k Hwf Hn Hk Ha.
  - cbn [run_events fold_left length] in *.
    split; [reflexivity|]. split; [reflexivity|]. split; [lia|exact Ha].
  - cbn [run_events fold_left length] in *.
    destruct (run_event_stats u jcs e ev Hwf) as (Hc & Hs & Hst).
    assert (Hwf' : rate_control_wf (rate_control (run_event u jcs e ev))).
    { apply (run_event_ok u jcs false);
        [now apply wf_encoder_ok|apply window_ok_false]. }
    assert (Hstep :
              0 <= num_frames (run_event u jcs e ev) <= k + 1
              /\ 20 * num_frames (run_event u jcs e ev)
                 <= avg_quality (run_event u jcs e ev)
                 <= 80 * num_frames (run_event u jcs e ev)).
    { destruct Hst as [[Hn' Ha']|(q & Hq & Hn' & Ha')].
      - rewrite Hn', Ha'. lia.
      - rewrite Hn', Ha'.
        rewrite to_uint32_small by lia.
        rewrite to_uint64_small; [lia|].
        change (2 ^ 64) with (2 ^ 32 * 2 ^ 32).
        change (2 ^ 32) with 4294967296 in *. lia. }
    destruct Hstep as [Hn1 Ha1].
    specialize (IH (run_event u jcs e ev) (k + 1) Hwf' Hn1 ltac:(lia) Ha1).
    cbv zeta in IH. unfold run_events in IH.
    destruct IH as (Hc' & Hs' & Hn2 & Ha2).
    rewrite Hc', Hs', Hc, Hs.
    split; [reflexivity|]. split; [reflexivity|]. split; [lia|exact Ha2].
Qed.

Lemma start_compress_config jcs e format src :
  cbs (snd (start_compress jcs e format src)) = cbs e
  /\ starting_bit_rate (snd (start_compress jcs e format src))
     = starting_bit_rate e.
Proof.
  unfold start_compress. cbv zeta.
  destruct (select_pixel_format _ _ _) as [e1|] eqn:Hsel;
    [|split; reflexivity].
  apply select_pixel_format_config in Hsel.
  destruct Hsel as (Hc & Hs & _). fields_in Hc. fields_in Hs.
  case_if; fields; [auto|].
  destruct (pixel_converter e1); [case_if|]; fields; auto.
Qed.

Lemma encode_frame_config u jcs e host now now_dec buffer jpeg mm bitmap src
  top_down :
  let e' :=
    snd (mjpeg_encoder_encode_frame u jcs e host now now_dec buffer jpeg mm
           bitmap src top_down) in
  cbs e' = cbs e /\ starting_bit_rate e' = starting_bit_rate e.
Proof.
  cbv zeta. unfold mjpeg_encoder_encode_frame, mjpeg_encoder_start_frame.
  destruct buffer; cbn [negb snd]; [|auto]. cbv zeta.
  destruct (frontend_fields _ _ (start_frame_pacing_frontend e host now))
    as (Hc1 & Hs1 & _).
  set (e1 := start_frame_pacing e host now) in *.
  case_if; cbn [snd]; [auto|].
  destruct (frontend_fields _ _
              (adjust_params_to_bit_rate_frontend u e1 host now_dec))
    as (Hc2 & Hs2 & _).
  set (e2 := mjpeg_encoder_adjust_params_to_bit_rate u e1 host now_dec) in *.
  destruct (frontend_fields _ _ (stamp_frame_time_frontend e2 now mm))
    as (Hc3 & Hs3 & _).
  set (e3 := stamp_frame_time e2 now mm) in *.
  destruct (start_compress_config jcs e3 (format bitmap) src) as (Hc4 & Hs4).
  destruct (start_compress jcs e3 (format bitmap) src) as [ret e4].
  cbn [snd] in Hc4, Hs4.
  assert (cbs e4 = cbs e /\ starting_bit_rate e4 = starting_bit_rate e)
    as H4 by (split; congruence).
  destruct ret; cbn [snd]; try exact H4.
  destruct (frontend_fields _ _
              (encode_frame_frontend e4 jpeg src bitmap top_down))
    as (Hc5 & Hs5 & _).
  destruct (encode_frame _ _ _ _ _) as [ok e5]. cbn [snd] in *.
  destruct ok; cbn [snd]; [|split; congruence].
  destruct (end_frame_config e5 jpeg) as (Hc6 & Hs6 & _).
  split; congruence.
Qed.

Lemma run_event_config u jcs e ev :
  cbs (run_event u jcs e ev) = cbs e
  /\ starting_bit_rate (run_event u jcs e ev) = starting_bit_rate e.
Proof.
  destruct ev as [host now now_dec buffer jpeg mm bitmap src top_down
                 |host now nf nd st en delay audio|host now];
    cbn [run_event].
  - apply encode_frame_config.
  - destruct (frontend_fields _ _
                (client_stream_report_frontend u e host now nf nd st en
                   delay audio))
      as (Hc & Hs & _).
    auto.
  - destruct (frontend_fields _ _
                (notify_server_frame_drop_frontend u e host now))
      as (Hc & Hs & _).
    auto.
Qed.

(** X6: no frame, client report or server-drop notification changes the
    callbacks or the starting bit rate of the encoder: after any run,
    [mjpeg_encoder_get_stats] still reports the starting bit rate of the
    state the run began in. *)
Theorem run_keeps_configuration u jcs encoder events :
  cbs (run_events u jcs encoder events) = cbs encoder
  /\ stats_starting_bit_rate
       (mjpeg_encoder_get_stats (run_events u jcs encoder events))
     = starting_bit_rate encoder.
Proof.
  unfold mjpeg_encoder_get_stats. cbn [stats_starting_bit_rate].
  revert encoder.
  induction events as [|ev events IH]; intros encoder;
    cbn [run_events fold_left]; [split; reflexivity|].
  destruct (run_event_config u jcs encoder ev) as (Hc & Hs).
  destruct (IH (run_event u jcs encoder ev)) as (Hc' & Hs').
  unfold run_events in Hc', Hs'. split; congruence.
Qed.

(** X7: in every state reached from construction by fewer than 2^32
    events, the frames counted are at most the events of the run and the
    sum of their qualities lies between 20 and 80 times their number: the
    average that [mjpeg_encoder_get_stats] divides out is an average of
    values of the quality table. *)
Theorem average_quality_bounds u jcs sbr new_cbs now encoder events :
  0 <= sbr < 2 ^ 64 ->
  mjpeg_encoder_new SPICE_VIDEO_CODEC_TYPE_MJPEG sbr new_cbs now
  = Some encoder ->
  Z.of_nat (length events) < 2 ^ 32 ->
  let e := run_events u jcs encoder events in
  0 <= num_frames e <= Z.of_nat (length events)
  /\ 20 * num_frames e <= avg_quality e <= 80 * num_frames e.
Proof.
  intros Hs Hnew Hlen.
  destruct (new_encoder_has_no_frames _ _ _ _ Hnew) as [Hn Ha].
  assert (Hwf : rate_control_wf (rate_control encoder)).
  { apply (reachable_rate_control_wf u jcs sbr new_cbs now encoder []);
      assumption. }
  destruct (run_events_stats u jcs events encoder 0 Hwf)
    as (_ & _ & Hn' & Ha'); try lia.
  split; [lia|exact Ha'].
Qed.

Lemma average_quality_bounds_witness :
  let e :=
    run_events example_undefined_uint64 false example_encoder
      busy_stream_frames in
  0 <= num_frames e <= Z.of_nat (length busy_stream_frames)
  /\ 20 * num_frames e <= avg_quality e <= 80 * num_frames e.
Proof.
  apply (average_quality_bounds example_undefined_uint64 false 8000000
           example_cbs (seconds 1)).
  - lia.
  - reflexivity.
  - vm_compute. reflexivity.
Defined.

(** ** Bounds of the tables and of the frame rate *)

(** X8: in every state reached from construction the quality index, the
    index of the best sample and the bounds of the evaluation lie within the
    [MJPEG_QUALITY_SAMPLE_NUM] entries of [mjpeg_quality_samples] and of
    [encoded_size_by_quality], which keeps its seven entries: no lookup
    of the controller leaves the two tables. *)
Theorem quality_id_in_range u jcs sbr new_cbs now encoder events :
  0 <= sbr < 2 ^ 64 ->
  mjpeg_encoder_new SPICE_VIDEO_CODEC_TYPE_MJPEG sbr new_cbs now
  = Some encoder ->
  let rc := rate_control (run_events u jcs encoder events) in
  0 <= quality_id rc < MJPEG_QUALITY_SAMPLE_NUM
  /\ 0 <= max_sampled_fps_quality_id (quality_eval_data rc)
     < MJPEG_QUALITY_SAMPLE_NUM
  /\ 0 <= min_quality_id (quality_eval_data rc) < MJPEG_QUALITY_SAMPLE_NUM
  /\ 0 <= max_quality_id (quality_eval_data rc) < MJPEG_QUALITY_SAMPLE_NUM
  /\ length (encoded_size_by_quality (quality_eval_data rc))
     = length mjpeg_quality_samples.
Proof.
  intros Hs Hnew.
  destruct (reachable_rate_control_wf u jcs sbr new_cbs now encoder events
              Hs Hnew).
  cbv zeta. auto.
Qed.

Lemma quality_id_in_range_witness :
  let rc := rate_control busy_encoder in
  0 <= quality_id rc < MJPEG_QUALITY_SAMPLE_NUM
  /\ 0 <= max_sampled_fps_quality_id (quality_eval_data rc)
     < MJPEG_QUALITY_SAMPLE_NUM
  /\ 0 <= min_quality_id (quality_eval_data rc) < MJPEG_QUALITY_SAMPLE_NUM
  /\ 0 <= max_quality_id (quality_eval_data rc) < MJPEG_QUALITY_SAMPLE_NUM
  /\ length (encoded_size_by_quality (quality_eval_data rc))
     = length mjpeg_quality_samples.
Proof.
  apply (quality_id_in_range example_undefined_uint64 false 8000000
           example_cbs (seconds 1) example_encoder busy_stream_frames).
  - lia.
  - reflexivity.
Defined.

(** X9: in every state reached from construction the frame rate is at
    least [MJPEG_MIN_FPS] and at most [MJPEG_MAX_FPS]; in particular the
    division by [fps] in [mjpeg_encoder_decrease_bit_rate] never divides by
    zero. *)
Theorem fps_in_range u jcs sbr new_cbs now encoder events :
  0 <= sbr < 2 ^ 64 ->
  mjpeg_encoder_new SPICE_VIDEO_CODEC_TYPE_MJPEG sbr new_cbs now
  = Some encoder ->
  MJPEG_MIN_FPS <= fps (rate_control (run_events u jcs encoder events))
  <= MJPEG_MAX_FPS.
Proof.
  intros Hs Hnew.
  apply (reachable_rate_control_wf u jcs sbr new_cbs now encoder events
           Hs Hnew).
Qed.

Lemma fps_in_range_witness :
  MJPEG_MIN_FPS <= fps (rate_control busy_encoder) <= MJPEG_MAX_FPS.
Proof.
  apply (fps_in_range example_undefined_uint64 false 8000000 example_cbs
           (seconds 1) example_encoder busy_stream_frames).
  - lia.
  - reflexivity.
Defined.

(** ** The server-drop monitor *)

(** The quotient of the double zero by any double is a zero or a NaN, and
    neither exceeds a positive threshold. *)
Lemma zero_quotient_below x :
  PrimFloat.ltb MJPEG_SERVER_STATUS_DOWNGRADE_DROP_FACTOR_TH
    (double_of_Z 0 / x) = false.
Proof.
  rewrite ltb_spec, div_spec.
  change (Prim2SF (double_of_Z 0)) with (S754_zero false).
  destruct (Prim2SF x) as [[|]|[|]| |[|] m e]; reflexivity.
Qed.

(** X10: with no server drop counted, [mjpeg_encoder_process_server_drops]
    never lowers the bit rate: it returns the encoder as it is, or with the
    two counters of the server state cleared when the evaluation interval
    has passed. *)
Theorem process_server_drops_without_drops u encoder host now :
  num_frames_dropped (server_state (rate_control encoder)) = 0 ->
  mjpeg_encoder_process_server_drops u encoder host now = encoder
  \/ mjpeg_encoder_process_server_drops u encoder host now
     = set_rate_control encoder
         (set_server_state (rate_control encoder) cleared_server_state).
Proof.
  intros Hd. unfold mjpeg_encoder_process_server_drops. cbv zeta.
  case_if; [left; reflexivity|]. right.
  rewrite Hd, zero_quotient_below. reflexivity.
Qed.

Lemma process_server_drops_without_drops_witness :
  mjpeg_encoder_process_server_drops example_undefined_uint64 busy_encoder
    example_host (seconds 7) = busy_encoder
  \/ mjpeg_encoder_process_server_drops example_undefined_uint64
       busy_encoder example_host (seconds 7)
     = set_rate_control busy_encoder
         (set_server_state (rate_control busy_encoder)
            cleared_server_state).
Proof.
  apply process_server_drops_without_drops. vm_compute. reflexivity.
Defined.

(** ** Dropped frames *)

(** The pacing update touches the three pacing fields only. *)
Lemma start_frame_pacing_shape e host now :
  exists a s n,
    start_frame_pacing e host now
    = set_rate_control e
        (set_adjusted_fps_num_frames
           (set_adjusted_fps_start_time
              (set_adjusted_fps (rate_control e) a) s) n).
Proof.
  unfold start_frame_pacing, mjpeg_encoder_adjust_fps. cbv zeta.
  destruct e as [rs ff ci bpp pc rc cb sbr aq nf upd].
  destruct rc as [dqe qe bri cs ss br q f af afs afn bes les sres nref w].
  fields.
  destruct (afs =? 0); fields;
    (case_if; [case_if; [|case_if]|]);
    do 3 eexists;
    unfold set_rate_control, set_adjusted_fps_num_frames,
      set_adjusted_fps_start_time, set_adjusted_fps;
    fields; reflexivity.
Qed.

(** X11: a frame that [mjpeg_encoder_encode_frame] answers with
    [VIDEO_ENCODER_FRAME_DROP] changes nothing of the encoder but the three
    pacing fields [adjusted_fps], [adjusted_fps_start_time] and
    [adjusted_fps_num_frames]: it is not counted in the statistics, the
    accounting window or the server state, and the evaluator does not see
    it. *)
Theorem dropped_frame_changes_pacing_only u jcs encoder host now now_dec
  buffer jpeg mm bitmap src top_down :
  fst (mjpeg_encoder_encode_frame u jcs encoder host now now_dec buffer jpeg
         mm bitmap src top_down) = VIDEO_ENCODER_FRAME_DROP ->
  exists a s n,
    snd (mjpeg_encoder_encode_frame u jcs encoder host now now_dec buffer
           jpeg mm bitmap src top_down)
    = set_rate_control encoder
        (set_adjusted_fps_num_frames
           (set_adjusted_fps_start_time
              (set_adjusted_fps (rate_control encoder) a) s) n).
Proof.
  unfold mjpeg_encoder_encode_frame.
  destruct buffer; cbn [negb fst snd]; [|discriminate].
  pose proof (start_frame_drop_state u jcs encoder host now now_dec
                (format bitmap) src mm) as Hstate.
  destruct (mjpeg_encoder_start_frame _ _ _ _ _ _ _ _ _) as [ret e1].
  cbn [fst snd] in Hstate.
  destruct ret; cbn [fst snd]; try discriminate.
  - intros _. rewrite Hstate by reflexivity. apply start_frame_pacing_shape.
  - destruct (encode_frame _ _ _ _ _) as [ok e2].
    destruct ok; discriminate.
Qed.

Lemma dropped_frame_changes_pacing_only_witness :
  exists a s n,
    snd (mjpeg_encoder_encode_frame example_undefined_uint64 false
           busy_encoder example_host (milliseconds 6460) (milliseconds 6460)
           true (jpeg_success 90000) 5460
           (example_bitmap SPICE_BITMAP_FMT_32BIT) example_rect true)
    = set_rate_control busy_encoder
        (set_adjusted_fps_num_frames
           (set_adjusted_fps_start_time
              (set_adjusted_fps (rate_control busy_encoder) a) s) n).
Proof.
  apply dropped_frame_changes_pacing_only. vm_compute. reflexivity.
Defined.

(** ** Cancelled evaluations *)

Lemma fps_clamp_id f :
  MJPEG_MIN_FPS <= f <= MJPEG_MAX_FPS ->
  MIN MJPEG_MAX_FPS (MAX MJPEG_MIN_FPS f) = f.
Proof.
  unfold MIN, MAX, MJPEG_MIN_FPS, MJPEG_MAX_FPS. intros Hf.
  rewrite Z.gtb_ltb.
  destruct (Z.ltb_spec f 1); [lia|].
  destruct (Z.ltb_spec 25 f); lia.
Qed.

(** What [mjpeg_encoder_reset_quality] makes of the quality, the frame rate
    and the size of the last frame. *)
Lemma reset_quality_fields e q f s :
  let rc := rate_control (mjpeg_encoder_reset_quality e q f s) in
  during_quality_eval rc = false
  /\ quality_id rc = q
  /\ fps rc = MIN MJPEG_MAX_FPS (MAX MJPEG_MIN_FPS f)
  /\ last_enc_size rc
     = (if negb (quality_id (rate_control e) =? q) then 0
        else last_enc_size (rate_control e))
  /\ encoded_size_by_quality (quality_eval_data rc) = [0; 0; 0; 0; 0; 0; 0].
Proof.
  unfold mjpeg_encoder_reset_quality. cbv zeta.
  destruct (negb _), (is_rate_change _); fields;
    (split; [|split; [|split; [|split]]]); reflexivity.
Qed.

Lemma quality_eval_stop_upgrade e :
  during_quality_eval (rate_control e) = true ->
  type (quality_eval_data (rate_control e))
  = MJPEG_QUALITY_EVAL_TYPE_UPGRADE ->
  mjpeg_encoder_quality_eval_stop e
  = mjpeg_encoder_reset_quality e
      (to_int (to_uint32 (min_quality_id (quality_eval_data (rate_control e)))))
      (to_uint32 (min_quality_fps (quality_eval_data (rate_control e)))) 0.
Proof.
  intros Hd Ht. unfold mjpeg_encoder_quality_eval_stop. cbv zeta.
  rewrite Hd, Ht. reflexivity.
Qed.

Lemma quality_eval_stop_downgrade e :
  during_quality_eval (rate_control e) = true ->
  type (quality_eval_data (rate_control e))
  = MJPEG_QUALITY_EVAL_TYPE_DOWNGRADE ->
  mjpeg_encoder_quality_eval_stop e
  = mjpeg_encoder_reset_quality e
      (to_int (to_uint32 (max_quality_id (quality_eval_data (rate_control e)))))
      (to_uint32 (max_quality_fps (quality_eval_data (rate_control e)))) 0.
Proof.
  intros Hd Ht. unfold mjpeg_encoder_quality_eval_stop. cbv zeta.
  rewrite Hd, Ht. reflexivity.
Qed.

(** ** After a decrease of the bit rate *)

Lemma decrease_bit_rate_tail_fields u e rc :
  let rc' := rate_control (decrease_bit_rate_tail u e rc) in
  during_quality_eval rc' = true
  /\ type (quality_eval_data rc') = MJPEG_QUALITY_EVAL_TYPE_DOWNGRADE
  /\ reason (quality_eval_data rc') = MJPEG_QUALITY_EVAL_REASON_RATE_CHANGE
  /\ bit_rate_info rc' = reset_bit_rate_info false
  /\ client_state rc' = client_state rc
  /\ warmup_start_time rc' = warmup_start_time rc.
Proof.
  unfold decrease_bit_rate_tail. cbv zeta.
  destruct (enough_frames_for_estimate rc); cbv beta iota;
    unfold mjpeg_encoder_quality_eval_set_downgrade; fields;
    (split; [|split; [|split; [|split; [|split]]]]); reflexivity.
Qed.

(** Outside the warm-up [mjpeg_encoder_decrease_bit_rate] always reaches
    the re-estimation. *)
Lemma decrease_bit_rate_past_warmup u e now :
  warmup_start_time (rate_control e) = 0
  \/ MJPEG_WARMUP_TIME
     <= to_uint64 (now - warmup_start_time (rate_control e)) ->
  exists rc,
    mjpeg_encoder_decrease_bit_rate u e now
    = decrease_bit_rate_tail u (mjpeg_encoder_quality_eval_stop e) rc
    /\ client_state rc = cleared_client_state
    /\ warmup_start_time rc = 0.
Proof.
  intros Hw. unfold mjpeg_encoder_decrease_bit_rate. cbv zeta.
  destruct (quality_eval_stop_same_rate e) as (_ & _ & Hws).
  fields. rewrite Hws.
  destruct (Z.eqb_spec (warmup_start_time (rate_control e)) 0) as [H0|Hn0];
    cbn [negb].
  - eexists. split; [reflexivity|]. fields. rewrite Hws. auto.
  - destruct Hw as [Hw|Hw]; [contradiction|].
    apply Z.ltb_ge in Hw. rewrite Hw.
    eexists. split; [reflexivity|]. fields. auto.
Qed.

(** X13: a call of [mjpeg_encoder_decrease_bit_rate] outside the warm-up
    (the warm-up stamp is cleared, or at least [MJPEG_WARMUP_TIME] old)
    always ends the warm-up, clears the client state, restarts the
    accounting window and leaves a DOWNGRADE evaluation for a rate change
    in progress; until that evaluation completes,
    [mjpeg_encoder_client_stream_report] returns at once and changes
    nothing, whatever the report says. *)
Theorem reports_ignored_after_decrease u encoder now host now' nf nd st en
  delay audio :
  warmup_start_time (rate_control encoder) = 0
  \/ MJPEG_WARMUP_TIME
     <= to_uint64 (now - warmup_start_time (rate_control encoder)) ->
  let e' := mjpeg_encoder_decrease_bit_rate u encoder now in
  (warmup_start_time (rate_control e') = 0
   /\ client_state (rate_control e') = cleared_client_state
   /\ bit_rate_info (rate_control e') = reset_bit_rate_info false
   /\ during_quality_eval (rate_control e') = true
   /\ type (quality_eval_data (rate_control e'))
      = MJPEG_QUALITY_EVAL_TYPE_DOWNGRADE
   /\ reason (quality_eval_data (rate_control e'))
      = MJPEG_QUALITY_EVAL_REASON_RATE_CHANGE)
  /\ mjpeg_encoder_client_stream_report u e' host now' nf nd st en delay
       audio = e'.
Proof.
  intros Hw. cbv zeta.
  destruct (decrease_bit_rate_past_warmup u encoder now Hw)
    as (rc & -> & Hcs & Hws).
  destruct (decrease_bit_rate_tail_fields u
              (mjpeg_encoder_quality_eval_stop encoder) rc)
    as (Hd & Ht & Hr & Hb & Hc & Hw').
  split.
  - rewrite Hw', Hc, Hws, Hcs, Hb, Hd, Ht, Hr.
    split; [|split; [|split; [|split; [|split]]]]; reflexivity.
  - unfold mjpeg_encoder_client_stream_report. cbv zeta.
    rewrite Hd, Ht, Hr. reflexivity.
Qed.

Lemma reports_ignored_after_decrease_witness :
  let e' :=
    mjpeg_encoder_decrease_bit_rate example_undefined_uint64 busy_encoder
      (seconds 11) in
  (warmup_start_time (rate_control e') = 0
   /\ client_state (rate_control e') = cleared_client_state
   /\ bit_rate_info (rate_control e') = reset_bit_rate_info false
   /\ during_quality_eval (rate_control e') = true
   /\ type (quality_eval_data (rate_control e'))
      = MJPEG_QUALITY_EVAL_TYPE_DOWNGRADE
   /\ reason (quality_eval_data (rate_control e'))
      = MJPEG_QUALITY_EVAL_REASON_RATE_CHANGE)
  /\ mjpeg_encoder_client_stream_report example_undefined_uint64 e'
       example_host (seconds 12) 5 0 6000 6400 100 0 = e'.
Proof.
  apply reports_ignored_after_decrease.
  right. vm_compute. discriminate.
Defined.

(** ** What raises the bit rate *)

Lemma process_server_drops_never_raises u e host now :
  rate_control_wf (rate_control e) ->
  byte_rate (rate_control (mjpeg_encoder_process_server_drops u e host now))
  <= byte_rate (rate_control e).
Proof.
  intros Hwf. unfold mjpeg_encoder_process_server_drops. cbv zeta.
  case_if; [lia|]. case_if; fields; [|lia].
  now apply decrease_bit_rate_never_raises.
Qed.

Lemma adjust_params_end_never_raises u e host now size :
  rate_control_wf (rate_control e) ->
  byte_rate (rate_control (adjust_params_end u e host now size))
  <= byte_rate (rate_control e).
Proof.
  intros Hwf. unfold adjust_params_end. case_if.
  - destruct (record_sample_and_eval_same_rate e host size) as (Hb & _).
    rewrite Hb. lia.
  - now apply process_server_drops_never_raises.
Qed.

Lemma adjust_params_to_bit_rate_never_raises u e host now :
  rate_control_wf (rate_control e) ->
  byte_rate
    (rate_control (mjpeg_encoder_adjust_params_to_bit_rate u e host now))
  <= byte_rate (rate_control e).
Proof.
  intros Hwf. unfold mjpeg_encoder_adjust_params_to_bit_rate. cbv zeta.
  case_if; [lia|].
  case_if.
  { destruct (record_sample_and_eval_same_rate e host
                (last_enc_size (rate_control e))) as (Hb & _).
    rewrite Hb. lia. }
  case_if; [lia|].
  case_if; [now apply adjust_params_end_never_raises|].
  case_if; [|case_if].
  - etransitivity; [apply adjust_params_end_never_raises|].
    + apply (quality_eval_set_upgrade_ok false). now apply wf_encoder_ok.
    + unfold mjpeg_encoder_quality_eval_set_upgrade. fields. lia.
  - etransitivity; [apply adjust_params_end_never_raises|].
    + apply (quality_eval_set_downgrade_ok false). now apply wf_encoder_ok.
    + unfold mjpeg_encoder_quality_eval_set_downgrade. fields. lia.
  - now apply adjust_params_end_never_raises.
Qed.

Lemma stamp_frame_time_byte_rate e now mm :
  byte_rate (rate_control (stamp_frame_time e now mm))
  = byte_rate (rate_control e).
Proof. unfold stamp_frame_time. cbv zeta. case_if; reflexivity. Qed.

Lemma encode_rows_byte_rate rows :
  forall i e jpeg chunks offset chunk stride,
    byte_rate
      (rate_control
         (snd (encode_rows rows i e jpeg chunks offset chunk stride)))
    = byte_rate (rate_control e).
Proof.
  induction rows as [|rows IH]; intros i e jpeg chunks offset chunk stride;
    cbn [encode_rows]; [reflexivity|].
  destruct (get_image_line _ _ _ _) as [[line offset'] chunk'].
  destruct line; cbn [negb]; [|reflexivity].
  unfold mjpeg_encoder_encode_scanline.
  case_if; [reflexivity|]. case_if; [reflexivity|]. apply IH.
Qed.

Lemma end_frame_byte_rate e jpeg :
  byte_rate (rate_control (mjpeg_encoder_end_frame e jpeg))
  = byte_rate (rate_control e).
Proof.
  unfold mjpeg_encoder_end_frame. cbv zeta. fields.
  repeat case_if; reflexivity.
Qed.

Lemma encode_frame_never_raises u jcs e host now now_dec buffer jpeg mm
  bitmap src top_down :
  rate_control_wf (rate_control e) ->
  byte_rate
    (rate_control
       (snd (mjpeg_encoder_encode_frame u jcs e host now now_dec buffer jpeg
               mm bitmap src top_down)))
  <= byte_rate (rate_control e).
Proof.
  intros Hwf. unfold mjpeg_encoder_encode_frame, mjpeg_encoder_start_frame.
  destruct buffer; cbn [negb snd]; [|lia]. cbv zeta.
  destruct (start_frame_pacing_same_rate e host now) as (Hb1 & _).
  assert (Hwf1 : rate_control_wf
                   (rate_control (start_frame_pacing e host now))).
  { apply (start_frame_pacing_ok false). now apply wf_encoder_ok. }
  set (e1 := start_frame_pacing e host now) in *.
  case_if; cbn [snd]; [lia|].
  pose proof (adjust_params_to_bit_rate_never_raises u e1 host now_dec Hwf1)
    as Hb2.
  set (e2 := mjpeg_encoder_adjust_params_to_bit_rate u e1 host now_dec) in *.
  pose proof (stamp_frame_time_byte_rate e2 now mm) as Hb3.
  set (e3 := stamp_frame_time e2 now mm) in *.
  pose proof (start_compress_rate_control jcs e3 (format bitmap) src) as Hb4.
  destruct (start_compress jcs e3 (format bitmap) src) as [ret e4].
  cbn [snd] in Hb4.
  assert (Hle : byte_rate (rate_control e4) <= byte_rate (rate_control e))
    by (rewrite Hb4; lia).
  destruct ret; cbn [snd]; try exact Hle.
  unfold encode_frame. cbv zeta.
  destruct (skip_image_lines _ _ _ _ _) as [offset chunk].
  match goal with
  | |- context [encode_rows ?r ?i ?e ?j ?c ?o ?k ?s] =>
      pose proof (encode_rows_byte_rate r i e j c o k s) as Hb5;
      destruct (encode_rows r i e j c o k s) as [ok e5]
  end.
  cbn [snd] in Hb5.
  destruct ok; cbn [snd]; [rewrite end_frame_byte_rate|]; lia.
Qed.

(** X14: only a client report can raise the bit rate, and only one that
    reports no drops.  From a state with a well-formed rate control, a frame
    submission, a server-drop notification and a client report with
    [num_drops <> 0] leave [byte_rate] as it was or lower. *)
Theorem byte_rate_raised_by_clean_reports_only u jcs encoder :
  rate_control_wf (rate_control encoder) ->
  (forall host now now_dec buffer jpeg mm bitmap src top_down,
      byte_rate
        (rate_control
           (snd (mjpeg_encoder_encode_frame u jcs encoder host now now_dec
                   buffer jpeg mm bitmap src top_down)))
      <= byte_rate (rate_control encoder))
  /\ (forall host now,
         byte_rate
           (rate_control
              (mjpeg_encoder_notify_server_frame_drop u encoder host now))
         <= byte_rate (rate_control encoder))
  /\ (forall host now nf nd st en delay audio,
         nd <> 0 ->
         byte_rate
           (rate_control
              (mjpeg_encoder_client_stream_report u encoder host now nf nd
                 st en delay audio))
         <= byte_rate (rate_control encoder)).
Proof.
  intros Hwf. split; [|split].
  - intros. now apply encode_frame_never_raises.
  - intros host now. unfold mjpeg_encoder_notify_server_frame_drop.
    cbv zeta.
    etransitivity; [apply process_server_drops_never_raises|fields; lia].
    eapply rate_control_wf_ext; [..|exact Hwf]; reflexivity.
  - intros host now nf nd st en delay audio Hnd.
    unfold mjpeg_encoder_client_stream_report. cbv zeta.
    case_if; [lia|].
    match goal with
    | |- context [match ?p with (s, e) => _ end] =>
        assert (Hp : rate_control (snd p) = rate_control encoder);
        [|destruct p as [small e']]
    end.
    { repeat case_if; reflexivity. }
    cbn [snd] in Hp.
    assert (Hneg : forall t,
               byte_rate
                 (rate_control
                    (mjpeg_encoder_handle_negative_client_stream_report u e'
                       now t))
               <= byte_rate (rate_control encoder)).
    { intros t. unfold mjpeg_encoder_handle_negative_client_stream_report.
      cbv zeta. case_if; [rewrite Hp; lia|].
      rewrite <- Hp. apply decrease_bit_rate_never_raises. now rewrite Hp. }
    case_if; [apply Hneg|]. case_if; [apply Hneg|].
    case_if.
    + unfold mjpeg_encoder_handle_negative_client_stream_report.
      cbv zeta. fields. case_if; [fields; rewrite Hp; lia|].
      etransitivity; [apply decrease_bit_rate_never_raises|].
      * eapply rate_control_wf_ext; [..|exact Hwf]; fields;
          now rewrite Hp.
      * fields. rewrite Hp. lia.
    + apply Z.eqb_neq in Hnd. rewrite Hnd. fields. rewrite Hp. lia.
Qed.

Lemma byte_rate_raised_by_clean_reports_only_witness :
  (forall host now now_dec buffer jpeg mm bitmap src top_down,
      byte_rate
        (rate_control
           (snd (mjpeg_encoder_encode_frame example_undefined_uint64 false
                   example_encoder host now now_dec buffer jpeg mm bitmap src
                   top_down)))
      <= byte_rate (rate_control example_encoder))
  /\ (forall host now,
         byte_rate
           (rate_control
              (mjpeg_encoder_notify_server_frame_drop
                 example_undefined_uint64 example_encoder host now))
         <= byte_rate (rate_control example_encoder))
  /\ (forall host now nf nd st en delay audio,
         nd <> 0 ->
         byte_rate
           (rate_control
              (mjpeg_encoder_client_stream_report example_undefined_uint64
                 example_encoder host now nf nd st en delay audio))
         <= byte_rate (rate_control example_encoder)).
Proof.
  apply byte_rate_raised_by_clean_reports_only.
  constructor; vm_compute; first [reflexivity | split; discriminate
                                  | split; [discriminate|reflexivity]].
Defined.

(** ** Progress of the quality evaluation *)

Lemma list_set_nth a : forall n x,
  (n < length a)%nat -> nth n (list_set a n x) 0 = x.
Proof.
  induction a as [|y a IH]; intros [|n] x Hn; cbn [length] in Hn;
    try lia; cbn [list_set nth]; [reflexivity|].
  apply IH. lia.
Qed.

Lemma array_get_set_same a i x :
  0 <= i < Z.of_nat (length a) -> array_get (array_set a i x) i = x.
Proof.
  intros Hi. unfold array_get, array_set.
  assert ((0 <=? i) && (i <? Z.of_nat (length a)) = true) as Hin.
  { apply andb_true_iff. split; [apply Z.leb_le|apply Z.ltb_lt]; lia. }
  rewrite Hin, list_set_length, Hin.
  apply list_set_nth. lia.
Qed.

(** Writing a size that is not zero over a zero leaves one zero less. *)
Lemma count_zeros_list_set a : forall n x,
  (n < length a)%nat -> nth n a 0 = 0 -> x <> 0 ->
  S (count_occ Z.eq_dec (list_set a n x) 0) = count_occ Z.eq_dec a 0.
Proof.
  induction a as [|y a IH]; intros [|n] x Hn Hz Hx; cbn [length] in Hn;
    try lia.
  - cbn [nth] in Hz. subst y. cbn [list_set].
    rewrite (count_occ_cons_neq Z.eq_dec a Hx).
    rewrite (count_occ_cons_eq Z.eq_dec a (eq_refl 0)). reflexivity.
  - cbn [nth] in Hz. cbn [list_set].
    destruct (Z.eq_dec y 0) as [->|Hy].
    + rewrite !count_occ_cons_eq by reflexivity. f_equal.
      apply IH; [lia|assumption|assumption].
    + rewrite !count_occ_cons_neq by exact Hy.
      apply IH; [lia|assumption|assumption].
Qed.

Lemma count_zeros_array_set a i x :
  0 <= i < Z.of_nat (length a) -> array_get a i = 0 -> x <> 0 ->
  S (count_occ Z.eq_dec (array_set a i x) 0) = count_occ Z.eq_dec a 0.
Proof.
  intros Hi Hz Hx. unfold array_get, array_set in *.
  assert ((0 <=? i) && (i <? Z.of_nat (length a)) = true) as Hin.
  { apply andb_true_iff. split; [apply Z.leb_le|apply Z.ltb_lt]; lia. }
  rewrite Hin in *. apply count_zeros_list_set; [lia|assumption|assumption].
Qed.

Lemma complete_sample_done e host :
  during_quality_eval (rate_control (complete_sample e host)) = false.
Proof.
  unfold complete_sample.
  match goal with
  | |- context [mjpeg_encoder_reset_quality ?e ?q ?f ?s] =>
      pose proof (reset_quality_fields e q f s) as H;
      generalize dependent (mjpeg_encoder_reset_quality e q f s)
  end.
  intros e' (Hd & _). cbv zeta.
  destruct (update_client_playback_delay _); fields; exact Hd.
Qed.

(** The sizes, the quality and the progress flag as [track_best_sample]
    and [quality_id_step] leave them. *)
Lemma track_best_sample_keeps e f sf :
  encoded_size_by_quality
    (quality_eval_data (rate_control (track_best_sample e f sf)))
  = encoded_size_by_quality (quality_eval_data (rate_control e))
  /\ quality_id (rate_control (track_best_sample e f sf))
     = quality_id (rate_control e)
  /\ during_quality_eval (rate_control (track_best_sample e f sf))
     = during_quality_eval (rate_control e)
  /\ min_quality_id
       (quality_eval_data (rate_control (track_best_sample e f sf)))
     = min_quality_id (quality_eval_data (rate_control e)).
Proof.
  unfold track_best_sample. cbv zeta.
  case_if; fields; (split; [|split; [|split]]); reflexivity.
Qed.

(** ** The table of sampled sizes *)

Lemma eval_table_ok_ext rc rc' :
  during_quality_eval rc' = during_quality_eval rc ->
  quality_id rc' = quality_id rc ->
  encoded_size_by_quality (quality_eval_data rc')
  = encoded_size_by_quality (quality_eval_data rc) ->
  eval_table_ok rc -> eval_table_ok rc'.
Proof. unfold eval_table_ok. intros -> -> ->. auto. Qed.

Lemma array_get_zeros q : array_get [0; 0; 0; 0; 0; 0; 0] q = 0.
Proof.
  unfold array_get. case_if; [|reflexivity].
  destruct (Z.to_nat q) as [|[|[|[|[|[|[|n]]]]]]]; try reflexivity.
  destruct n; reflexivity.
Qed.

(** A table that is empty is in order whether an evaluation starts or
    not. *)
Lemma eval_table_ok_empty rc :
  encoded_size_by_quality (quality_eval_data rc) = [0; 0; 0; 0; 0; 0; 0] ->
  eval_table_ok rc.
Proof.
  unfold eval_table_ok. intros H. rewrite H.
  destruct (during_quality_eval rc); [apply array_get_zeros|reflexivity].
Qed.

Lemma eval_table_ok_idle rc :
  during_quality_eval rc = false -> eval_table_ok rc ->
  encoded_size_by_quality (quality_eval_data rc) = [0; 0; 0; 0; 0; 0; 0].
Proof. unfold eval_table_ok. intros ->. auto. Qed.

Lemma reset_quality_table e q f s :
  eval_table_ok (rate_control (mjpeg_encoder_reset_quality e q f s)).
Proof.
  apply eval_table_ok_empty.
  apply (reset_quality_fields e q f s).
Qed.

Lemma complete_sample_table e host :
  during_quality_eval (rate_control (complete_sample e host)) = false
  /\ eval_table_ok (rate_control (complete_sample e host)).
Proof.
  unfold complete_sample.
  match goal with
  | |- context [mjpeg_encoder_reset_quality ?e ?q ?f ?s] =>
      pose proof (reset_quality_fields e q f s) as H;
      generalize dependent (mjpeg_encoder_reset_quality e q f s)
  end.
  intros e' (Hd & _ & _ & _ & Hs). cbv zeta.
  destruct (update_client_playback_delay _); fields;
    (split; [exact Hd|apply eval_table_ok_empty; exact Hs]).
Qed.

Lemma quality_eval_stop_table e :
  eval_table_ok (rate_control e) ->
  during_quality_eval (rate_control (mjpeg_encoder_quality_eval_stop e))
  = false
  /\ eval_table_ok (rate_control (mjpeg_encoder_quality_eval_stop e)).
Proof.
  intros Ht. unfold mjpeg_encoder_quality_eval_stop. cbv zeta.
  destruct (during_quality_eval (rate_control e)) eqn:Hd; cbn [negb];
    [|split; assumption].
  destruct (type _); cbv beta iota;
    (split; [apply reset_quality_fields|apply reset_quality_table]).
Qed.

Lemma quality_eval_set_upgrade_table e r q f :
  during_quality_eval (rate_control e) = false ->
  eval_table_ok (rate_control e) ->
  eval_table_ok
    (rate_control (mjpeg_encoder_quality_eval_set_upgrade e r q f)).
Proof.
  intros Hd Ht. apply eval_table_ok_empty.
  apply (eval_table_ok_idle _ Hd Ht).
Qed.

Lemma quality_eval_set_downgrade_table e r q f :
  during_quality_eval (rate_control e) = false ->
  eval_table_ok (rate_control e) ->
  eval_table_ok
    (rate_control (mjpeg_encoder_quality_eval_set_downgrade e r q f)).
Proof.
  intros Hd Ht. apply eval_table_ok_empty.
  apply (eval_table_ok_idle _ Hd Ht).
Qed.

(** The evaluator completes, or moves one quality up or down to a quality
    that has no sample yet. *)
Lemma choose_next_quality_progress e host f sf :
  rate_control_wf (rate_control e) ->
  let e' := choose_next_quality e host f sf in
  (during_quality_eval (rate_control e') = false
   /\ eval_table_ok (rate_control e'))
  \/ (during_quality_eval (rate_control e')
      = during_quality_eval (rate_control e)
      /\ encoded_size_by_quality (quality_eval_data (rate_control e'))
         = encoded_size_by_quality (quality_eval_data (rate_control e))
      /\ array_get
           (encoded_size_by_quality (quality_eval_data (rate_control e)))
           (quality_id (rate_control e')) = 0
      /\ (quality_id (rate_control e') = quality_id (rate_control e) + 1
          \/ quality_id (rate_control e')
             = quality_id (rate_control e) - 1)).
Proof.
  intros Hwf. assert (Hq := wf_quality_id _ Hwf).
  unfold choose_next_quality, QUALITY_WAS_EVALUATED. cbv zeta.
  unfold MJPEG_QUALITY_SAMPLE_NUM in Hq.
  assert (Hstep : forall d,
             (d = 1 \/ d = -1) ->
             0 <= quality_id (rate_control e) + d < 7 ->
             array_get
               (encoded_size_by_quality (quality_eval_data (rate_control e)))
               (quality_id (rate_control e) + d) = 0 ->
             let e' := quality_id_step e d in
             (during_quality_eval (rate_control e') = false
              /\ eval_table_ok (rate_control e'))
             \/ (during_quality_eval (rate_control e')
                 = during_quality_eval (rate_control e)
                 /\ encoded_size_by_quality
                      (quality_eval_data (rate_control e'))
                    = encoded_size_by_quality
                        (quality_eval_data (rate_control e))
                 /\ array_get
                      (encoded_size_by_quality
                         (quality_eval_data (rate_control e)))
                      (quality_id (rate_control e')) = 0
                 /\ (quality_id (rate_control e')
                     = quality_id (rate_control e) + 1
                     \/ quality_id (rate_control e')
                        = quality_id (rate_control e) - 1))).
  { intros d Hd Hr Hz. cbv zeta. right. unfold quality_id_step. fields.
    rewrite to_int_small by lia.
    split; [reflexivity|]. split; [reflexivity|]. split; [exact Hz|].
    destruct Hd as [-> | ->]; [left|right]; lia. }
  cbv zeta in Hstep.
  change (MJPEG_QUALITY_SAMPLE_NUM / 2) with 3.
  unfold MJPEG_QUALITY_SAMPLE_NUM.
  repeat case_if; boolZ;
    try (left; apply complete_sample_table);
    apply Hstep; auto; lia.
Qed.

Lemma eval_quality_progress e host :
  rate_control_wf (rate_control e) ->
  array_get (encoded_size_by_quality (quality_eval_data (rate_control e)))
    (quality_id (rate_control e)) <> 0 ->
  let e' := mjpeg_encoder_eval_quality e host in
  (during_quality_eval (rate_control e') = false
   /\ eval_table_ok (rate_control e'))
  \/ (during_quality_eval (rate_control e')
      = during_quality_eval (rate_control e)
      /\ encoded_size_by_quality (quality_eval_data (rate_control e'))
         = encoded_size_by_quality (quality_eval_data (rate_control e))
      /\ array_get
           (encoded_size_by_quality (quality_eval_data (rate_control e)))
           (quality_id (rate_control e')) = 0
      /\ (quality_id (rate_control e') = quality_id (rate_control e) + 1
          \/ quality_id (rate_control e')
             = quality_id (rate_control e) - 1)).
Proof.
  intros Hwf Hsize. unfold mjpeg_encoder_eval_quality. cbv zeta.
  apply Z.eqb_neq in Hsize. rewrite Hsize.
  match goal with
  | |- context [choose_next_quality (track_best_sample ?e ?f ?sf) ?h ?f ?sf] =>
      destruct (track_best_sample_keeps e f sf) as (Hs & Hq & Hd & _);
      pose proof (choose_next_quality_progress (track_best_sample e f sf)
                    h f sf (track_best_sample_wf e f sf Hwf)) as H
  end.
  cbv zeta in H. rewrite Hs, Hq, Hd in H. exact H.
Qed.

(** A sample for a quality that has none yet completes the evaluation or
    leaves one quality less to sample. *)
Lemma evaluation_step encoder host size :
  rate_control_wf (rate_control encoder) ->
  size <> 0 ->
  array_get
    (encoded_size_by_quality (quality_eval_data (rate_control encoder)))
    (quality_id (rate_control encoder)) = 0 ->
  let e' := record_sample_and_eval encoder host size in
  (during_quality_eval (rate_control e') = false
   /\ eval_table_ok (rate_control e'))
  \/ (during_quality_eval (rate_control e')
      = during_quality_eval (rate_control encoder)
      /\ (quality_id (rate_control e')
          = quality_id (rate_control encoder) + 1
          \/ quality_id (rate_control e')
             = quality_id (rate_control encoder) - 1)
      /\ array_get
           (encoded_size_by_quality (quality_eval_data (rate_control e')))
           (quality_id (rate_control e')) = 0
      /\ S (unsampled e') = unsampled encoder).
Proof.
  intros Hwf Hsize Hfree. unfold record_sample_and_eval. cbv zeta.
  assert (Hq := wf_quality_id _ Hwf). assert (Hlen := wf_sizes _ Hwf).
  unfold MJPEG_QUALITY_SAMPLE_NUM in Hq.
  set (e1 := set_rate_control encoder _).
  assert (Hwf1 : rate_control_wf (rate_control e1)).
  { subst e1. destruct Hwf. constructor; fields; try assumption.
    rewrite array_set_length. assumption. }
  assert (Hrec : array_get
                   (encoded_size_by_quality
                      (quality_eval_data (rate_control e1)))
                   (quality_id (rate_control e1)) = size).
  { subst e1. fields. apply array_get_set_same. rewrite Hlen. lia. }
  assert (Hcount : S (unsampled e1) = unsampled encoder).
  { subst e1. unfold unsampled. fields.
    apply count_zeros_array_set; [rewrite Hlen; lia|assumption|assumption]. }
  destruct (eval_quality_progress e1 host Hwf1) as [Hdone|Hnext].
  { rewrite Hrec. exact Hsize. }
  - left. exact Hdone.
  - right. destruct Hnext as (Hd & Hs & Hz & Hstep).
    split; [exact Hd|]. split; [exact Hstep|].
    split; [rewrite Hs; exact Hz|].
    unfold unsampled in *. rewrite Hs. exact Hcount.
Qed.

(** X15: a sample that is not zero, recorded for a quality that has none
    yet, either completes the evaluation (no evaluation is in progress
    afterwards) or moves the evaluator one quality up or down to a quality
    that has no sample yet, with one quality less left to sample. *)
Theorem evaluation_step_progress encoder host size :
  rate_control_wf (rate_control encoder) ->
  size <> 0 ->
  array_get
    (encoded_size_by_quality (quality_eval_data (rate_control encoder)))
    (quality_id (rate_control encoder)) = 0 ->
  let e' := record_sample_and_eval encoder host size in
  during_quality_eval (rate_control e') = false
  \/ (during_quality_eval (rate_control e')
      = during_quality_eval (rate_control encoder)
      /\ (quality_id (rate_control e')
          = quality_id (rate_control encoder) + 1
          \/ quality_id (rate_control e')
             = quality_id (rate_control encoder) - 1)
      /\ array_get
           (encoded_size_by_quality (quality_eval_data (rate_control e')))
           (quality_id (rate_control e')) = 0
      /\ S (unsampled e') = unsampled encoder).
Proof.
  intros Hwf Hsize Hfree.
  destruct (evaluation_step encoder host size Hwf Hsize Hfree)
    as [[Hdone _]|Hnext]; [left; exact Hdone|right; exact Hnext].
Qed.

Lemma evaluation_step_progress_witness :
  let e' := record_sample_and_eval example_encoder example_host 20000 in
  during_quality_eval (rate_control e') = false
  \/ (during_quality_eval (rate_control e')
      = during_quality_eval (rate_control example_encoder)
      /\ (quality_id (rate_control e')
          = quality_id (rate_control example_encoder) + 1
          \/ quality_id (rate_control e')
             = quality_id (rate_control example_encoder) - 1)
      /\ array_get
           (encoded_size_by_quality (quality_eval_data (rate_control e')))
           (quality_id (rate_control e')) = 0
      /\ S (unsampled e') = unsampled example_encoder).
Proof.
  apply evaluation_step_progress.
  - constructor; vm_compute;
      first [reflexivity | split; discriminate
            | split; [discriminate|reflexivity]].
  - discriminate.
  - reflexivity.
Defined.

Lemma count_occ_le_length (a : list Z) x :
  (count_occ Z.eq_dec a x <= length a)%nat.
Proof.
  induction a as [|y a IH]; cbn [count_occ length]; [lia|].
  destruct (Z.eq_dec y x); lia.
Qed.

Lemma eval_samples_completes samples :
  forall e,
    rate_control_wf (rate_control e) ->
    (during_quality_eval (rate_control e) = true ->
     array_get (encoded_size_by_quality (quality_eval_data (rate_control e)))
       (quality_id (rate_control e)) = 0) ->
    Forall (fun sample => snd sample <> 0) samples ->
    (unsampled e <= length samples)%nat ->
    during_quality_eval (rate_control (eval_samples e samples)) = false.
Proof.
  induction samples as [|[host size] samples IH];
    intros e Hwf Hfree Hsizes Hlen.
  - cbn [eval_samples length] in *.
    destruct (during_quality_eval (rate_control e)) eqn:Hd; [|reflexivity].
    specialize (Hfree eq_refl). exfalso.
    assert (Hq := wf_quality_id _ Hwf). assert (Hl := wf_sizes _ Hwf).
    unfold MJPEG_QUALITY_SAMPLE_NUM in Hq.
    assert (In 0
              (encoded_size_by_quality (quality_eval_data (rate_control e))))
      as Hin.
    { unfold array_get in Hfree.
      assert ((0 <=? quality_id (rate_control e))
              && (quality_id (rate_control e)
                  <? Z.of_nat
                       (length
                          (encoded_size_by_quality
                             (quality_eval_data (rate_control e)))))
              = true) as Hr.
      { rewrite Hl. apply andb_true_iff.
        split; [apply Z.leb_le|apply Z.ltb_lt]; lia. }
      rewrite Hr in Hfree. rewrite <- Hfree. apply nth_In. rewrite Hl. lia. }
    apply (count_occ_In Z.eq_dec) in Hin. unfold unsampled in Hlen. lia.
  - cbn [eval_samples].
    destruct (during_quality_eval (rate_control e)) eqn:Hd; [|exact Hd].
    inversion Hsizes as [|? ? Hsize Hrest]; subst. cbn [snd] in Hsize.
    destruct (evaluation_step e host size Hwf Hsize (Hfree eq_refl))
      as [[Hdone _]|(Hd' & _ & Hz & Hcount)].
    + destruct samples as [|[h s] samples]; cbn [eval_samples];
        [exact Hdone|]. rewrite Hdone. exact Hdone.
    + apply IH.
      * apply (record_sample_and_eval_ok false). now apply wf_encoder_ok.
      * intros _. exact Hz.
      * exact Hrest.
      * cbn [length] in Hlen. lia.
Qed.

(** ** Cancelled evaluations, after any number of samples *)

Lemma eval_samples_idle samples :
  forall e,
    during_quality_eval (rate_control e) = false ->
    eval_samples e samples = e.
Proof.
  destruct samples as [|[host size] samples]; intros e Hd;
    cbn [eval_samples]; [reflexivity|]. now rewrite Hd.
Qed.

(** A step of the evaluator that does not complete the evaluation leaves
    the type and the bounds of the evaluation as they are. *)
Lemma choose_next_quality_restore_point e host f sf :
  during_quality_eval (rate_control (choose_next_quality e host f sf))
  = true ->
  eval_restore_point (choose_next_quality e host f sf)
  = eval_restore_point e.
Proof.
  unfold choose_next_quality. cbv zeta.
  repeat case_if; intros Hd;
    try (rewrite complete_sample_done in Hd; discriminate Hd);
    reflexivity.
Qed.

Lemma record_sample_and_eval_restore_point e host size :
  during_quality_eval (rate_control (record_sample_and_eval e host size))
  = true ->
  eval_restore_point (record_sample_and_eval e host size)
  = eval_restore_point e.
Proof.
  unfold record_sample_and_eval, mjpeg_encoder_eval_quality. cbv zeta.
  case_if; [reflexivity|]. intros Hd.
  rewrite (choose_next_quality_restore_point _ _ _ _ Hd).
  unfold track_best_sample. cbv zeta. case_if; reflexivity.
Qed.

Lemma eval_samples_restore_point samples :
  forall e,
    during_quality_eval (rate_control (eval_samples e samples)) = true ->
    eval_restore_point (eval_samples e samples) = eval_restore_point e.
Proof.
  induction samples as [|[host size] samples IH]; intros e Hd;
    cbn [eval_samples] in *; [reflexivity|].
  destruct (during_quality_eval (rate_control e)); [|reflexivity].
  destruct (during_quality_eval
              (rate_control (record_sample_and_eval e host size))) eqn:Hd1.
  - rewrite (IH _ Hd).
    now apply record_sample_and_eval_restore_point.
  - rewrite (eval_samples_idle samples _ Hd1) in Hd. congruence.
Qed.

(** X12: an evaluation that is cancelled before it completes puts the
    quality and the frame rate back where the evaluation started.  After
    [mjpeg_encoder_quality_eval_set_upgrade] or
    [mjpeg_encoder_quality_eval_set_downgrade], called as the controller
    calls them with the current quality and frame rate, and any samples
    that leave the evaluation in progress,
    [mjpeg_encoder_quality_eval_stop] leaves no evaluation in progress and
    the quality and the frame rate as they were before the evaluation.  It
    keeps the size of the last frame if the evaluator has not moved the
    quality, and clears it if it has. *)
Theorem cancelled_evaluation_restores encoder r start samples :
  rate_control_wf (rate_control encoder) ->
  let rc := rate_control encoder in
  start = mjpeg_encoder_quality_eval_set_upgrade encoder r
            (to_uint32 (quality_id rc)) (fps rc)
  \/ start = mjpeg_encoder_quality_eval_set_downgrade encoder r
               (to_uint32 (quality_id rc)) (fps rc) ->
  let e := eval_samples start samples in
  during_quality_eval (rate_control e) = true ->
  let rc' := rate_control (mjpeg_encoder_quality_eval_stop e) in
  during_quality_eval rc' = false
  /\ quality_id rc' = quality_id rc
  /\ fps rc' = fps rc
  /\ last_enc_size rc'
     = (if quality_id (rate_control e) =? quality_id rc
        then last_enc_size (rate_control e) else 0).
Proof.
  intros Hwf rc Hstart e Hd. cbv zeta. subst rc.
  assert (Hq : to_int (to_uint32 (to_int (to_uint32
                 (quality_id (rate_control encoder)))))
               = quality_id (rate_control encoder)).
  { rewrite !quality_id_round_trip; [reflexivity|apply Hwf|].
    rewrite quality_id_round_trip; apply Hwf. }
  assert (Hfps := wf_fps _ Hwf).
  assert (Hf : to_uint32 (to_int (fps (rate_control encoder)))
               = fps (rate_control encoder)).
  { unfold MJPEG_MIN_FPS, MJPEG_MAX_FPS in Hfps.
    rewrite to_int_small, to_uint32_small; lia. }
  pose proof (eval_samples_restore_point samples start Hd) as Hkept.
  fold e in Hkept. unfold eval_restore_point in Hkept. cbv zeta in Hkept.
  destruct Hstart as [Hstart|Hstart]; rewrite Hstart in Hkept;
    [unfold mjpeg_encoder_quality_eval_set_upgrade in Hkept
    |unfold mjpeg_encoder_quality_eval_set_downgrade in Hkept];
    fields_in Hkept;
    injection Hkept as Ht Hmin Hminf Hmax Hmaxf;
    [rewrite (quality_eval_stop_upgrade e Hd Ht), Hmin, Hminf
    |rewrite (quality_eval_stop_downgrade e Hd Ht), Hmax, Hmaxf];
    match goal with
    | |- context [mjpeg_encoder_reset_quality ?e ?q ?f ?s] =>
        destruct (reset_quality_fields e q f s) as (Hd' & Hq' & Hf' & Hl' & _)
    end;
    rewrite Hd', Hq', Hf', Hl', Hq, Hf, fps_clamp_id by exact Hfps;
    (split; [reflexivity|]); (split; [reflexivity|]);
    (split; [reflexivity|]);
    destruct (quality_id (rate_control e)
              =? quality_id (rate_control encoder)); reflexivity.
Qed.

Lemma cancelled_evaluation_restores_witness :
  (let e :=
     eval_samples
       (mjpeg_encoder_quality_eval_set_downgrade busy_encoder
          MJPEG_QUALITY_EVAL_REASON_SIZE_CHANGE
          (to_uint32 (quality_id (rate_control busy_encoder)))
          (fps (rate_control busy_encoder)))
       [(example_host, 300000)] in
   let rc' := rate_control (mjpeg_encoder_quality_eval_stop e) in
   during_quality_eval rc' = false
   /\ quality_id rc' = quality_id (rate_control busy_encoder)
   /\ fps rc' = fps (rate_control busy_encoder)
   /\ last_enc_size rc'
      = (if quality_id (rate_control e)
            =? quality_id (rate_control busy_encoder)
         then last_enc_size (rate_control e) else 0))
  /\ (let e :=
        eval_samples
          (mjpeg_encoder_quality_eval_set_upgrade slow_encoder
             MJPEG_QUALITY_EVAL_REASON_SIZE_CHANGE
             (to_uint32 (quality_id (rate_control slow_encoder)))
             (fps (rate_control slow_encoder)))
          [(example_host, 20000)] in
      let rc' := rate_control (mjpeg_encoder_quality_eval_stop e) in
      during_quality_eval rc' = false
      /\ quality_id rc' = quality_id (rate_control slow_encoder)
      /\ fps rc' = fps (rate_control slow_encoder)
      /\ last_enc_size rc'
         = (if quality_id (rate_control e)
               =? quality_id (rate_control slow_encoder)
            then last_enc_size (rate_control e) else 0)).
Proof.
  split.
  - apply (cancelled_evaluation_restores busy_encoder
             MJPEG_QUALITY_EVAL_REASON_SIZE_CHANGE).
    + constructor; vm_compute; first [reflexivity | split; discriminate
                                      | split; [discriminate|reflexivity]].
    + right. reflexivity.
    + vm_compute. reflexivity.
  - apply (cancelled_evaluation_restores slow_encoder
             MJPEG_QUALITY_EVAL_REASON_SIZE_CHANGE).
    + constructor; vm_compute; first [reflexivity | split; discriminate
                                      | split; [discriminate|reflexivity]].
    + left. reflexivity.
    + vm_compute. reflexivity.
Defined.

(** In the first case above the evaluator has moved from quality 6 to
    quality 5 when it is stopped: the quality is 6 again and the frame rate
    11, and the size of the last frame is cleared. *)
Example cancelled_downgrade_after_one_sample :
  let e :=
    eval_samples
      (mjpeg_encoder_quality_eval_set_downgrade busy_encoder
         MJPEG_QUALITY_EVAL_REASON_SIZE_CHANGE 6 11)
      [(example_host, 300000)] in
  let rc' := rate_control (mjpeg_encoder_quality_eval_stop e) in
  (quality_id (rate_control busy_encoder), fps (rate_control busy_encoder),
   last_enc_size (rate_control busy_encoder)) = (6, 11, 90000)
  /\ (during_quality_eval (rate_control e), quality_id (rate_control e))
     = (true, 5)
  /\ (quality_id rc', fps rc', last_enc_size rc') = (6, 11, 0).
Proof. vm_compute. repeat split; reflexivity. Qed.

Lemma record_sample_and_eval_table e host size :
  rate_control_wf (rate_control e) ->
  during_quality_eval (rate_control e) = true ->
  eval_table_ok (rate_control e) ->
  eval_table_ok (rate_control (record_sample_and_eval e host size)).
Proof.
  intros Hwf Hd Ht.
  assert (Hfree : array_get
                    (encoded_size_by_quality
                       (quality_eval_data (rate_control e)))
                    (quality_id (rate_control e)) = 0).
  { unfold eval_table_ok in Ht. rewrite Hd in Ht. exact Ht. }
  destruct (Z.eq_dec size 0) as [->|Hsize].
  - assert (Hq := wf_quality_id _ Hwf). assert (Hlen := wf_sizes _ Hwf).
    unfold MJPEG_QUALITY_SAMPLE_NUM in Hq.
    unfold record_sample_and_eval, mjpeg_encoder_eval_quality. cbv zeta.
    fields. rewrite array_get_set_same by (rewrite Hlen; lia).
    cbn [Z.eqb]. unfold eval_table_ok. fields. rewrite Hd.
    apply array_get_set_same. rewrite Hlen. lia.
  - destruct (evaluation_step e host size Hwf Hsize Hfree)
      as [[_ Hdone]|(Hd' & _ & Hz & _)]; [exact Hdone|].
    unfold eval_table_ok. rewrite Hd', Hd. exact Hz.
Qed.

Section Table.

Variable undefined_uint64 : float -> Z.
Variable JCS_EXTENSIONS : bool.

Lemma decrease_bit_rate_table e now :
  eval_table_ok (rate_control e) ->
  eval_table_ok
    (rate_control (mjpeg_encoder_decrease_bit_rate undefined_uint64 e now)).
Proof.
  intros Ht. unfold mjpeg_encoder_decrease_bit_rate.
  destruct (quality_eval_stop_table e Ht) as (Hd & Ht').
  generalize dependent (mjpeg_encoder_quality_eval_stop e).
  intros e' Hd Ht'. cbv zeta.
  assert (Htail : forall rc,
             encoded_size_by_quality (quality_eval_data rc)
             = encoded_size_by_quality (quality_eval_data (rate_control e')) ->
             eval_table_ok
               (rate_control (decrease_bit_rate_tail undefined_uint64 e' rc))).
  { intros rc Hs. apply eval_table_ok_empty.
    unfold decrease_bit_rate_tail. cbv zeta.
    destruct (enough_frames_for_estimate rc); cbv beta iota;
      unfold mjpeg_encoder_quality_eval_set_downgrade; fields;
      rewrite Hs; apply (eval_table_ok_idle _ Hd Ht'). }
  case_if; [case_if|]; try (apply Htail; reflexivity).
  eapply eval_table_ok_ext; [..|exact Ht']; reflexivity.
Qed.

Lemma increase_bit_rate_table e :
  eval_table_ok (rate_control e) ->
  eval_table_ok
    (rate_control (mjpeg_encoder_increase_bit_rate undefined_uint64 e)).
Proof.
  intros Ht. unfold mjpeg_encoder_increase_bit_rate. cbv zeta.
  case_if; [|exact Ht].
  destruct (quality_eval_stop_table e Ht) as (Hd & Ht').
  generalize dependent (mjpeg_encoder_quality_eval_stop e).
  intros e' Hd Ht'.
  apply eval_table_ok_empty.
  unfold mjpeg_encoder_quality_eval_set_upgrade. fields.
  case_if; fields; apply (eval_table_ok_idle _ Hd Ht').
Qed.

Lemma process_server_drops_table e host now :
  eval_table_ok (rate_control e) ->
  eval_table_ok
    (rate_control
       (mjpeg_encoder_process_server_drops undefined_uint64 e host now)).
Proof.
  intros Ht. unfold mjpeg_encoder_process_server_drops. cbv zeta.
  case_if; [exact Ht|].
  case_if; fields.
  - eapply eval_table_ok_ext;
      [..|apply (decrease_bit_rate_table e now Ht)]; reflexivity.
  - eapply eval_table_ok_ext; [..|exact Ht]; reflexivity.
Qed.

Lemma notify_server_frame_drop_table e host now :
  eval_table_ok (rate_control e) ->
  eval_table_ok
    (rate_control
       (mjpeg_encoder_notify_server_frame_drop undefined_uint64 e host now)).
Proof.
  intros Ht. unfold mjpeg_encoder_notify_server_frame_drop. cbv zeta.
  apply process_server_drops_table.
  eapply eval_table_ok_ext; [..|exact Ht]; reflexivity.
Qed.

Lemma adjust_params_end_table e host now size :
  rate_control_wf (rate_control e) ->
  eval_table_ok (rate_control e) ->
  eval_table_ok
    (rate_control (adjust_params_end undefined_uint64 e host now size)).
Proof.
  intros Hwf Ht. unfold adjust_params_end.
  destruct (during_quality_eval (rate_control e)) eqn:Hd.
  - now apply record_sample_and_eval_table.
  - now apply process_server_drops_table.
Qed.

Lemma adjust_params_to_bit_rate_table e host now :
  rate_control_wf (rate_control e) ->
  eval_table_ok (rate_control e) ->
  eval_table_ok
    (rate_control
       (mjpeg_encoder_adjust_params_to_bit_rate undefined_uint64 e host
          now)).
Proof.
  intros Hwf Ht. unfold mjpeg_encoder_adjust_params_to_bit_rate. cbv zeta.
  case_if; [exact Ht|].
  destruct (during_quality_eval (rate_control e)) eqn:Hd;
    [now apply record_sample_and_eval_table|].
  case_if; [exact Ht|].
  case_if; [now apply adjust_params_end_table|].
  case_if; [|case_if].
  - apply adjust_params_end_table.
    + apply (quality_eval_set_upgrade_ok false). now apply wf_encoder_ok.
    + now apply quality_eval_set_upgrade_table.
  - apply adjust_params_end_table.
    + apply (quality_eval_set_downgrade_ok false). now apply wf_encoder_ok.
    + now apply quality_eval_set_downgrade_table.
  - now apply adjust_params_end_table.
Qed.

Lemma handle_negative_table e now t :
  eval_table_ok (rate_control e) ->
  eval_table_ok
    (rate_control
       (mjpeg_encoder_handle_negative_client_stream_report undefined_uint64
          e now t)).
Proof.
  intros Ht. unfold mjpeg_encoder_handle_negative_client_stream_report.
  cbv zeta. case_if; [exact Ht|now apply decrease_bit_rate_table].
Qed.

Lemma handle_positive_table e host t :
  eval_table_ok (rate_control e) ->
  eval_table_ok
    (rate_control
       (mjpeg_encoder_handle_positive_client_stream_report undefined_uint64
          e host t)).
Proof.
  intros Ht. unfold mjpeg_encoder_handle_positive_client_stream_report.
  cbv zeta. case_if; [exact Ht|].
  case_if; [exact Ht|now apply increase_bit_rate_table].
Qed.

Lemma client_stream_report_table encoder host now nf nd st en delay audio :
  eval_table_ok (rate_control encoder) ->
  eval_table_ok
    (rate_control
       (mjpeg_encoder_client_stream_report undefined_uint64 encoder host now
          nf nd st en delay audio)).
Proof.
  intros Ht. unfold mjpeg_encoder_client_stream_report. cbv zeta.
  case_if; [exact Ht|].
  match goal with
  | |- context [match ?p with (s, e) => _ end] =>
      assert (Hp : rate_control (snd p) = rate_control encoder);
      [|destruct p as [small e']]
  end.
  { repeat case_if; reflexivity. }
  cbn [snd] in Hp. rewrite <- Hp in Ht.
  assert (Ht' : forall cs,
             eval_table_ok
               (rate_control
                  (set_rate_control e'
                     (set_client_state (rate_control e') cs))))
    by (intros cs; eapply eval_table_ok_ext; [..|exact Ht]; reflexivity).
  case_if; [now apply handle_negative_table|].
  case_if; [now apply handle_negative_table|].
  case_if; [apply handle_negative_table, Ht'|].
  case_if; [apply handle_positive_table, Ht'|apply Ht'].
Qed.

Lemma start_frame_pacing_table e host now :
  eval_table_ok (rate_control e) ->
  eval_table_ok (rate_control (start_frame_pacing e host now)).
Proof.
  intros Ht. destruct (start_frame_pacing_shape e host now)
    as (a & s & n & ->).
  eapply eval_table_ok_ext; [..|exact Ht]; reflexivity.
Qed.

Lemma stamp_frame_time_table e now mm :
  eval_table_ok (rate_control e) ->
  eval_table_ok (rate_control (stamp_frame_time e now mm)).
Proof.
  intros Ht. unfold stamp_frame_time. cbv zeta.
  case_if; [|exact Ht].
  eapply eval_table_ok_ext; [..|exact Ht]; reflexivity.
Qed.

Lemma encode_rows_table rows :
  forall i e jpeg chunks offset chunk stride,
    eval_table_ok (rate_control e) ->
    eval_table_ok
      (rate_control
         (snd (encode_rows rows i e jpeg chunks offset chunk stride))).
Proof.
  induction rows as [|rows IH]; intros i e jpeg chunks offset chunk stride
    Ht; cbn [encode_rows]; [exact Ht|].
  destruct (get_image_line _ _ _ _) as [[line offset'] chunk'].
  destruct line; cbn [negb]; [|exact Ht].
  unfold mjpeg_encoder_encode_scanline.
  case_if.
  - cbn [Z.eqb snd].
    eapply eval_table_ok_ext; [..|exact Ht]; reflexivity.
  - case_if; [exact Ht|]. now apply IH.
Qed.

Lemma end_frame_table e jpeg :
  eval_table_ok (rate_control e) ->
  eval_table_ok (rate_control (mjpeg_encoder_end_frame e jpeg)).
Proof.
  intros Ht. unfold mjpeg_encoder_end_frame. cbv zeta. fields.
  eapply eval_table_ok_ext; [..|exact Ht];
    repeat case_if; reflexivity.
Qed.

Lemma encode_frame_table e host now now_dec buffer jpeg mm bitmap src
  top_down :
  rate_control_wf (rate_control e) ->
  eval_table_ok (rate_control e) ->
  eval_table_ok
    (rate_control
       (snd (mjpeg_encoder_encode_frame undefined_uint64 JCS_EXTENSIONS e
               host now now_dec buffer jpeg mm bitmap src top_down))).
Proof.
  intros Hwf Ht.
  unfold mjpeg_encoder_encode_frame, mjpeg_encoder_start_frame.
  destruct buffer; cbn [negb snd]; [|exact Ht]. cbv zeta.
  pose proof (start_frame_pacing_table e host now Ht) as Ht1.
  assert (Hwf1 : rate_control_wf
                   (rate_control (start_frame_pacing e host now))).
  { apply (start_frame_pacing_ok false). now apply wf_encoder_ok. }
  set (e1 := start_frame_pacing e host now) in *.
  case_if; cbn [snd]; [exact Ht1|].
  pose proof (adjust_params_to_bit_rate_table e1 host now_dec Hwf1 Ht1)
    as Ht2.
  set (e2 := mjpeg_encoder_adjust_params_to_bit_rate undefined_uint64 e1
               host now_dec) in *.
  pose proof (stamp_frame_time_table e2 now mm Ht2) as Ht3.
  set (e3 := stamp_frame_time e2 now mm) in *.
  pose proof (start_compress_rate_control JCS_EXTENSIONS e3 (format bitmap)
                src) as Hrc.
  destruct (start_compress JCS_EXTENSIONS e3 (format bitmap) src)
    as [ret e4].
  cbn [snd] in Hrc. rewrite <- Hrc in Ht3.
  destruct ret; cbn [snd]; try exact Ht3.
  unfold encode_frame. cbv zeta.
  destruct (skip_image_lines _ _ _ _ _) as [offset chunk].
  match goal with
  | |- context [encode_rows ?r ?i ?e ?j ?c ?o ?k ?s] =>
      pose proof (encode_rows_table r i e j c o k s Ht3) as Ht5;
      destruct (encode_rows r i e j c o k s) as [ok e5]
  end.
  cbn [snd] in Ht5.
  destruct ok; cbn [snd]; [now apply end_frame_table|exact Ht5].
Qed.

Lemma run_event_table e ev :
  rate_control_wf (rate_control e) ->
  eval_table_ok (rate_control e) ->
  eval_table_ok
    (rate_control (run_event undefined_uint64 JCS_EXTENSIONS e ev)).
Proof.
  intros Hwf Ht. destruct ev; cbn [run_event].
  - now apply encode_frame_table.
  - now apply client_stream_report_table.
  - now apply notify_server_frame_drop_table.
Qed.

Lemma run_events_table events :
  forall e,
    rate_control_wf (rate_control e) ->
    eval_table_ok (rate_control e) ->
    eval_table_ok
      (rate_control (run_events undefined_uint64 JCS_EXTENSIONS e events)).
Proof.
  induction events as [|ev events IH]; intros e Hwf Ht; [exact Ht|].
  cbn [run_events fold_left]. apply IH.
  - apply (run_event_ok undefined_uint64 JCS_EXTENSIONS false);
      [now apply wf_encoder_ok|apply window_ok_false].
  - now apply run_event_table.
Qed.

End Table.

Lemma new_encoder_table sbr new_cbs now encoder :
  mjpeg_encoder_new SPICE_VIDEO_CODEC_TYPE_MJPEG sbr new_cbs now
  = Some encoder ->
  eval_table_ok (rate_control encoder).
Proof.
  intros Hnew. apply eval_table_ok_empty.
  assert (H : option_map
                (fun e =>
                   encoded_size_by_quality
                     (quality_eval_data (rate_control e)))
                (mjpeg_encoder_new SPICE_VIDEO_CODEC_TYPE_MJPEG sbr new_cbs
                   now)
              = Some [0; 0; 0; 0; 0; 0; 0]) by reflexivity.
  rewrite Hnew in H. cbn [option_map] in H. now apply Some_inj in H.
Qed.

(** X16: in every state reached from construction the table of sampled
    sizes is in order: while an evaluation is in progress the quality that
    is sampled next has no sample yet, and outside an evaluation the table
    is empty. *)
Theorem sample_table_invariant u jcs sbr new_cbs now encoder events :
  0 <= sbr < 2 ^ 64 ->
  mjpeg_encoder_new SPICE_VIDEO_CODEC_TYPE_MJPEG sbr new_cbs now
  = Some encoder ->
  let rc := rate_control (run_events u jcs encoder events) in
  if during_quality_eval rc
  then array_get (encoded_size_by_quality (quality_eval_data rc))
         (quality_id rc) = 0
  else encoded_size_by_quality (quality_eval_data rc)
       = [0; 0; 0; 0; 0; 0; 0].
Proof.
  intros Hs Hnew.
  apply (run_events_table u jcs events encoder).
  - apply (reachable_rate_control_wf u jcs sbr new_cbs now encoder []);
      assumption.
  - now apply (new_encoder_table sbr new_cbs now).
Qed.

Lemma sample_table_invariant_witness :
  let rc := rate_control busy_encoder in
  if during_quality_eval rc
  then array_get (encoded_size_by_quality (quality_eval_data rc))
         (quality_id rc) = 0
  else encoded_size_by_quality (quality_eval_data rc)
       = [0; 0; 0; 0; 0; 0; 0].
Proof.
  apply (sample_table_invariant example_undefined_uint64 false 8000000
           example_cbs (seconds 1) example_encoder busy_stream_frames).
  - lia.
  - reflexivity.
Defined.

(** X17: every evaluation completes.  From any state reached from
    construction, [MJPEG_QUALITY_SAMPLE_NUM] samples that are not zero,
    each recorded and evaluated as
    [mjpeg_encoder_adjust_params_to_bit_rate] does it, leave no
    evaluation in progress, whatever the sizes and whatever the host
    answers. *)
Theorem evaluation_completes u jcs sbr new_cbs now encoder events samples :
  0 <= sbr < 2 ^ 64 ->
  mjpeg_encoder_new SPICE_VIDEO_CODEC_TYPE_MJPEG sbr new_cbs now
  = Some encoder ->
  Forall (fun sample => snd sample <> 0) samples ->
  MJPEG_QUALITY_SAMPLE_NUM <= Z.of_nat (length samples) ->
  during_quality_eval
    (rate_control (eval_samples (run_events u jcs encoder events) samples))
  = false.
Proof.
  intros Hs Hnew Hsizes Hlen.
  pose proof (reachable_rate_control_wf u jcs sbr new_cbs now encoder events
                Hs Hnew) as Hwf.
  assert (Ht : eval_table_ok
                 (rate_control (run_events u jcs encoder events))).
  { apply run_events_table.
    - apply (reachable_rate_control_wf u jcs sbr new_cbs now encoder []);
        assumption.
    - now apply (new_encoder_table sbr new_cbs now). }
  apply eval_samples_completes; try assumption.
  - intros Hd. unfold eval_table_ok in Ht. rewrite Hd in Ht. exact Ht.
  - unfold unsampled.
    pose proof (count_occ_le_length
                  (encoded_size_by_quality
                     (quality_eval_data
                        (rate_control (run_events u jcs encoder events))))
                  0) as Hc.
    rewrite (wf_sizes _ Hwf) in Hc.
    unfold MJPEG_QUALITY_SAMPLE_NUM in Hlen. lia.
Qed.

Lemma evaluation_completes_witness :
  during_quality_eval
    (rate_control
       (eval_samples
          (run_events example_undefined_uint64 false example_encoder
             [example_frame (seconds 2) 1000 20000])
          [(example_host, 20000); (example_host, 25000);
           (example_host, 40000); (example_host, 90000);
           (example_host, 90000); (example_host, 90000);
           (example_host, 90000)]))
  = false.
Proof.
  apply (evaluation_completes example_undefined_uint64 false 8000000
           example_cbs (seconds 1)).
  - lia.
  - reflexivity.
  - repeat constructor; discriminate.
  - vm_compute. discriminate.
Defined.

(** ** The warm-up *)

Lemma warmup_kept_refl e : warmup_kept e e.
Proof. left. reflexivity. Qed.

Lemma warmup_kept_trans e1 e2 e3 :
  warmup_kept e1 e2 -> warmup_kept e2 e3 -> warmup_kept e1 e3.
Proof.
  unfold warmup_kept. intros [H12|H12] [H23|H23]; try (right; congruence).
  left. congruence.
Qed.

Lemma warmup_kept_same_rate e e' : same_rate e e' -> warmup_kept e e'.
Proof. intros (_ & _ & H). left. exact H. Qed.

Lemma warmup_kept_rate_control e e' :
  warmup_start_time (rate_control e') = warmup_start_time (rate_control e) ->
  warmup_kept e e'.
Proof. intros H. left. exact H. Qed.

Section Warmup.

Variable undefined_uint64 : float -> Z.
Variable JCS_EXTENSIONS : bool.

Lemma decrease_bit_rate_warmup e now :
  warmup_kept e (mjpeg_encoder_decrease_bit_rate undefined_uint64 e now).
Proof.
  unfold mjpeg_encoder_decrease_bit_rate.
  pose proof (warmup_kept_same_rate _ _ (quality_eval_stop_same_rate e))
    as Hstop.
  generalize dependent (mjpeg_encoder_quality_eval_stop e).
  intros e' Hstop. cbv zeta.
  apply (warmup_kept_trans _ _ _ Hstop).
  unfold warmup_kept.
  case_if; [case_if|];
    try (destruct (decrease_bit_rate_tail_fields undefined_uint64 e'
                     (set_warmup_start_time
                        (set_client_state (rate_control e')
                           cleared_client_state) 0))
           as (_ & _ & _ & _ & _ & ->));
    try (destruct (decrease_bit_rate_tail_fields undefined_uint64 e'
                     (set_client_state (rate_control e')
                        cleared_client_state))
           as (_ & _ & _ & _ & _ & ->));
    fields; auto.
Qed.

Lemma increase_bit_rate_warmup e :
  warmup_kept e (mjpeg_encoder_increase_bit_rate undefined_uint64 e).
Proof.
  unfold mjpeg_encoder_increase_bit_rate. cbv zeta.
  case_if; [|apply warmup_kept_refl].
  pose proof (warmup_kept_same_rate _ _ (quality_eval_stop_same_rate e))
    as Hstop.
  generalize dependent (mjpeg_encoder_quality_eval_stop e).
  intros e' Hstop.
  apply (warmup_kept_trans _ _ _ Hstop). apply warmup_kept_rate_control.
  unfold mjpeg_encoder_quality_eval_set_upgrade. fields.
  case_if; reflexivity.
Qed.

Lemma process_server_drops_warmup e host now :
  warmup_kept e
    (mjpeg_encoder_process_server_drops undefined_uint64 e host now).
Proof.
  unfold mjpeg_encoder_process_server_drops. cbv zeta.
  case_if; [apply warmup_kept_refl|].
  case_if.
  - eapply warmup_kept_trans; [apply (decrease_bit_rate_warmup e now)|].
    apply warmup_kept_rate_control. reflexivity.
  - apply warmup_kept_rate_control. reflexivity.
Qed.

Lemma notify_server_frame_drop_warmup e host now :
  warmup_kept e
    (mjpeg_encoder_notify_server_frame_drop undefined_uint64 e host now).
Proof.
  unfold mjpeg_encoder_notify_server_frame_drop. cbv zeta.
  eapply warmup_kept_trans; [|apply process_server_drops_warmup].
  apply warmup_kept_rate_control. reflexivity.
Qed.

Lemma adjust_params_end_warmup e host now size :
  warmup_kept e (adjust_params_end undefined_uint64 e host now size).
Proof.
  unfold adjust_params_end. case_if.
  - apply warmup_kept_same_rate, record_sample_and_eval_same_rate.
  - apply process_server_drops_warmup.
Qed.

Lemma adjust_params_to_bit_rate_warmup e host now :
  warmup_kept e
    (mjpeg_encoder_adjust_params_to_bit_rate undefined_uint64 e host now).
Proof.
  unfold mjpeg_encoder_adjust_params_to_bit_rate. cbv zeta.
  case_if; [apply warmup_kept_refl|].
  case_if;
    [apply warmup_kept_same_rate, record_sample_and_eval_same_rate|].
  case_if; [apply warmup_kept_refl|].
  case_if; [apply adjust_params_end_warmup|].
  case_if; [|case_if];
    (eapply warmup_kept_trans; [|apply adjust_params_end_warmup]);
    apply warmup_kept_rate_control; reflexivity.
Qed.

Lemma handle_negative_warmup e now t :
  warmup_kept e
    (mjpeg_encoder_handle_negative_client_stream_report undefined_uint64 e
       now t).
Proof.
  unfold mjpeg_encoder_handle_negative_client_stream_report. cbv zeta.
  case_if; [apply warmup_kept_refl|apply decrease_bit_rate_warmup].
Qed.

Lemma handle_positive_warmup e host t :
  warmup_kept e
    (mjpeg_encoder_handle_positive_client_stream_report undefined_uint64 e
       host t).
Proof.
  unfold mjpeg_encoder_handle_positive_client_stream_report. cbv zeta.
  case_if; [apply warmup_kept_refl|].
  case_if; [apply warmup_kept_refl|apply increase_bit_rate_warmup].
Qed.

Lemma client_stream_report_warmup encoder host now nf nd st en delay audio :
  warmup_kept encoder
    (mjpeg_encoder_client_stream_report undefined_uint64 encoder host now nf
       nd st en delay audio).
Proof.
  unfold mjpeg_encoder_client_stream_report. cbv zeta.
  case_if; [apply warmup_kept_refl|].
  match goal with
  | |- context [match ?p with (s, e) => _ end] =>
      assert (Hp : rate_control (snd p) = rate_control encoder);
      [|destruct p as [small e']]
  end.
  { repeat case_if; reflexivity. }
  cbn [snd] in Hp.
  assert (H0 : warmup_kept encoder e')
    by (apply warmup_kept_rate_control; now rewrite Hp).
  assert (H1 : forall cs,
             warmup_kept encoder
               (set_rate_control e'
                  (set_client_state (rate_control e') cs)))
    by (intros cs; apply warmup_kept_rate_control; fields; now rewrite Hp).
  case_if; [eapply warmup_kept_trans; [exact H0|];
            apply handle_negative_warmup|].
  case_if; [eapply warmup_kept_trans; [exact H0|];
            apply handle_negative_warmup|].
  case_if; [eapply warmup_kept_trans; [apply H1|];
            apply handle_negative_warmup|].
  case_if; [eapply warmup_kept_trans; [apply H1|];
            apply handle_positive_warmup|apply H1].
Qed.

Lemma encode_rows_warmup rows :
  forall i e jpeg chunks offset chunk stride,
    warmup_kept e
      (snd (encode_rows rows i e jpeg chunks offset chunk stride)).
Proof.
  induction rows as [|rows IH]; intros i e jpeg chunks offset chunk stride;
    cbn [encode_rows]; [apply warmup_kept_refl|].
  destruct (get_image_line _ _ _ _) as [[line offset'] chunk'].
  destruct line; cbn [negb]; [|apply warmup_kept_refl].
  unfold mjpeg_encoder_encode_scanline.
  case_if.
  - cbn [Z.eqb snd]. apply warmup_kept_rate_control. reflexivity.
  - case_if; [apply warmup_kept_refl|]. apply IH.
Qed.

Lemma end_frame_warmup e jpeg :
  warmup_kept e (mjpeg_encoder_end_frame e jpeg).
Proof.
  apply warmup_kept_rate_control.
  unfold mjpeg_encoder_end_frame. cbv zeta. fields.
  repeat case_if; reflexivity.
Qed.

Lemma encode_frame_warmup e host now now_dec buffer jpeg mm bitmap src
  top_down :
  warmup_kept e
    (snd (mjpeg_encoder_encode_frame undefined_uint64 JCS_EXTENSIONS e host
            now now_dec buffer jpeg mm bitmap src top_down)).
Proof.
  unfold mjpeg_encoder_encode_frame, mjpeg_encoder_start_frame.
  destruct buffer; cbn [negb snd]; [|apply warmup_kept_refl]. cbv zeta.
  pose proof (warmup_kept_same_rate _ _
                (start_frame_pacing_same_rate e host now)) as H1.
  set (e1 := start_frame_pacing e host now) in *.
  case_if; cbn [snd]; [exact H1|].
  pose proof (adjust_params_to_bit_rate_warmup e1 host now_dec) as H2.
  set (e2 := mjpeg_encoder_adjust_params_to_bit_rate undefined_uint64 e1
               host now_dec) in *.
  assert (H3 : warmup_kept e2 (stamp_frame_time e2 now mm)).
  { apply warmup_kept_rate_control. unfold stamp_frame_time. cbv zeta.
    case_if; reflexivity. }
  set (e3 := stamp_frame_time e2 now mm) in *.
  pose proof (start_compress_rate_control JCS_EXTENSIONS e3 (format bitmap)
                src) as Hrc.
  destruct (start_compress JCS_EXTENSIONS e3 (format bitmap) src)
    as [ret e4].
  cbn [snd] in Hrc.
  assert (H4 : warmup_kept e e4).
  { eapply warmup_kept_trans; [exact H1|].
    eapply warmup_kept_trans; [exact H2|].
    eapply warmup_kept_trans; [exact H3|].
    apply warmup_kept_rate_control. now rewrite Hrc. }
  destruct ret; cbn [snd]; try exact H4.
  unfold encode_frame. cbv zeta.
  destruct (skip_image_lines _ _ _ _ _) as [offset chunk].
  match goal with
  | |- context [encode_rows ?r ?i ?e ?j ?c ?o ?k ?s] =>
      pose proof (encode_rows_warmup r i e j c o k s) as H5;
      destruct (encode_rows r i e j c o k s) as [ok e5]
  end.
  cbn [snd] in H5.
  destruct ok; cbn [snd].
  - eapply warmup_kept_trans; [exact H4|].
    eapply warmup_kept_trans; [exact H5|apply end_frame_warmup].
  - eapply warmup_kept_trans; [exact H4|exact H5].
Qed.

Lemma run_event_warmup e ev :
  warmup_kept e (run_event undefined_uint64 JCS_EXTENSIONS e ev).
Proof.
  destruct ev; cbn [run_event].
  - apply encode_frame_warmup.
  - apply client_stream_report_warmup.
  - apply notify_server_frame_drop_warmup.
Qed.

End Warmup.

(** X18: the warm-up happens once.  No frame, client report or
    server-drop notification sets [warmup_start_time]: after any run it
    still holds the stamp it had, or zero, so that a warm-up that has
    ended (stamp zero) is never started again. *)
Theorem warmup_never_restarts u jcs encoder events :
  let w := warmup_start_time (rate_control encoder) in
  let w' := warmup_start_time (rate_control (run_events u jcs encoder events))
  in
  w' = w \/ w' = 0.
Proof.
  cbv zeta. fold (warmup_kept encoder (run_events u jcs encoder events)).
  revert encoder.
  induction events as [|ev events IH]; intros encoder;
    cbn [run_events fold_left]; [apply warmup_kept_refl|].
  eapply warmup_kept_trans; [apply (run_event_warmup u jcs encoder ev)|].
  apply IH.
Qed.

(** ** The outcome of a frame *)

Lemma select_pixel_format_converter jcs e format :
  pixel_converter e = None ->
  match select_pixel_format jcs e format with
  | Some e' =>
      supported_format format = true
      /\ (if uses_pixel_converter jcs format
          then pixel_converter e' <> None
          else pixel_converter e' = None)
      /\ row_size e' = row_size e
  | None => supported_format format = false
  end.
Proof.
  intros Hnone. unfold select_pixel_format.
  destruct format, jcs; cbn [supported_format uses_pixel_converter negb];
    fields; rewrite ?Hnone; auto; (split; [reflexivity|]); split;
    try reflexivity; discriminate.
Qed.

Lemma start_compress_done_iff jcs e format src :
  fst (start_compress jcs e format src) = VIDEO_ENCODER_FRAME_ENCODE_DONE
  <-> supported_format format = true
      /\ stride_overflow jcs format src = false.
Proof.
  unfold start_compress, stride_overflow. cbv zeta.
  match goal with
  | |- context [select_pixel_format jcs ?e0 format] =>
      pose proof (select_pixel_format_converter jcs e0 format eq_refl) as H;
      destruct (select_pixel_format jcs e0 format) as [e1|]
  end.
  - destruct H as (Hs & Hc & _). rewrite Hs. fields.
    destruct (uses_pixel_converter jcs format); cbn [andb].
    + destruct (pixel_converter e1); [|contradiction].
      case_if; cbn [fst]; split; intros H; try discriminate; auto.
      destruct H. discriminate.
    + rewrite Hc. cbn [fst]. split; auto.
  - rewrite H. cbn [fst]. split; [discriminate|].
    intros [? _]. discriminate.
Qed.

(** The result of the row loop depends on the bitmap and on libjpeg, not on
    the encoder. *)
Lemma encode_rows_result rows :
  forall i e e' jpeg chunks offset chunk stride,
    fst (encode_rows rows i e jpeg chunks offset chunk stride)
    = fst (encode_rows rows i e' jpeg chunks offset chunk stride).
Proof.
  induction rows as [|rows IH]; intros i e e' jpeg chunks offset chunk
    stride; cbn [encode_rows]; [reflexivity|].
  destruct (get_image_line _ _ _ _) as [[line offset'] chunk'].
  destruct line; cbn [negb]; [|reflexivity].
  unfold mjpeg_encoder_encode_scanline.
  case_if; [reflexivity|]. rewrite Heqb. apply IH.
Qed.

Lemma encode_frame_result e e' jpeg src image top_down :
  fst (encode_frame e jpeg src image top_down)
  = fst (encode_frame e' jpeg src image top_down).
Proof.
  unfold encode_frame. cbv zeta.
  destruct (skip_image_lines _ _ _ _ _) as [offset chunk].
  apply encode_rows_result.
Qed.

(** X19: [mjpeg_encoder_encode_frame] answers
    [VIDEO_ENCODER_FRAME_ENCODE_DONE] exactly when the output buffer could
    be allocated, the admission gate lets the frame pass, the bitmap format
    is one of 16BIT, 24BIT, 32BIT and RGBA, the row of converted pixels
    does not overflow, and every row of the rectangle is found in the
    bitmap and written by libjpeg. *)
Theorem encode_frame_done_iff u jcs encoder host now now_dec buffer jpeg mm
  bitmap src top_down :
  fst (mjpeg_encoder_encode_frame u jcs encoder host now now_dec buffer jpeg
         mm bitmap src top_down) = VIDEO_ENCODER_FRAME_ENCODE_DONE
  <-> buffer = true
      /\ interval_too_short (start_frame_pacing encoder host now) now = false
      /\ supported_format (format bitmap) = true
      /\ stride_overflow jcs (format bitmap) src = false
      /\ fst (encode_frame encoder jpeg src bitmap top_down) = true.
Proof.
  unfold mjpeg_encoder_encode_frame, mjpeg_encoder_start_frame.
  destruct buffer; cbn [negb fst];
    [|split; [discriminate|intros [? _]; discriminate]].
  cbv zeta.
  destruct (interval_too_short _ now); cbn [fst].
  { split; [discriminate|intros (_ & ? & _); discriminate]. }
  match goal with
  | |- context [start_compress jcs ?e3 ?f ?s] =>
      pose proof (start_compress_done_iff jcs e3 f s) as Hiff;
      destruct (start_compress jcs e3 f s) as [ret e4]
  end.
  cbn [fst] in Hiff.
  rewrite (encode_frame_result encoder e4).
  destruct ret; cbn [fst].
  - split; [discriminate|]. intros (_ & _ & Hs & Ho & _).
    apply Hiff. auto.
  - split; [discriminate|]. intros (_ & _ & Hs & Ho & _).
    apply Hiff. auto.
  - destruct Hiff as [Hiff _]. destruct (Hiff eq_refl) as [Hs Ho].
    destruct (encode_frame e4 jpeg src bitmap top_down) as [ok e5].
    destruct ok; cbn [fst]; split; auto.
    + discriminate.
    + intros (_ & _ & _ & _ & ?). discriminate.
Qed.

(** ** The row buffer *)

Lemma start_compress_row_buffer jcs e format src :
  0 <= right src - left src < 2 ^ 31 ->
  fst (start_compress jcs e format src) = VIDEO_ENCODER_FRAME_ENCODE_DONE ->
  let e' := snd (start_compress jcs e format src) in
  image_width (cinfo e') = right src - left src
  /\ (pixel_converter e' <> None ->
      3 * image_width (cinfo e') <= row_size e').
Proof.
  intros Hw. unfold start_compress. cbv zeta.
  destruct (select_pixel_format _ _ _) as [e1|]; [|discriminate].
  fields. rewrite (to_uint32_small (right src - left src))
    by (change (2 ^ 32) with (2 * 2 ^ 31); lia).
  set (w := right src - left src) in *.
  destruct (pixel_converter e1) as [c|] eqn:Hc.
  - destruct (Z.ltb_spec (to_uint32 (w * 3)) w) as [Hlt|Hge];
      [discriminate|].
    intros _. cbn [snd]. fields.
    assert (Hstride : to_uint32 (w * 3) = 3 * w).
    { unfold to_uint32 in *. change (2 ^ 32) with 4294967296 in *.
      change (2 ^ 31) with 2147483648 in *.
      Z.div_mod_to_equations. lia. }
    rewrite Hstride in *.
    destruct (Z.ltb_spec (row_size e1) (3 * w)); fields;
      (split; [reflexivity|]); intros _; lia.
  - intros _. cbn [snd]. fields. split; [reflexivity|].
    rewrite Hc. intros H. now contradiction H.
Qed.

(** X20: when [mjpeg_encoder_start_frame] starts the compression of a
    rectangle that is not wider than [INT32_MAX], the image width it hands
    to libjpeg is the width of the rectangle, and if a pixel converter is
    installed the row buffer holds at least the three bytes per pixel that
    [mjpeg_encoder_encode_scanline] writes to it. *)
Theorem start_frame_row_buffer u jcs encoder host now now_dec format src mm :
  0 <= right src - left src < 2 ^ 31 ->
  fst (mjpeg_encoder_start_frame u jcs encoder host now now_dec format src
         mm) = VIDEO_ENCODER_FRAME_ENCODE_DONE ->
  let e' :=
    snd (mjpeg_encoder_start_frame u jcs encoder host now now_dec format src
           mm) in
  image_width (cinfo e') = right src - left src
  /\ (pixel_converter e' <> None ->
      3 * image_width (cinfo e') <= row_size e').
Proof.
  intros Hw. unfold mjpeg_encoder_start_frame. cbv zeta.
  case_if; cbn [fst]; [discriminate|].
  now apply start_compress_row_buffer.
Qed.

Lemma start_frame_row_buffer_witness :
  let e' :=
    snd (mjpeg_encoder_start_frame example_undefined_uint64 false
           example_encoder example_host (seconds 2) (seconds 2)
           SPICE_BITMAP_FMT_32BIT example_rect 1000) in
  image_width (cinfo e') = right example_rect - left example_rect
  /\ (pixel_converter e' <> None ->
      3 * image_width (cinfo e') <= row_size e').
Proof.
  apply start_frame_row_buffer.
  - vm_compute. split; [discriminate|reflexivity].
  - vm_compute. reflexivity.
Defined.

(** The test [stride < image_width] does not see every overflow: a
    rectangle whose right edge lies left of its left edge is taken for one
    of 2^31 pixels, the stride wraps to 2^31 as well, and the row buffer
    gets a third of the bytes that the row needs. *)
Example stride_overflow_undetected :
  let src := {| left := 0; top := 0; right := - 2 ^ 31; bottom := 2 |} in
  let result :=
    mjpeg_encoder_start_frame example_undefined_uint64 false example_encoder
      example_host (seconds 2) (seconds 2) SPICE_BITMAP_FMT_32BIT src 1000
  in
  fst result = VIDEO_ENCODER_FRAME_ENCODE_DONE
  /\ image_width (cinfo (snd result)) = 2 ^ 31
  /\ row_size (snd result) = 2 ^ 31.
Proof. vm_compute. repeat split. Qed.

(** ** The walk over the rows of a bitmap *)

Lemma skipn_next (l : list Z) : forall n,
  (n < length l)%nat -> skipn n l = nth n l 0 :: skipn (S n) l.
Proof.
  induction l as [|len l IH]; intros n Hn; cbn [length] in Hn; [lia|].
  destruct n as [|n]; [reflexivity|].
  cbn [skipn nth]. apply IH. lia.
Qed.

Lemma array_get_nth (a : list Z) n :
  (n < length a)%nat -> array_get a (Z.of_nat n) = nth n a 0.
Proof.
  intros Hn. unfold array_get.
  assert ((0 <=? Z.of_nat n) && (Z.of_nat n <? Z.of_nat (length a)) = true)
    as ->.
  { apply andb_true_iff. split; [apply Z.leb_le|apply Z.ltb_lt]; lia. }
  now rewrite Nat2Z.id.
Qed.

Lemma chunk_rows_cons stride len l :
  chunk_rows stride (len :: l) = len / stride + chunk_rows stride l.
Proof. reflexivity. Qed.

Section Walk.

Variable stride : Z.
Variable chunks : list Z.

Hypothesis stride_range : 0 < stride < 2 ^ 31.
Hypothesis chunks_count : Z.of_nat (length chunks) < 2 ^ 31.
Hypothesis chunks_whole :
  Forall (fun len => 0 < len < 2 ^ 32 /\ len mod stride = 0) chunks.

Lemma chunk_whole n :
  (n < length chunks)%nat ->
  0 < nth n chunks 0 < 2 ^ 32 /\ nth n chunks 0 mod stride = 0.
Proof.
  intros Hn. rewrite Forall_forall in chunks_whole.
  apply chunks_whole. now apply nth_In.
Qed.

Lemma multiple_at_least x :
  0 < x -> x mod stride = 0 -> stride <= x.
Proof.
  intros Hx Hm.
  destruct (Z.lt_ge_cases x stride) as [Hlt|Hge]; [|exact Hge].
  rewrite Z.mod_small in Hm by lia. lia.
Qed.

Lemma chunk_rows_positive l :
  Forall (fun len => 0 < len < 2 ^ 32 /\ len mod stride = 0) l ->
  0 <= chunk_rows stride l /\ (l <> [] -> 0 < chunk_rows stride l).
Proof.
  induction 1 as [|len l [Hlen Hmod] _ [IH _]].
  - split; [cbn; lia|]. intros H. now contradiction H.
  - pose proof (multiple_at_least len (proj1 Hlen) Hmod) as Hge.
    assert (1 <= len / stride)
      by (apply Z.div_le_lower_bound; lia).
    rewrite chunk_rows_cons. split; [lia|]. intros _. lia.
Qed.

Lemma skipn_whole n :
  Forall (fun len => 0 < len < 2 ^ 32 /\ len mod stride = 0)
    (skipn n chunks).
Proof.
  rewrite Forall_forall in *. intros x Hx. apply chunks_whole.
  rewrite <- (firstn_skipn n chunks). apply in_or_app. now right.
Qed.

Lemma rows_left_nonneg n offset :
  walk_at stride chunks n offset -> 0 <= rows_left stride chunks n offset.
Proof.
  intros (Hn & Ho & Hm). unfold rows_left.
  destruct (chunk_rows_positive _ (skipn_whole (S n))) as [Hr _].
  assert (0 <= (nth n chunks 0 - offset) / stride)
    by (apply Z.div_pos; lia).
  lia.
Qed.

(** At the end of the rows [get_image_line] finds no line and stays where
    it is. *)
Lemma get_image_line_end n offset :
  walk_at stride chunks n offset ->
  rows_left stride chunks n offset = 0 ->
  get_image_line chunks offset (Z.of_nat n) stride
  = (false, offset, Z.of_nat n).
Proof.
  intros (Hn & Ho & Hm) Hk. unfold rows_left in Hk.
  destruct (chunk_whole n Hn) as [Hlen Hlm].
  destruct (chunk_rows_positive _ (skipn_whole (S n))) as [Hr Hpos].
  assert (Hq : 0 <= (nth n chunks 0 - offset) / stride)
    by (apply Z.div_pos; lia).
  assert (Hoff : offset = nth n chunks 0).
  { assert ((nth n chunks 0 - offset) / stride = 0) as Hz by lia.
    assert ((nth n chunks 0 - offset) mod stride = 0) as Hzm.
    { rewrite Zminus_mod, Hlm, Hm. reflexivity. }
    pose proof (Z.div_mod (nth n chunks 0 - offset) stride). lia. }
  assert (Hlast : S n = length chunks).
  { destruct (Nat.eq_dec (S n) (length chunks)) as [He|Hne]; [exact He|].
    assert (skipn (S n) chunks <> []) as Hne'.
    { rewrite (skipn_next chunks (S n)) by lia. discriminate. }
    specialize (Hpos Hne'). lia. }
  unfold get_image_line. cbv zeta.
  rewrite array_get_nth by exact Hn. rewrite <- Hoff, Z.eqb_refl.
  assert ((to_uint32 (Z.of_nat n)
           =? to_uint32 (to_uint32 (Z.of_nat (length chunks)) - 1)) = true)
    as ->; [|reflexivity].
  apply Z.eqb_eq.
  rewrite (to_uint32_small (Z.of_nat (length chunks)))
    by (change (2 ^ 32) with (2 * 2 ^ 31); lia).
  f_equal. lia.
Qed.

(** While rows are left [get_image_line] finds the next one. *)
Lemma get_image_line_next n offset :
  walk_at stride chunks n offset ->
  0 < rows_left stride chunks n offset ->
  exists n' offset',
    get_image_line chunks offset (Z.of_nat n) stride
    = (true, offset', Z.of_nat n')
    /\ walk_at stride chunks n' offset'
    /\ rows_left stride chunks n' offset'
       = rows_left stride chunks n offset - 1.
Proof.
  intros (Hn & Ho & Hm) Hk. unfold rows_left in Hk.
  destruct (chunk_whole n Hn) as [Hlen Hlm].
  assert (Hint : to_int stride = stride)
    by (apply to_int_small; lia).
  assert (Hst64 : to_uint64 stride = stride)
    by (apply to_uint64_small; change (2 ^ 64) with (2 ^ 31 * 2 ^ 33);
        lia).
  unfold get_image_line. cbv zeta.
  rewrite array_get_nth by exact Hn.
  destruct (Z.eqb_spec offset (nth n chunks 0)) as [Hoff|Hoff].
  - (* the chunk is used up: the next one follows *)
    assert (Hz : (nth n chunks 0 - offset) / stride = 0)
      by (rewrite Hoff, Z.sub_diag; apply Z.div_0_l; lia).
    assert (Hnext : (S n < length chunks)%nat).
    { destruct (Nat.lt_ge_cases (S n) (length chunks)) as [H|H];
        [exact H|].
      rewrite skipn_all2 in Hk by exact H. cbn in Hk. lia. }
    destruct (chunk_whole (S n) Hnext) as [Hlen' Hlm'].
    pose proof (multiple_at_least _ (proj1 Hlen') Hlm') as Hge.
    assert ((to_uint32 (Z.of_nat n)
             =? to_uint32 (to_uint32 (Z.of_nat (length chunks)) - 1))
            = false) as ->.
    { apply Z.eqb_neq.
      rewrite (to_uint32_small (Z.of_nat (length chunks)))
        by (change (2 ^ 32) with (2 * 2 ^ 31); lia).
      rewrite !to_uint32_small
        by (change (2 ^ 32) with (2 * 2 ^ 31); lia).
      lia. }
    cbn [andb]. cbv beta iota.
    rewrite to_int_small
      by (change (2 ^ 31) with 2147483648 in *; lia).
    replace (Z.of_nat n + 1) with (Z.of_nat (S n)) by lia.
    rewrite array_get_nth by exact Hnext.
    rewrite Hint, Hst64, Z.sub_0_r.
    rewrite to_uint64_small
      by (change (2 ^ 64) with (2 ^ 32 * 2 ^ 32); lia).
    destruct (Z.ltb_spec (nth (S n) chunks 0) stride) as [Hlt|_]; [lia|].
    exists (S n), stride. split; [|split].
    + rewrite Z.add_0_l, Hst64. reflexivity.
    + split; [exact Hnext|]. split; [lia|apply Z_mod_same_full].
    + unfold rows_left. rewrite Hz.
      rewrite (skipn_next chunks (S n)) by exact Hnext.
      rewrite chunk_rows_cons.
      assert ((nth (S n) chunks 0 - stride) / stride
              = nth (S n) chunks 0 / stride - 1) as ->.
      { replace (nth (S n) chunks 0 - stride)
          with (nth (S n) chunks 0 + (-1) * stride) by lia.
        rewrite Z.div_add by lia. lia. }
      lia.
  - (* the next row of the same chunk *)
    cbn [andb]. cbv beta iota. rewrite ?array_get_nth by exact Hn.
    assert (Hrest : stride <= nth n chunks 0 - offset).
    { apply multiple_at_least; [lia|].
      rewrite Zminus_mod, Hlm, Hm. reflexivity. }
    rewrite Hint, Hst64.
    rewrite to_uint64_small
      by (change (2 ^ 64) with (2 ^ 32 * 2 ^ 32); lia).
    destruct (Z.ltb_spec (nth n chunks 0 - offset) stride) as [Hlt|_];
      [lia|].
    exists n, (offset + stride). split; [|split].
    + rewrite to_uint64_small
        by (change (2 ^ 64) with (2 ^ 32 * 2 ^ 32); lia).
      reflexivity.
    + split; [exact Hn|]. split; [lia|].
      rewrite Zplus_mod, Hm, Z_mod_same_full. reflexivity.
    + unfold rows_left.
      assert ((nth n chunks 0 - (offset + stride)) / stride
              = (nth n chunks 0 - offset) / stride - 1) as ->.
      { replace (nth n chunks 0 - (offset + stride))
          with (nth n chunks 0 - offset + (-1) * stride) by lia.
        rewrite Z.div_add by lia. lia. }
      lia.
Qed.

(** The first loop of [encode_frame] moves down by [skip] rows, or to the
    end of the rows. *)
Lemma skip_image_lines_walk skip :
  forall n offset,
    walk_at stride chunks n offset ->
    exists n' offset',
      skip_image_lines skip chunks offset (Z.of_nat n) stride
      = (offset', Z.of_nat n')
      /\ walk_at stride chunks n' offset'
      /\ rows_left stride chunks n' offset'
         = Z.max 0 (rows_left stride chunks n offset - Z.of_nat skip).
Proof.
  induction skip as [|skip IH]; intros n offset Hat;
    pose proof (rows_left_nonneg n offset Hat) as Hk.
  - exists n, offset. cbn [skip_image_lines].
    split; [reflexivity|]. split; [exact Hat|lia].
  - cbn [skip_image_lines].
    destruct (Z.eq_dec (rows_left stride chunks n offset) 0) as [H0|Hpos].
    + rewrite (get_image_line_end n offset Hat H0).
      destruct (IH n offset Hat) as (n' & offset' & Hskip & Hat' & Hk').
      exists n', offset'. split; [exact Hskip|]. split; [exact Hat'|lia].
    + destruct (get_image_line_next n offset Hat ltac:(lia))
        as (n1 & offset1 & Hline & Hat1 & Hk1).
      rewrite Hline.
      destruct (IH n1 offset1 Hat1) as (n' & offset' & Hskip & Hat' & Hk').
      exists n', offset'. split; [exact Hskip|]. split; [exact Hat'|lia].
Qed.

(** The second loop succeeds exactly when the rows that are left suffice,
    provided libjpeg writes every row. *)
Lemma encode_rows_walk jpeg rows :
  forall i e n offset,
    walk_at stride chunks n offset ->
    (forall j, (i <= j < i + rows)%nat ->
               to_uint32 (scanlines_written jpeg j) <> 0) ->
    fst (encode_rows rows i e jpeg chunks offset (Z.of_nat n) stride)
    = (Z.of_nat rows <=? rows_left stride chunks n offset).
Proof.
  induction rows as [|rows IH]; intros i e n offset Hat Hjpeg;
    pose proof (rows_left_nonneg n offset Hat) as Hk;
    cbn [encode_rows].
  - symmetry. apply Z.leb_le. cbn. exact Hk.
  - destruct (Z.eq_dec (rows_left stride chunks n offset) 0) as [H0|Hpos].
    + rewrite (get_image_line_end n offset Hat H0). cbn [negb fst].
      symmetry. apply Z.leb_gt. lia.
    + destruct (get_image_line_next n offset Hat ltac:(lia))
        as (n1 & offset1 & Hline & Hat1 & Hk1).
      rewrite Hline. cbn [negb].
      unfold mjpeg_encoder_encode_scanline.
      assert (Hw : to_uint32 (scanlines_written jpeg i) <> 0)
        by (apply Hjpeg; lia).
      apply Z.eqb_neq in Hw. rewrite Hw, Hw.
      rewrite (IH (S i) e n1 offset1 Hat1) by (intros j Hj; apply Hjpeg; lia).
      rewrite Hk1.
      destruct (Z.leb_spec (Z.of_nat rows)
                  (rows_left stride chunks n offset - 1));
        symmetry; [apply Z.leb_le|apply Z.leb_gt]; lia.
Qed.

End Walk.

(** X21: on a bitmap whose chunks hold whole rows, and with a libjpeg that
    writes every row, [encode_frame] succeeds exactly when the bitmap has
    as many rows below the ones it skips as the rectangle is high.  A
    rectangle that reaches below the last row of the bitmap makes it fail,
    and the frame is answered [VIDEO_ENCODER_FRAME_UNSUPPORTED]. *)
Theorem encode_frame_rows_iff encoder jpeg src image top_down :
  whole_rows image ->
  (forall i, Z.of_nat i < stream_height src ->
             to_uint32 (scanlines_written jpeg i) <> 0) ->
  fst (encode_frame encoder jpeg src image top_down) = true
  <-> stream_height src
      <= Z.max 0 (bitmap_rows image
                  - Z.max 0 (skip_lines src image top_down)).
Proof.
  intros (Hstride & Hne & Hcount & Hwhole) Hjpeg.
  unfold encode_frame. cbv zeta.
  fold (skip_lines src image top_down). fold (stream_height src).
  assert (Hat : walk_at (stride image) (data image) 0 0).
  { destruct (data image) as [|len l] eqn:Hd; [now contradiction Hne|].
    inversion Hwhole as [|? ? [Hlen _] _]; subst.
    split; [cbn; lia|]. split; [cbn [nth]; lia|apply Z.mod_0_l; lia]. }
  destruct (skip_image_lines_walk (stride image) (data image) Hstride Hcount
              Hwhole (Z.to_nat (skip_lines src image top_down)) 0 0 Hat)
    as (n' & offset' & Hskip & Hat' & Hk').
  change (Z.of_nat 0) with 0 in Hskip. rewrite Hskip.
  rewrite (encode_rows_walk (stride image) (data image) Hstride Hcount
             Hwhole jpeg _ 0 encoder n' offset' Hat').
  - rewrite Hk'.
    assert (Hrows : rows_left (stride image) (data image) 0 0
                    = bitmap_rows image).
    { unfold rows_left, bitmap_rows.
      destruct (data image) as [|len l]; [now contradiction Hne|].
      cbn [nth skipn]. rewrite chunk_rows_cons, Z.sub_0_r. reflexivity. }
    rewrite Hrows.
    assert (Hh : 0 <= stream_height src) by apply to_uint32_range.
    rewrite Z2Nat.id by exact Hh.
    rewrite Z.leb_le.
    destruct (Z.le_ge_cases 0 (skip_lines src image top_down)).
    + rewrite Z2Nat.id by assumption. rewrite (Z.max_r 0 (skip_lines _ _ _))
        by assumption. reflexivity.
    + rewrite (Z.max_l 0 (skip_lines _ _ _)) by lia.
      assert (Z.to_nat (skip_lines src image top_down) = 0%nat) as ->
          by lia.
      reflexivity.
  - intros j Hj. apply Hjpeg.
    assert (Hh : 0 <= stream_height src) by apply to_uint32_range. lia.
Qed.

Lemma encode_frame_rows_iff_witness :
  fst (encode_frame example_encoder (jpeg_success 20000) example_rect
         (example_bitmap SPICE_BITMAP_FMT_32BIT) true) = true
  <-> stream_height example_rect
      <= Z.max 0
           (bitmap_rows (example_bitmap SPICE_BITMAP_FMT_32BIT)
            - Z.max 0
                (skip_lines example_rect
                   (example_bitmap SPICE_BITMAP_FMT_32BIT) true)).
Proof.
  apply encode_frame_rows_iff.
  - unfold whole_rows. cbn [stride data example_bitmap length].
    split; [lia|]. split; [discriminate|]. split; [cbn; lia|].
    repeat constructor; try lia; reflexivity.
  - intros i _. vm_compute. discriminate.
Defined.

(** ** Positive reports *)

(** X22: a positive client report raises the bit rate only after a stable
    playback of at least [MJPEG_CLIENT_POSITIVE_REPORT_TIMEOUT]
    milliseconds: while the first frame of the report lies less than that
    after the start of the accounting window, or the window has not
    started, [mjpeg_encoder_handle_positive_client_stream_report] leaves
    the encoder as it is. *)
Theorem positive_report_waits_for_stability u encoder host t :
  let bri := bit_rate_info (rate_control encoder) in
  change_start_mm_time bri = 0
  \/ to_int (to_uint32 (to_int t) - change_start_mm_time bri)
     < MJPEG_CLIENT_POSITIVE_REPORT_TIMEOUT ->
  mjpeg_encoder_handle_positive_client_stream_report u encoder host t
  = encoder.
Proof.
  cbv zeta. intros Hearly.
  unfold mjpeg_encoder_handle_positive_client_stream_report. cbv zeta.
  case_if; [reflexivity|].
  destruct Hearly as [H0|Hlt].
  - rewrite H0. reflexivity.
  - match goal with
    | |- (if ?c || (?s <? ?timeout) then _ else _) = _ =>
        assert (Ht : (s <? timeout) = true)
    end.
    { apply Z.ltb_lt.
      unfold MJPEG_CLIENT_POSITIVE_REPORT_TIMEOUT,
        MJPEG_CLIENT_POSITIVE_REPORT_STRICT_TIMEOUT in *.
      case_if; lia. }
    rewrite Ht, orb_true_r. reflexivity.
Qed.

Lemma positive_report_waits_for_stability_witness :
  mjpeg_encoder_handle_positive_client_stream_report
    example_undefined_uint64 busy_encoder example_host 6000
  = busy_encoder.
Proof.
  apply positive_report_waits_for_stability.
  right. vm_compute. reflexivity.
Defined.

(** ** Encoded frames *)

Lemma end_frame_fields e jpeg :
  last_enc_size (rate_control (mjpeg_encoder_end_frame e jpeg))
  = to_uint64 (compressed_size jpeg)
  /\ first_frame (mjpeg_encoder_end_frame e jpeg) = false
  /\ num_frames_encoded
       (server_state (rate_control (mjpeg_encoder_end_frame e jpeg)))
     = to_uint32 (num_frames_encoded (server_state (rate_control e)) + 1).
Proof.
  unfold mjpeg_encoder_end_frame. cbv zeta. fields.
  split; [|split]; repeat case_if; reflexivity.
Qed.

(** X23: a frame answered [VIDEO_ENCODER_FRAME_ENCODE_DONE] leaves the
    size that libjpeg compressed it to in [last_enc_size], where the next
    frame's adjustment reads its sample, and clears [first_frame]. *)
Theorem encoded_frame_records_its_size u jcs encoder host now now_dec buffer
  jpeg mm bitmap src top_down :
  fst (mjpeg_encoder_encode_frame u jcs encoder host now now_dec buffer jpeg
         mm bitmap src top_down) = VIDEO_ENCODER_FRAME_ENCODE_DONE ->
  let e' :=
    snd (mjpeg_encoder_encode_frame u jcs encoder host now now_dec buffer
           jpeg mm bitmap src top_down) in
  last_enc_size (rate_control e') = to_uint64 (compressed_size jpeg)
  /\ first_frame e' = false.
Proof.
  unfold mjpeg_encoder_encode_frame.
  destruct buffer; cbn [negb fst snd]; [|discriminate].
  destruct (mjpeg_encoder_start_frame _ _ _ _ _ _ _ _ _) as [ret e1].
  destruct ret; cbn [fst snd]; try discriminate.
  destruct (encode_frame _ _ _ _ _) as [ok e2].
  destruct ok; cbn [fst snd]; [|discriminate].
  intros _. destruct (end_frame_fields e2 jpeg) as (Hl & Hf & _). auto.
Qed.

Lemma encoded_frame_records_its_size_witness :
  let e' :=
    snd (mjpeg_encoder_encode_frame example_undefined_uint64 false
           example_encoder example_host (seconds 2) (seconds 2) true
           (jpeg_success 20000) 1000
           (example_bitmap SPICE_BITMAP_FMT_32BIT) example_rect true) in
  last_enc_size (rate_control e') = to_uint64 (compressed_size
                                                 (jpeg_success 20000))
  /\ first_frame e' = false.
Proof.
  apply encoded_frame_records_its_size. vm_compute. reflexivity.
Defined.
